(** * igb_uio: interrupt masking, interrupt handler, attach and unwind

    A shallow embedding of [lib/librte_eal/linuxapp/igb_uio/igb_uio.c].
    The driver's functions are written in a small state monad over a
    [world] that holds what the C code reads and writes: the device's
    PCI configuration space, its memory-mapped MSI-X table, the kernel's
    list of MSI descriptors, and a chronological trace of every call the
    driver makes into the kernel. *)

From Stdlib Require Import ZArith Lia.
From stdpp Require Import base gmap list strings.

Open Scope Z_scope.

(** A register of configuration space, or a word of device memory, that
    a map does not hold reads as 0. *)
#[global] Instance hw_default : Inhabited Z := populate 0.

(** ** Fixed-width integers *)

(** Conversion to [uint16_t] and [uint32_t]. *)
Definition u16 (x : Z) : Z := x mod 2 ^ 16.
Definition u32 (x : Z) : Z := x mod 2 ^ 32.

(** ** Constants of the kernel headers the driver is compiled against *)
Module Linux.
(* linux/pci_regs.h *)
Definition PCI_COMMAND : Z := 0x04.
Definition PCI_COMMAND_INTX_DISABLE : Z := 0x400.
Definition PCI_STATUS_INTERRUPT : Z := 0x08.
(* linux/pci.h: error code of a failed configuration access *)
Definition PCIBIOS_DEVICE_NOT_FOUND : Z := 0x86.
(* linux/uio_driver.h *)
Definition MAX_UIO_MAPS : nat := 5.
Definition UIO_MEM_PHYS : Z := 1.
(* linux/interrupt.h *)
Definition IRQF_SHARED : Z := 0x80.
(* asm-generic/errno-base.h *)
Definition ENOMEM : Z := 12.
Definition ENODEV : Z := 19.
End Linux.
Import Linux.

(** ** Constants and types of igb_uio.c *)

Definition PCI_MSIX_ENTRY_SIZE : Z := 16.
Definition PCI_MSIX_ENTRY_LOWER_ADDR : Z := 0.
Definition PCI_MSIX_ENTRY_UPPER_ADDR : Z := 4.
Definition PCI_MSIX_ENTRY_DATA : Z := 8.
Definition PCI_MSIX_ENTRY_VECTOR_CTRL : Z := 12.
Definition PCI_MSIX_ENTRY_CTRL_MASKBIT : Z := 1.

Definition IGBUIO_NUM_MSI_VECTORS : nat := 1.

Inductive igbuio_intr_mode :=
| IGBUIO_LEGACY_INTR_MODE
| IGBUIO_MSI_INTR_MODE
| IGBUIO_MSIX_INTR_MODE
| IGBUIO_INTR_MODE_MAX.

(** The enumerators' values; [udev->mode = 0] stores the first one. *)
Definition intr_mode_value (m : igbuio_intr_mode) : Z :=
  match m with
  | IGBUIO_LEGACY_INTR_MODE => 0
  | IGBUIO_MSI_INTR_MODE => 1
  | IGBUIO_MSIX_INTR_MODE => 2
  | IGBUIO_INTR_MODE_MAX => 3
  end.

Definition igbuio_intr_mode_preferred : igbuio_intr_mode := IGBUIO_MSIX_INTR_MODE.

Inductive irqreturn_t := IRQ_NONE | IRQ_HANDLED.

(** [struct msix_entry]: the vector the kernel assigned, and the table
    entry it was asked for. *)
Record msix_entry := MsixEntry { vector : Z; entry : Z }.

(** [struct msi_desc], the fields the driver touches: the entry number
    ([msi_attrib.entry_nr], 16 bits), the mirror of the vector-control
    word ([masked], 32 bits) and the address of the MSI-X table. *)
Record msi_desc := MsiDesc { entry_nr : Z; masked : Z; mask_base : Z }.

(** [struct uio_mem]; a null [internal_addr] is 0. *)
Record uio_mem := UioMem {
  mem_name : string;
  mem_addr : Z;
  mem_internal_addr : Z;
  mem_size : Z;
  mem_memtype : Z
}.

Definition uio_mem_zero : uio_mem := UioMem "" 0 0 0 0.

(** The two callbacks a [uio_info] can carry. *)
Inductive uio_callback := igbuio_pci_irqhandler_cb | igbuio_pci_irqcontrol_cb.

(** [struct uio_info]. *)
Record uio_info := UioInfo {
  info_name : string;
  info_version : string;
  info_mem : list uio_mem;
  info_irq : Z;
  info_irq_flags : Z;
  info_handler : option uio_callback;
  info_irqcontrol : option uio_callback
}.

(** [struct rte_uio_pci_dev]. The [pdev] pointer and the spin lock are
    the device and the lock of the [world] below. *)
Record rte_uio_pci_dev := RteUioPciDev {
  info : uio_info;
  mode : igbuio_intr_mode;
  msix_entries : list msix_entry
}.

(** What [kzalloc] hands out: every field zero. *)
Definition udev_zero : rte_uio_pci_dev :=
  RteUioPciDev
    (UioInfo "" "" (replicate MAX_UIO_MAPS uio_mem_zero) 0 0 None None)
    IGBUIO_LEGACY_INTR_MODE
    (replicate IGBUIO_NUM_MSI_VECTORS (MsixEntry 0 0)).

(** ** The world *)

Inductive printk_arg := ArgZ (z : Z) | ArgS (s : string).
Inductive loglevel := KERN_ERR | KERN_INFO.

(** Every call that leaves the driver, and the one store the driver
    makes into an object it shares with the kernel (the mirror of an MSI
    descriptor), in the order they are made. *)
Inductive event :=
| EvSpinLockIrqsave
| EvSpinUnlockIrqrestore
| EvPciLock
| EvPciUnlock
| EvCfgReadDword (whr val : Z)
| EvCfgReadFailed (whr : Z)
| EvCfgWriteWord (whr val : Z)
| EvCfgWriteFailed (whr val : Z)
| EvWritel (val addr : Z)
| EvReadl (addr : Z)
| EvStoreMasked (nr val : Z)
| EvPrintk (level : loglevel) (fmt : string) (args : list printk_arg)
| EvKzalloc (ok : bool)
| EvKfree
| EvPciEnableDevice (rc : Z)
| EvPciDisableDevice
| EvPciSetDmaMask (mask rc : Z)
| EvPciRequestRegions (name : string) (rc : Z)
| EvPciReleaseRegions
| EvPciSetMaster
| EvIoremap (addr len ptr : Z)
| EvIounmap (ptr : Z)
| EvPciEnableMsix (entries : list Z) (nvec : Z) (rc : Z)
| EvPciDisableMsix
| EvSpinLockInit
| EvPciSetDrvdata (set : bool)
| EvUioRegisterDevice (irq irq_flags rc : Z)
| EvUioUnregisterDevice.

(** The outcome the bus has in store for a configuration access: it
    succeeds, or it fails and a read delivers [data] instead. *)
Inductive bus_outcome := BusOk | BusError (data : Z).

Record world := World {
  w_cfg : gmap Z Z;          (* configuration space, one dword per aligned offset *)
  w_mmio : gmap Z Z;         (* device memory, one 32-bit word per address *)
  w_msi_list : list msi_desc;  (* pdev->msi_list *)
  w_drvdata : option rte_uio_pci_dev;  (* pci_get_drvdata(dev) *)
  w_bus : list bus_outcome;  (* outcomes of the coming configuration accesses;
                                once exhausted every access succeeds *)
  w_trace : list event
}.

(** ** A state monad over the world *)

Definition M (A : Type) : Type := world -> A * world.

Definition ret {A} (a : A) : M A := fun w => (a, w).
Definition bind {A B} (m : M A) (f : A -> M B) : M B :=
  fun w => let (a, w') := m w in f a w'.

Declare Scope drv_scope.
Delimit Scope drv_scope with drv.
Notation "x <- m ;; k" := (bind m (fun x => k))
  (at level 100, m at next level, right associativity) : drv_scope.
Notation "m ;; k" := (bind m (fun _ => k))
  (at level 100, right associativity) : drv_scope.
Open Scope drv_scope.

Definition emit (e : event) : M unit :=
  fun w => (tt, World (w_cfg w) (w_mmio w) (w_msi_list w) (w_drvdata w) (w_bus w)
                      (w_trace w ++ [e])).

Definition get_msi_list : M (list msi_desc) := fun w => (w_msi_list w, w).
Definition put_msi_list (l : list msi_desc) : M unit :=
  fun w => (tt, World (w_cfg w) (w_mmio w) l (w_drvdata w) (w_bus w) (w_trace w)).
Definition put_cfg (c : gmap Z Z) : M unit :=
  fun w => (tt, World c (w_mmio w) (w_msi_list w) (w_drvdata w) (w_bus w) (w_trace w)).
Definition put_mmio (m : gmap Z Z) : M unit :=
  fun w => (tt, World (w_cfg w) m (w_msi_list w) (w_drvdata w) (w_bus w) (w_trace w)).
Definition put_drvdata (d : option rte_uio_pci_dev) : M unit :=
  fun w => (tt, World (w_cfg w) (w_mmio w) (w_msi_list w) d (w_bus w) (w_trace w)).

(** The outcome of the next configuration access. *)
Definition next_bus_outcome : M bus_outcome :=
  fun w => match w_bus w with
           | [] => (BusOk, w)
           | o :: os => (o, World (w_cfg w) (w_mmio w) (w_msi_list w) (w_drvdata w) os
                                  (w_trace w))
           end.

(** ** Kernel primitives used by the mask controller and the handler *)

Definition spin_lock_irqsave : M unit := emit EvSpinLockIrqsave.
Definition spin_unlock_irqrestore : M unit := emit EvSpinUnlockIrqrestore.
Definition PCI_LOCK : M unit := emit EvPciLock.
Definition PCI_UNLOCK : M unit := emit EvPciUnlock.

(** [pci_read_config_dword(pdev, whr, &val)]: status code and the value
    left in [val]. *)
Definition pci_read_config_dword (whr : Z) : M (Z * Z) :=
  o <- next_bus_outcome;;
  match o with
  | BusOk => fun w =>
      let v := w_cfg w !!! whr in
      (emit (EvCfgReadDword whr v);; ret (0, v)) w
  | BusError data =>
      emit (EvCfgReadFailed whr);; ret (PCIBIOS_DEVICE_NOT_FOUND, u32 data)
  end.

(** The dword of configuration space after a 16-bit write of [val] at
    byte offset [whr]: the half selected by [whr] is replaced. *)
Definition cfg_store_word (c : gmap Z Z) (whr val : Z) : gmap Z Z :=
  let base := whr - whr mod 4 in
  let sh := 8 * (whr mod 4) in
  <[ base := Z.lor (Z.land (c !!! base) (Z.lnot (Z.shiftl 0xFFFF sh)))
                   (Z.shiftl (u16 val) sh) ]> c.

(** [pci_write_config_word(pdev, whr, val)]: status code. *)
Definition pci_write_config_word (whr val : Z) : M Z :=
  o <- next_bus_outcome;;
  match o with
  | BusOk => fun w =>
      (put_cfg (cfg_store_word (w_cfg w) whr val);;
       emit (EvCfgWriteWord whr val);; ret 0) w
  | BusError _ =>
      emit (EvCfgWriteFailed whr val);; ret PCIBIOS_DEVICE_NOT_FOUND
  end.

(** [writel(val, addr)] and [readl(addr)] on device memory. *)
Definition writel (val addr : Z) : M unit :=
  fun w => (put_mmio (<[ addr := val ]> (w_mmio w));; emit (EvWritel val addr)) w.
Definition readl (addr : Z) : M Z :=
  fun w => (emit (EvReadl addr);; ret (w_mmio w !!! addr)) w.

(** ** The interrupt mask controller *)

(** [igbuio_msix_mask_irq(desc, state)]: the status code and the
    descriptor as the call leaves it. *)
Definition igbuio_msix_mask_irq (desc : msi_desc) (state : Z) : M (Z * msi_desc) :=
  let mask_bits := masked desc in
  let offset := u32 (entry_nr desc * PCI_MSIX_ENTRY_SIZE + PCI_MSIX_ENTRY_VECTOR_CTRL) in
  let mask_bits :=
    if negb (state =? 0)
    then u32 (Z.land mask_bits (Z.lnot PCI_MSIX_ENTRY_CTRL_MASKBIT))
    else u32 (Z.lor mask_bits PCI_MSIX_ENTRY_CTRL_MASKBIT) in
  if negb (mask_bits =? masked desc) then
    writel mask_bits (mask_base desc + offset);;
    _ <- readl (mask_base desc);;
    emit (EvStoreMasked (entry_nr desc) mask_bits);;
    ret (0, MsiDesc (entry_nr desc) mask_bits (mask_base desc))
  else ret (0, desc).

(** [list_for_each_entry(desc, &pdev->msi_list, list)
       igbuio_msix_mask_irq(desc, state);] *)
Fixpoint msi_list_for_each_mask (l : list msi_desc) (state : Z) : M (list msi_desc) :=
  match l with
  | [] => ret []
  | desc :: rest =>
      r <- igbuio_msix_mask_irq desc state;;
      rest' <- msi_list_for_each_mask rest state;;
      ret (snd r :: rest')
  end.

(** [igbuio_set_interrupt_mask(udev, state)]. *)
Definition igbuio_set_interrupt_mask (udev : rte_uio_pci_dev) (state : Z) : M Z :=
  match mode udev with
  | IGBUIO_MSIX_INTR_MODE =>
      l <- get_msi_list;;
      l' <- msi_list_for_each_mask l state;;
      put_msi_list l';;
      ret 0
  | IGBUIO_LEGACY_INTR_MODE =>
      r <- pci_read_config_dword PCI_COMMAND;;
      let status := snd r in
      let old := u16 status in
      let new :=
        if negb (state =? 0)
        then u16 (Z.land old (Z.lnot PCI_COMMAND_INTX_DISABLE))
        else u16 (Z.lor old PCI_COMMAND_INTX_DISABLE) in
      (if negb (old =? new)
       then (_ <- pci_write_config_word PCI_COMMAND new;; ret tt)
       else ret tt);;
      ret 0
  | _ => ret 0
  end.

(** [igbuio_pci_irqcontrol(info, irq_state)]; [info] is the one embedded
    in [udev]. *)
Definition igbuio_pci_irqcontrol (udev : rte_uio_pci_dev) (irq_state : Z) : M Z :=
  spin_lock_irqsave;;
  PCI_LOCK;;
  _ <- igbuio_set_interrupt_mask udev irq_state;;
  PCI_UNLOCK;;
  spin_unlock_irqrestore;;
  ret 0.

(** The [done] label of [igbuio_pci_irqhandler]: unlock, print, return. *)
Definition irqhandler_done (irq : Z) (r : irqreturn_t) : M irqreturn_t :=
  PCI_UNLOCK;;
  spin_unlock_irqrestore;;
  emit (EvPrintk KERN_INFO "irq 0x%x %s\n"
          [ArgZ irq;
           ArgS (match r with IRQ_HANDLED => "handled" | IRQ_NONE => "not handled" end)]);;
  ret r.

(** The handler's path for an interrupt that is the device's. *)
Definition irqhandler_mask (irq : Z) (udev : rte_uio_pci_dev) : M irqreturn_t :=
  _ <- igbuio_set_interrupt_mask udev 0;;
  irqhandler_done irq IRQ_HANDLED.

(** [igbuio_pci_irqhandler(irq, info)]; [info] is the one embedded in
    [udev]. *)
Definition igbuio_pci_irqhandler (irq : Z) (udev : rte_uio_pci_dev) : M irqreturn_t :=
  spin_lock_irqsave;;
  PCI_LOCK;;
  match mode udev with
  | IGBUIO_LEGACY_INTR_MODE =>
      r <- pci_read_config_dword PCI_COMMAND;;
      let cmd_status_dword := snd r in
      let status := u16 (Z.shiftr cmd_status_dword 16) in
      if Z.land status PCI_STATUS_INTERRUPT =? 0
      then irqhandler_done irq IRQ_NONE
      else irqhandler_mask irq udev
  | _ => irqhandler_mask irq udev
  end.

(** ** What the kernel answers during an attach *)

(** The kernel calls of the driver that act on the device itself: they
    rewrite the command register, the MSI-X capability or the MSI-X
    table. Their code is the kernel's, not the driver's. *)
Inductive kernel_call :=
  | KPciEnableDevice | KPciSetMaster | KPciDisableDevice
  | KPciEnableMsix | KPciDisableMsix
  | KUioRegisterDevice | KUioUnregisterDevice.

(** The results of the kernel calls [igbuio_pci_probe] and
    [igbuio_pci_remove] make, the facts about the device they read, and
    what each call that acts on the device leaves of configuration space
    and of device memory. *)
Record kernel_env := KernelEnv {
  k_kzalloc : bool;               (* false: out of memory *)
  k_pci_enable_device : Z;
  k_pci_set_dma_mask : Z;
  k_pci_request_regions : Z;
  k_resource_start : Z -> Z;      (* pci_resource_start(dev, bar), as unsigned long *)
  k_resource_len : Z -> Z;        (* pci_resource_len(dev, bar), as unsigned long *)
  k_ioremap : Z -> Z -> Z;        (* 0: the mapping could not be made *)
  k_pci_enable_msix : Z;          (* 0 on success *)
  k_msix_vector : Z -> Z;         (* the vector assigned to a table entry *)
  k_msix_table : Z;               (* where the MSI-X table is mapped *)
  k_uio_register_device : Z;
  k_dev_irq : Z;                  (* dev->irq *)
  k_cfg_after : kernel_call -> gmap Z Z -> gmap Z Z;
                                  (* configuration space as the call leaves it *)
  k_mmio_after : kernel_call -> gmap Z Z -> gmap Z Z
                                  (* device memory as the call leaves it *)
}.

(** The kernel, inside call [c], rewrites the registers of the device. *)
Definition kernel_acts (k : kernel_env) (c : kernel_call) : M unit :=
  fun w => (tt, World (k_cfg_after k c (w_cfg w)) (k_mmio_after k c (w_mmio w))
                      (w_msi_list w) (w_drvdata w) (w_bus w) (w_trace w)).

Definition printk (level : loglevel) (fmt : string) (args : list printk_arg) : M unit :=
  emit (EvPrintk level fmt args).

Definition kzalloc (k : kernel_env) : M bool :=
  emit (EvKzalloc (k_kzalloc k));; ret (k_kzalloc k).
Definition kfree : M unit := emit EvKfree.
Definition pci_enable_device (k : kernel_env) : M Z :=
  kernel_acts k KPciEnableDevice;;
  emit (EvPciEnableDevice (k_pci_enable_device k));; ret (k_pci_enable_device k).
Definition pci_disable_device (k : kernel_env) : M unit :=
  kernel_acts k KPciDisableDevice;; emit EvPciDisableDevice.
Definition pci_set_dma_mask (k : kernel_env) (mask : Z) : M Z :=
  emit (EvPciSetDmaMask mask (k_pci_set_dma_mask k));; ret (k_pci_set_dma_mask k).
Definition pci_request_regions (k : kernel_env) (name : string) : M Z :=
  emit (EvPciRequestRegions name (k_pci_request_regions k));;
  ret (k_pci_request_regions k).
Definition pci_release_regions : M unit := emit EvPciReleaseRegions.
Definition pci_set_master (k : kernel_env) : M unit :=
  kernel_acts k KPciSetMaster;; emit EvPciSetMaster.
Definition spin_lock_init : M unit := emit EvSpinLockInit.
Definition ioremap (k : kernel_env) (addr len : Z) : M Z :=
  emit (EvIoremap addr len (k_ioremap k addr len));; ret (k_ioremap k addr len).
Definition iounmap (ptr : Z) : M unit := emit (EvIounmap ptr).
Definition pci_set_drvdata (d : option rte_uio_pci_dev) : M unit :=
  put_drvdata d;; emit (EvPciSetDrvdata (match d with Some _ => true | None => false end)).
Definition uio_register_device (k : kernel_env) (i : uio_info) : M Z :=
  kernel_acts k KUioRegisterDevice;;
  emit (EvUioRegisterDevice (info_irq i) (info_irq_flags i) (k_uio_register_device k));;
  ret (k_uio_register_device k).
Definition uio_unregister_device (k : kernel_env) : M unit :=
  kernel_acts k KUioUnregisterDevice;; emit EvUioUnregisterDevice.

(** [pci_enable_msix(pdev, entries, nvec)], [nvec] being the length of
    [entries]: the kernel programs the device; on success it links one
    descriptor per requested entry into the device's msi list, its mirror
    being what the table then holds, and stores the assigned vectors
    into [entries]. *)
Definition pci_enable_msix (k : kernel_env) (entries : list msix_entry) (nvec : Z)
  : M (Z * list msix_entry) :=
  let rc := k_pci_enable_msix k in
  kernel_acts k KPciEnableMsix;;
  emit (EvPciEnableMsix (entry <$> entries) nvec rc);;
  if rc =? 0 then
    fun w =>
      (put_msi_list
         ((fun e => MsiDesc (entry e)
                      (w_mmio w !!! (k_msix_table k + (entry e * PCI_MSIX_ENTRY_SIZE
                                                       + PCI_MSIX_ENTRY_VECTOR_CTRL)))
                      (k_msix_table k)) <$> entries);;
       ret (0, (fun e => MsixEntry (k_msix_vector k (entry e)) (entry e)) <$> entries)) w
  else ret (rc, entries).

Definition pci_disable_msix (k : kernel_env) : M unit :=
  kernel_acts k KPciDisableMsix;; emit EvPciDisableMsix;; put_msi_list [].

(** ** Memory regions *)

(** [igbuio_pci_setup_iomem(dev, info, n, pci_bar, name)]: the status
    code and [info] as the call leaves it. *)
Definition igbuio_pci_setup_iomem (k : kernel_env) (i : uio_info)
    (n : nat) (pci_bar : Z) (name : string) : M (Z * uio_info) :=
  let addr := k_resource_start k pci_bar in
  let len := k_resource_len k pci_bar in
  if (addr =? 0) || (len =? 0) then ret (-1, i)
  else
    internal_addr <- ioremap k addr len;;
    if internal_addr =? 0 then ret (-1, i)
    else
      ret (0, UioInfo (info_name i) (info_version i)
                (<[ n := UioMem name addr internal_addr len UIO_MEM_PHYS ]> (info_mem i))
                (info_irq i) (info_irq_flags i) (info_handler i) (info_irqcontrol i)).

(** [for (i = ...; i < ...; i++) body(i)] over the given indices. *)
Fixpoint for_each_index (idx : list nat) (body : nat -> M unit) : M unit :=
  match idx with
  | [] => ret tt
  | i :: rest => body i;; for_each_index rest body
  end.

(** [igbuio_pci_release_iomem(info)]. *)
Definition igbuio_pci_release_iomem (i : uio_info) : M unit :=
  for_each_index (seq 0 MAX_UIO_MAPS) (fun n =>
    match info_mem i !! n with
    | Some m =>
        if negb (mem_internal_addr m =? 0) then iounmap (mem_internal_addr m) else ret tt
    | None => ret tt
    end).

(** ** Attach and detach *)

Definition set_mode (udev : rte_uio_pci_dev) (m : igbuio_intr_mode) : rte_uio_pci_dev :=
  RteUioPciDev (info udev) m (msix_entries udev).
Definition set_msix_entries (udev : rte_uio_pci_dev) (l : list msix_entry) : rte_uio_pci_dev :=
  RteUioPciDev (info udev) (mode udev) l.
Definition set_irq (udev : rte_uio_pci_dev) (flags irq : Z) : rte_uio_pci_dev :=
  let i := info udev in
  RteUioPciDev
    (UioInfo (info_name i) (info_version i) (info_mem i) irq flags
             (info_handler i) (info_irqcontrol i))
    (mode udev) (msix_entries udev).

(** The unwind labels of [igbuio_pci_probe]; each falls through to the
    next. *)
Definition fail_free : M Z := kfree;; ret (- ENODEV).
Definition fail_disable (k : kernel_env) : M Z := pci_disable_device k;; fail_free.
Definition fail_release_regions (k : kernel_env) : M Z :=
  pci_release_regions;; fail_disable k.
Definition fail_release_iomem (k : kernel_env) (udev : rte_uio_pci_dev) : M Z :=
  igbuio_pci_release_iomem (info udev);;
  (match mode udev with
   | IGBUIO_MSIX_INTR_MODE => pci_disable_msix k
   | _ => ret tt
   end);;
  fail_release_regions k.

(** The interrupt-mode block of [igbuio_pci_probe]: the MSI-X attempt
    and the [switch] on the mode that results. *)
Definition probe_intr_mode (k : kernel_env) (udev : rte_uio_pci_dev) : M rte_uio_pci_dev :=
  udev <-
    match igbuio_intr_mode_preferred with
    | IGBUIO_MSIX_INTR_MODE =>
        let udev :=
          set_msix_entries udev
            (imap (fun vec e => MsixEntry (vector e) (Z.of_nat vec)) (msix_entries udev)) in
        r <- pci_enable_msix k (msix_entries udev) (Z.of_nat IGBUIO_NUM_MSI_VECTORS);;
        if fst r =? 0 then
          ret (set_mode (set_msix_entries udev (snd r)) IGBUIO_MSIX_INTR_MODE)
        else
          pci_disable_msix k;;
          printk KERN_INFO "fail to enable pci msix, or not enough msix entries\n" [];;
          ret udev
    | _ => ret udev
    end;;
  match mode udev with
  | IGBUIO_MSIX_INTR_MODE =>
      ret (set_irq udev 0 (from_option vector 0 (msix_entries udev !! 0%nat)))
  | IGBUIO_MSI_INTR_MODE => ret udev
  | IGBUIO_LEGACY_INTR_MODE => ret (set_irq udev IRQF_SHARED (k_dev_irq k))
  | _ => ret udev
  end.

(** [igbuio_pci_probe(dev, id)]. *)
Definition igbuio_pci_probe (k : kernel_env) : M Z :=
  ok <- kzalloc k;;
  if negb ok then ret (- ENOMEM) else
  let udev := udev_zero in
  rc <- pci_enable_device k;;
  if negb (rc =? 0) then
    printk KERN_ERR "Cannot enable PCI device\n" [];; fail_free
  else
  rc <- pci_set_dma_mask k 0xffffffff;;
  if negb (rc =? 0) then
    printk KERN_ERR "Cannot set DMA mask\n" [];; fail_disable k
  else
  rc <- pci_request_regions k "igb_uio";;
  if negb (rc =? 0) then
    printk KERN_ERR "Cannot request regions\n" [];; fail_disable k
  else
  pci_set_master k;;
  r <- igbuio_pci_setup_iomem k (info udev) 0 0 "config";;
  if negb (fst r =? 0) then fail_release_regions k else
  let i := snd r in
  let udev :=
    RteUioPciDev
      (UioInfo "Intel IGB UIO" "0.1" (info_mem i) (info_irq i) (info_irq_flags i)
               (Some igbuio_pci_irqhandler_cb) (Some igbuio_pci_irqcontrol_cb))
      IGBUIO_LEGACY_INTR_MODE (msix_entries udev) in
  spin_lock_init;;
  udev <- probe_intr_mode k udev;;
  pci_set_drvdata (Some udev);;
  _ <- igbuio_pci_irqcontrol udev 0;;
  rc <- uio_register_device k (info udev);;
  if negb (rc =? 0) then fail_release_iomem k udev else
  printk KERN_INFO "uio device registered with irq %lx\n" [ArgZ (info_irq (info udev))];;
  ret 0.

(** [igbuio_pci_remove(dev)]: [None] when the kernel faults. The code
    hands the driver data to [uio_unregister_device] and then reads
    [info->priv] without a test: on a device without driver data this
    dereferences a null pointer. *)
Definition igbuio_pci_remove (k : kernel_env) : M (option unit) :=
  fun w =>
    let info := w_drvdata w in
    (uio_unregister_device k;;
     match info with
     | None => ret None
     | Some udev =>
         (match mode udev with
          | IGBUIO_MSIX_INTR_MODE => pci_disable_msix k
          | _ => ret tt
          end);;
         pci_release_regions;;
         pci_disable_device k;;
         pci_set_drvdata None;;
         kfree;;
         ret (Some tt)
     end) w.

(** * Vocabulary of the statements, and example devices *)

(** ** Bits *)

Definition is_u16 (x : Z) : Prop := 0 <= x < 2 ^ 16.
Definition is_u32 (x : Z) : Prop := 0 <= x < 2 ^ 32.

(** [v] with bit [n] forced to [b]. *)
Definition with_bit (v n : Z) (b : bool) : Z :=
  if b then Z.setbit v n else Z.clearbit v n.

(** ** The mask controller *)

(** The world with [es] appended to its trace. *)
Definition logged (w : world) (es : list event) : world :=
  World (w_cfg w) (w_mmio w) (w_msi_list w) (w_drvdata w) (w_bus w) (w_trace w ++ es).

(** A descriptor whose fields fit their C types. *)
Definition msi_desc_ok (d : msi_desc) : Prop :=
  is_u16 (entry_nr d) /\ is_u32 (masked d).

(** Where the vector-control word of a descriptor's table entry lives. *)
Definition vector_ctrl_addr (d : msi_desc) : Z :=
  mask_base d + (entry_nr d * 16 + 12).

(** The mask bit asked for: clear (unmasked) to enable, set (masked) to
    disable. *)
Definition wanted_maskbit (state : Z) : bool := state =? 0.

(** A descriptor's mirror already holds the wanted mask bit. *)
Definition mirror_agrees (state : Z) (d : msi_desc) : bool :=
  bool_decide (Z.testbit (masked d) 0 = wanted_maskbit state).

Definition msix_new_mirror (state : Z) (d : msi_desc) : Z :=
  with_bit (masked d) 0 (wanted_maskbit state).

(** The MMIO traffic and the mirror store one descriptor gives rise to. *)
Definition msix_mask_events (state : Z) (d : msi_desc) : list event :=
  if mirror_agrees state d then []
  else [EvWritel (msix_new_mirror state d) (vector_ctrl_addr d);
        EvReadl (mask_base d);
        EvStoreMasked (entry_nr d) (msix_new_mirror state d)].

Definition msix_masked_desc (state : Z) (d : msi_desc) : msi_desc :=
  MsiDesc (entry_nr d) (msix_new_mirror state d) (mask_base d).

Definition msix_mmio_step (state : Z) (m : gmap Z Z) (d : msi_desc) : gmap Z Z :=
  if mirror_agrees state d then m
  else <[ vector_ctrl_addr d := msix_new_mirror state d ]> m.

(** Hardware writes (issued, whether or not the bus completes them). *)
Definition is_hw_write (e : event) : bool :=
  match e with
  | EvWritel _ _ | EvCfgWriteWord _ _ | EvCfgWriteFailed _ _ => true
  | _ => false
  end.

Fixpoint hw_writes (t : list event) : nat :=
  match t with
  | [] => 0%nat
  | e :: t' => ((if is_hw_write e then 1 else 0) + hw_writes t')%nat
  end.

Definition is_printk (e : event) : bool :=
  match e with EvPrintk _ _ _ => true | _ => false end.

(** A device in MSI-X mode with one unmasked vector, entry 0 of a table
    mapped at 0x2000, and nothing else. *)
Definition udev_msix_example : rte_uio_pci_dev :=
  RteUioPciDev (info udev_zero) IGBUIO_MSIX_INTR_MODE [MsixEntry 42 0].
Definition world_msix_example : world :=
  World ∅ (<[ 0x200c := 0 ]> ∅) [MsiDesc 0 0 0x2000] None [] [].

(** The same device with its vector masked. *)
Definition world_msix_masked_example : world :=
  World ∅ (<[ 0x200c := 1 ]> ∅) [MsiDesc 0 1 0x2000] None [] [].

(** The command/status dword after the command half is replaced. *)
Definition with_command (dword cmd : Z) : Z :=
  Z.lor (Z.land dword (Z.lnot 0xFFFF)) (u16 cmd).

(** A device in Legacy mode whose command register has interrupts
    disabled (0x0407) and whose status register shows one pending
    (0x0018). *)
Definition udev_legacy_example : rte_uio_pci_dev :=
  RteUioPciDev (info udev_zero) IGBUIO_LEGACY_INTR_MODE [MsixEntry 0 0].
Definition world_legacy_example : world :=
  World (<[ PCI_COMMAND := 0x00180407 ]> ∅) ∅ [] None [] [].

Definition irq_enter : list event := [EvSpinLockIrqsave; EvPciLock].
Definition irq_leave (irq : Z) (r : irqreturn_t) : list event :=
  [EvPciUnlock; EvSpinUnlockIrqrestore;
   EvPrintk KERN_INFO "irq 0x%x %s\n"
     [ArgZ irq; ArgS (match r with IRQ_HANDLED => "handled" | IRQ_NONE => "not handled" end)]].

(** The same device with nothing pending (status 0x0010). *)
Definition world_shared_line_example : world :=
  World (<[ PCI_COMMAND := 0x00100007 ]> ∅) ∅ [] None [] [].

(** The calls the mask controller and its two callers make. *)
Definition is_mask_traffic (e : event) : bool :=
  match e with
  | EvSpinLockIrqsave | EvSpinUnlockIrqrestore | EvPciLock | EvPciUnlock
  | EvCfgReadDword _ _ | EvCfgReadFailed _ | EvCfgWriteWord _ _ | EvCfgWriteFailed _ _
  | EvWritel _ _ | EvReadl _ | EvStoreMasked _ _ => true
  | _ => false
  end.

(** [w'] is [w] after some such calls, with the driver data of the
    device untouched. *)
Definition mask_traffic_step (w w' : world) : Prop :=
  w_drvdata w' = w_drvdata w
  /\ exists es, w_trace w' = w_trace w ++ es /\ Forall (fun e => is_mask_traffic e = true) es.

(** [w'] is [w] after some calls none of which is a [printk], with the
    driver data of the device untouched. *)
Definition silent_step (w w' : world) : Prop :=
  w_drvdata w' = w_drvdata w
  /\ exists es, w_trace w' = w_trace w ++ es /\ Forall (fun e => is_printk e = false) es.

(** The Legacy device of the examples, on a bus about to fail one read
    the way an absent device does, delivering all ones. *)
Definition world_bus_error_example : world :=
  World (<[ PCI_COMMAND := 0x00180407 ]> ∅) ∅ [] None [BusError 0xFFFFFFFF] [].

(** On a bus that completes the read and refuses the write, unmasking
    leaves the command register masked. *)
Definition world_write_refused_example : world :=
  World (<[ PCI_COMMAND := 0x00180407 ]> ∅) ∅ [] None [BusOk; BusError 0] [].

(** The calls made between [w] and a later [w']. *)
Definition trace_since (w w' : world) : list event :=
  drop (length (w_trace w)) (w_trace w').

(** The mirrors of the msi list are those of distinct table entries and
    hold what the entries' vector-control words hold. *)
Definition mirrors_consistent (w : world) : Prop :=
  Forall msi_desc_ok (w_msi_list w)
  /\ NoDup (vector_ctrl_addr <$> w_msi_list w)
  /\ Forall (fun d => w_mmio w !!! vector_ctrl_addr d = masked d) (w_msi_list w).

(** The one bit each mode's mask operation is about. *)
Definition cfg_mask_bit (udev : rte_uio_pci_dev) (r i : Z) : Prop :=
  mode udev = IGBUIO_LEGACY_INTR_MODE /\ r = PCI_COMMAND /\ i = 10.
Definition mmio_mask_bit (udev : rte_uio_pci_dev) (w : world) (a i : Z) : Prop :=
  mode udev = IGBUIO_MSIX_INTR_MODE /\ a ∈ vector_ctrl_addr <$> w_msi_list w /\ i = 0.

(** [w'] differs from [w] in no bit of configuration space or device
    memory other than mask bits. *)
Definition only_mask_bits_differ (udev : rte_uio_pci_dev) (w w' : world) : Prop :=
  (forall r i, 0 <= i -> ~ cfg_mask_bit udev r i ->
     Z.testbit (w_cfg w' !!! r) i = Z.testbit (w_cfg w !!! r) i)
  /\ (forall a i, 0 <= i -> ~ mmio_mask_bit udev w a i ->
        Z.testbit (w_mmio w' !!! a) i = Z.testbit (w_mmio w !!! a) i).

(** Every mask bit of the device's mode has value [b] in the hardware. *)
Definition mask_bits_are (udev : rte_uio_pci_dev) (w : world) (b : bool) : Prop :=
  (mode udev = IGBUIO_LEGACY_INTR_MODE -> Z.testbit (w_cfg w !!! PCI_COMMAND) 10 = b)
  /\ (mode udev = IGBUIO_MSIX_INTR_MODE ->
      forall d, d ∈ w_msi_list w -> Z.testbit (w_mmio w !!! vector_ctrl_addr d) 0 = b).

(** Every register and every word of device memory reads the same. *)
Definition same_hardware (w w' : world) : Prop :=
  (forall r, w_cfg w' !!! r = w_cfg w !!! r)
  /\ (forall a, w_mmio w' !!! a = w_mmio w !!! a).

(** ** Attach *)

(** The registers as a kernel call leaves them when it finds them as it
    wants them. *)
Definition as_found : kernel_call -> gmap Z Z -> gmap Z Z := fun _ regs => regs.

(** A kernel on which every call of the attach succeeds, for a device
    with a 4 KiB BAR 0 at 0x1000 whose registers the calls leave as they
    find them. *)
Definition kernel_env_example : kernel_env :=
  KernelEnv true 0 0 0
    (fun bar => if bar =? 0 then 0x1000 else 0)
    (fun bar => if bar =? 0 then 0x1000 else 0)
    (fun addr len => 0xffffc90000100000)
    0 (fun e => 42 + e) 0x2000 0 11 as_found as_found.

(** The same kernel for a device without BAR 0, and out of mapping
    space. *)
Definition kernel_env_no_bar : kernel_env :=
  KernelEnv true 0 0 0 (fun _ => 0) (fun _ => 0) (fun addr len => 0xffffc90000100000)
    0 (fun e => 42 + e) 0x2000 0 11 as_found as_found.
Definition kernel_env_no_map : kernel_env :=
  KernelEnv true 0 0 0
    (fun bar => if bar =? 0 then 0x1000 else 0)
    (fun bar => if bar =? 0 then 0x1000 else 0)
    (fun addr len => 0)
    0 (fun e => 42 + e) 0x2000 0 11 as_found as_found.

Definition world_empty : world := World ∅ ∅ [] None [] [].

(** The kernel [k], had its MSI-X allocation ended with [rc]. *)
Definition with_msix_outcome (k : kernel_env) (rc : Z) : kernel_env :=
  KernelEnv (k_kzalloc k) (k_pci_enable_device k) (k_pci_set_dma_mask k)
    (k_pci_request_regions k) (k_resource_start k) (k_resource_len k) (k_ioremap k)
    rc (k_msix_vector k) (k_msix_table k) (k_uio_register_device k) (k_dev_irq k)
    (k_cfg_after k) (k_mmio_after k).

(** What the attach holds on to, and which calls take and give back. A
    failed MSI-X attempt counts as taken: it may leave a partial
    allocation behind, which [pci_disable_msix] gives back. *)
Inductive resource := ResContext | ResDevice | ResRegions | ResIomem (ptr : Z) | ResMsix.

Definition acquires (e : event) : option resource :=
  match e with
  | EvKzalloc ok => if ok then Some ResContext else None
  | EvPciEnableDevice rc => if rc =? 0 then Some ResDevice else None
  | EvPciRequestRegions _ rc => if rc =? 0 then Some ResRegions else None
  | EvIoremap _ _ ptr => if ptr =? 0 then None else Some (ResIomem ptr)
  | EvPciEnableMsix _ _ _ => Some ResMsix
  | _ => None
  end.

Definition releases (e : event) : option resource :=
  match e with
  | EvKfree => Some ResContext
  | EvPciDisableDevice => Some ResDevice
  | EvPciReleaseRegions => Some ResRegions
  | EvIounmap ptr => Some (ResIomem ptr)
  | EvPciDisableMsix => Some ResMsix
  | _ => None
  end.

Definition acquired (t : list event) : list resource := omap acquires t.
Definition released (t : list event) : list resource := omap releases t.

(** BAR 0 is present and can be mapped. *)
Definition iomem_ok (k : kernel_env) : bool :=
  negb ((k_resource_start k 0 =? 0) || (k_resource_len k 0 =? 0)
        || (k_ioremap k (k_resource_start k 0) (k_resource_len k 0) =? 0)).

(** The status the attach ends with, by the kernel's answers. The answer
    to the MSI-X request is not among them. *)
Definition probe_status (k : kernel_env) : Z :=
  if negb (k_kzalloc k) then - ENOMEM
  else if (k_pci_enable_device k =? 0) && (k_pci_set_dma_mask k =? 0)
          && (k_pci_request_regions k =? 0) && iomem_ok k
          && (k_uio_register_device k =? 0)
       then 0
       else - ENODEV.

(** The pointer BAR 0 is mapped at. *)
Definition bar0_ptr (k : kernel_env) : Z :=
  k_ioremap k (k_resource_start k 0) (k_resource_len k 0).

(** What the attach has taken and given back when it returns. *)
Definition probe_resources (k : kernel_env) : list resource * list resource :=
  if negb (k_kzalloc k) then ([], [])
  else if negb (k_pci_enable_device k =? 0) then ([ResContext], [ResContext])
  else if negb (k_pci_set_dma_mask k =? 0) || negb (k_pci_request_regions k =? 0)
       then ([ResContext; ResDevice], [ResDevice; ResContext])
  else if negb (iomem_ok k)
       then ([ResContext; ResDevice; ResRegions], [ResRegions; ResDevice; ResContext])
  else
    ([ResContext; ResDevice; ResRegions; ResIomem (bar0_ptr k); ResMsix],
     if k_uio_register_device k =? 0
     then (if k_pci_enable_msix k =? 0 then [] else [ResMsix])
     else (if k_pci_enable_msix k =? 0
           then [ResIomem (bar0_ptr k); ResMsix; ResRegions; ResDevice; ResContext]
           else [ResMsix; ResIomem (bar0_ptr k); ResRegions; ResDevice; ResContext])).

(** The stages before the interrupt-mode block all succeed. *)
Definition probe_prefix_ok (k : kernel_env) : bool :=
  k_kzalloc k && (k_pci_enable_device k =? 0) && (k_pci_set_dma_mask k =? 0)
  && (k_pci_request_regions k =? 0) && iomem_ok k.

Definition selected_mode (k : kernel_env) : igbuio_intr_mode :=
  if k_pci_enable_msix k =? 0 then IGBUIO_MSIX_INTR_MODE else IGBUIO_LEGACY_INTR_MODE.
Definition registered_irq (k : kernel_env) : Z :=
  if k_pci_enable_msix k =? 0 then k_msix_vector k 0 else k_dev_irq k.
Definition registered_irq_flags (k : kernel_env) : Z :=
  if k_pci_enable_msix k =? 0 then 0 else IRQF_SHARED.

(** The context the attach builds. *)
Definition attached_context (k : kernel_env) : rte_uio_pci_dev :=
  RteUioPciDev
    (UioInfo "Intel IGB UIO" "0.1"
       [UioMem "config" (k_resource_start k 0) (bar0_ptr k) (k_resource_len k 0) UIO_MEM_PHYS;
        uio_mem_zero; uio_mem_zero; uio_mem_zero; uio_mem_zero]
       (registered_irq k) (registered_irq_flags k)
       (Some igbuio_pci_irqhandler_cb) (Some igbuio_pci_irqcontrol_cb))
    (selected_mode k)
    [MsixEntry (if k_pci_enable_msix k =? 0 then k_msix_vector k 0 else 0) 0].

(** The calls of such an attach, [es] being the traffic of the initial
    masking. *)
Definition attach_events (k : kernel_env) (es : list event) : list event :=
  [EvKzalloc true;
   EvPciEnableDevice (k_pci_enable_device k);
   EvPciSetDmaMask 0xffffffff (k_pci_set_dma_mask k);
   EvPciRequestRegions "igb_uio" (k_pci_request_regions k);
   EvPciSetMaster;
   EvIoremap (k_resource_start k 0) (k_resource_len k 0) (bar0_ptr k);
   EvSpinLockInit;
   EvPciEnableMsix [0] 1 (k_pci_enable_msix k)]
  ++ (if k_pci_enable_msix k =? 0 then []
      else [EvPciDisableMsix;
            EvPrintk KERN_INFO "fail to enable pci msix, or not enough msix entries\n" []])
  ++ [EvPciSetDrvdata true; EvSpinLockIrqsave; EvPciLock]
  ++ es
  ++ [EvPciUnlock; EvSpinUnlockIrqrestore;
      EvUioRegisterDevice (registered_irq k) (registered_irq_flags k)
        (k_uio_register_device k)]
  ++ (if k_uio_register_device k =? 0
      then [EvPrintk KERN_INFO "uio device registered with irq %lx\n"
              [ArgZ (registered_irq k)]]
      else [EvIounmap (bar0_ptr k)]
           ++ (if k_pci_enable_msix k =? 0 then [EvPciDisableMsix] else [])
           ++ [EvPciReleaseRegions; EvPciDisableDevice; EvKfree]).

(** The kernel of the examples, refusing the uio registration. *)
Definition kernel_env_no_register : kernel_env :=
  KernelEnv true 0 0 0
    (fun bar => if bar =? 0 then 0x1000 else 0)
    (fun bar => if bar =? 0 then 0x1000 else 0)
    (fun addr len => 0xffffc90000100000)
    0 (fun e => 42 + e) 0x2000 (-22) 11 as_found as_found.

(** The MSI-X requests of a trace (entries asked for, their number, the
    kernel's answer) and its uio registrations (irq, irq flags, the
    kernel's answer). *)
Definition msix_requests (t : list event) : list (list Z * Z * Z) :=
  omap (fun e => match e with
                 | EvPciEnableMsix entries nvec rc => Some (entries, nvec, rc)
                 | _ => None
                 end) t.
Definition registrations (t : list event) : list (Z * Z * Z) :=
  omap (fun e => match e with
                 | EvUioRegisterDevice irq flags rc => Some (irq, flags, rc)
                 | _ => None
                 end) t.

(** ** Further vocabulary: locking, hardware effects, attach and detach *)

(** The accesses to the device: configuration space, the MSI-X table,
    and the mirror of a descriptor. *)
Definition is_hw_access (e : event) : bool :=
  match e with
  | EvCfgReadDword _ _ | EvCfgReadFailed _ | EvCfgWriteWord _ _ | EvCfgWriteFailed _ _
  | EvWritel _ _ | EvReadl _ | EvStoreMasked _ _ => true
  | _ => false
  end.

(** [w'] is [w] after some accesses to the device; what the accesses of
    the other mode would touch is as before: the MSI-X table and the msi
    list for a Legacy device, configuration space and the bus for any
    other. *)
Definition mask_frame (udev : rte_uio_pci_dev) (w w' : world) : Prop :=
  w_drvdata w' = w_drvdata w
  /\ (mode udev = IGBUIO_LEGACY_INTR_MODE ->
        w_mmio w' = w_mmio w /\ w_msi_list w' = w_msi_list w)
  /\ (mode udev <> IGBUIO_LEGACY_INTR_MODE ->
        w_cfg w' = w_cfg w /\ w_bus w' = w_bus w)
  /\ exists es, w_trace w' = w_trace w ++ es /\ Forall (fun e => is_hw_access e = true) es.

(** [w'] is what masking ([state] 0) or unmasking leaves of [w]: a quiet
    bus, consistent mirrors of the same table entries, the mask bits of
    the device's mode as wanted and every other bit as before. *)
Definition masked_to (udev : rte_uio_pci_dev) (state : Z) (w w' : world) : Prop :=
  w_bus w' = []
  /\ mirrors_consistent w'
  /\ vector_ctrl_addr <$> w_msi_list w' = vector_ctrl_addr <$> w_msi_list w
  /\ (forall r, cfg_mask_bit udev r 10 ->
        w_cfg w' !!! r = with_bit (w_cfg w !!! r) 10 (state =? 0))
  /\ (forall r, ~ cfg_mask_bit udev r 10 -> w_cfg w' !!! r = w_cfg w !!! r)
  /\ (forall a, mmio_mask_bit udev w a 0 ->
        w_mmio w' !!! a = with_bit (w_mmio w !!! a) 0 (state =? 0))
  /\ (forall a, ~ mmio_mask_bit udev w a 0 -> w_mmio w' !!! a = w_mmio w !!! a).

(** The interrupt of the device is pending, as far as the handler can
    tell: always for a device that is not in Legacy mode, by bit 3 of the
    status register for one that is. *)
Definition interrupt_is_ours (udev : rte_uio_pci_dev) (w : world) : Prop :=
  mode udev = IGBUIO_LEGACY_INTR_MODE -> Z.testbit (w_cfg w !!! PCI_COMMAND) 19 = true.

(** The [KERN_ERR] messages of a trace. *)
Definition kern_err_messages (t : list event) : list string :=
  omap (fun e => match e with
                 | EvPrintk KERN_ERR fmt _ => Some fmt
                 | _ => None
                 end) t.

(** The world as the kernel, inside call [c], leaves it. *)
Definition acted (k : kernel_env) (c : kernel_call) (w : world) : world :=
  snd (kernel_acts k c w).

(** The device as [pci_enable_msix] leaves it during an attach, and the
    msi list it leaves with it. *)
Definition probe_msix_requested (k : kernel_env) (w : world) : world :=
  acted k KPciEnableMsix (acted k KPciSetMaster (acted k KPciEnableDevice w)).
Definition probe_msi_list (k : kernel_env) (w : world) : list msi_desc :=
  if k_pci_enable_msix k =? 0
  then [MsiDesc 0 (w_mmio (probe_msix_requested k w) !!! (k_msix_table k + (0 * 16 + 12)))
          (k_msix_table k)]
  else [].

(** The device as the kernel calls of the interrupt-mode block leave it:
    a failed request is followed by [pci_disable_msix]. *)
Definition probe_programmed (k : kernel_env) (w : world) : world :=
  if k_pci_enable_msix k =? 0 then probe_msix_requested k w
  else acted k KPciDisableMsix (probe_msix_requested k w).

(** The world in which the attach masks the interrupt, before it
    registers the device. *)
Definition probe_masking_world (k : kernel_env) (w : world) : world :=
  World (w_cfg (probe_programmed k w)) (w_mmio (probe_programmed k w))
    (probe_msi_list k w) (Some (attached_context k)) (w_bus w)
    (w_trace w
     ++ [EvKzalloc true;
         EvPciEnableDevice (k_pci_enable_device k);
         EvPciSetDmaMask 0xffffffff (k_pci_set_dma_mask k);
         EvPciRequestRegions "igb_uio" (k_pci_request_regions k);
         EvPciSetMaster;
         EvIoremap (k_resource_start k 0) (k_resource_len k 0) (bar0_ptr k);
         EvSpinLockInit;
         EvPciEnableMsix [0] 1 (k_pci_enable_msix k)]
     ++ (if k_pci_enable_msix k =? 0 then []
         else [EvPciDisableMsix;
               EvPrintk KERN_INFO "fail to enable pci msix, or not enough msix entries\n" []])
     ++ [EvPciSetDrvdata true; EvSpinLockIrqsave; EvPciLock]).

(** An example of a kernel that programs the device: enabling it sets
    the I/O and memory bits of the command register, bus mastering sets
    bit 2 and disabling clears it; enabling MSI-X turns INTx off and
    leaves the vector of entry 0 masked, disabling turns INTx on again. *)
Definition programs_cfg (c : kernel_call) (cfg : gmap Z Z) : gmap Z Z :=
  let cmd := cfg !!! PCI_COMMAND in
  match c with
  | KPciEnableDevice => <[ PCI_COMMAND := Z.lor cmd 0x3 ]> cfg
  | KPciSetMaster => <[ PCI_COMMAND := Z.lor cmd 0x4 ]> cfg
  | KPciDisableDevice => <[ PCI_COMMAND := Z.land cmd (Z.lnot 0x4) ]> cfg
  | KPciEnableMsix => <[ PCI_COMMAND := Z.lor cmd PCI_COMMAND_INTX_DISABLE ]> cfg
  | KPciDisableMsix => <[ PCI_COMMAND := Z.land cmd (Z.lnot PCI_COMMAND_INTX_DISABLE) ]> cfg
  | KUioRegisterDevice | KUioUnregisterDevice => cfg
  end.
Definition programs_mmio (c : kernel_call) (mmio : gmap Z Z) : gmap Z Z :=
  match c with
  | KPciEnableMsix => <[ 0x2000 + 12 := 1 ]> mmio
  | _ => mmio
  end.
Definition kernel_env_programming (msix_rc : Z) : kernel_env :=
  KernelEnv true 0 0 0
    (fun bar => if bar =? 0 then 0x1000 else 0)
    (fun bar => if bar =? 0 then 0x1000 else 0)
    (fun addr len => 0xffffc90000100000)
    msix_rc (fun e => 42 + e) 0x2000 0 11 programs_cfg programs_mmio.

(** The calls of a detach. *)
Definition detach_events (m : igbuio_intr_mode) : list event :=
  [EvUioUnregisterDevice]
  ++ (match m with IGBUIO_MSIX_INTR_MODE => [EvPciDisableMsix] | _ => [] end)
  ++ [EvPciReleaseRegions; EvPciDisableDevice; EvPciSetDrvdata false; EvKfree].

(** The calls of an attach that fails before the interrupt-mode block. *)
Definition early_failure_events (k : kernel_env) : list event :=
  if negb (k_kzalloc k) then [EvKzalloc false]
  else
    EvKzalloc true :: EvPciEnableDevice (k_pci_enable_device k) ::
    if negb (k_pci_enable_device k =? 0)
    then [EvPrintk KERN_ERR "Cannot enable PCI device\n" []; EvKfree]
    else
      EvPciSetDmaMask 0xffffffff (k_pci_set_dma_mask k) ::
      if negb (k_pci_set_dma_mask k =? 0)
      then [EvPrintk KERN_ERR "Cannot set DMA mask\n" []; EvPciDisableDevice; EvKfree]
      else
        EvPciRequestRegions "igb_uio" (k_pci_request_regions k) ::
        if negb (k_pci_request_regions k =? 0)
        then [EvPrintk KERN_ERR "Cannot request regions\n" []; EvPciDisableDevice; EvKfree]
        else
          EvPciSetMaster ::
          (if (k_resource_start k 0 =? 0) || (k_resource_len k 0 =? 0) then []
           else [EvIoremap (k_resource_start k 0) (k_resource_len k 0) (bar0_ptr k)])
          ++ [EvPciReleaseRegions; EvPciDisableDevice; EvKfree].

(** ** The life of an attached device *)

(** What the uio core asks of a registered device through the two
    callbacks the attach stores in [info]: a write to the device file
    calls [irqcontrol], an interrupt on the registered line calls
    [handler]. *)
Inductive uio_request := UioWrite (irq_state : Z) | UioInterrupt (irq : Z).

Definition uio_serve (udev : rte_uio_pci_dev) (q : uio_request) : M unit :=
  match q with
  | UioWrite irq_state => igbuio_pci_irqcontrol udev irq_state;; ret tt
  | UioInterrupt irq => igbuio_pci_irqhandler irq udev;; ret tt
  end.

Fixpoint uio_serve_all (udev : rte_uio_pci_dev) (qs : list uio_request) : M unit :=
  match qs with
  | [] => ret tt
  | q :: qs' => uio_serve udev q;; uio_serve_all udev qs'
  end.

(** [w'] is [w] after calls that take and give back nothing, with the
    driver data of the device untouched. *)
Definition resource_neutral (w w' : world) : Prop :=
  w_drvdata w' = w_drvdata w
  /\ exists es, w_trace w' = w_trace w ++ es /\ acquired es = [] /\ released es = [].

(** What the callbacks keep of the world [w0] they were first called in:
    a quiet bus, consistent mirrors of the same table entries, the driver
    data, and every bit that is not a mask bit. *)
Definition steady (udev : rte_uio_pci_dev) (w0 w : world) : Prop :=
  w_bus w = []
  /\ mirrors_consistent w
  /\ vector_ctrl_addr <$> w_msi_list w = vector_ctrl_addr <$> w_msi_list w0
  /\ w_drvdata w = w_drvdata w0
  /\ only_mask_bits_differ udev w0 w.

(** The updates of the device's driver data in a trace: [true] for a
    context, [false] for [NULL]. *)
Definition drvdata_updates (t : list event) : list bool :=
  omap (fun e => match e with
                 | EvPciSetDrvdata set => Some set
                 | _ => None
                 end) t.

(** * Properties *)

(** ** Bits of fixed-width values *)

Lemma u16_range x : is_u16 (u16 x).
Proof. unfold is_u16, u16. apply Z.mod_pos_bound. lia. Qed.

Lemma u32_range x : is_u32 (u32 x).
Proof. unfold is_u32, u32. apply Z.mod_pos_bound. lia. Qed.

Lemma u16_id x : is_u16 x -> u16 x = x.
Proof. intros H. apply Z.mod_small. exact H. Qed.

Lemma u32_id x : is_u32 x -> u32 x = x.
Proof. intros H. apply Z.mod_small. exact H. Qed.

Lemma u16_testbit x n : 0 <= n -> Z.testbit (u16 x) n = (n <? 16) && Z.testbit x n.
Proof.
  intros Hn. unfold u16. destruct (Z.ltb_spec n 16).
  - rewrite Z.mod_pow2_bits_low by lia. reflexivity.
  - rewrite Z.mod_pow2_bits_high by lia. reflexivity.
Qed.

Lemma u32_testbit x n : 0 <= n -> Z.testbit (u32 x) n = (n <? 32) && Z.testbit x n.
Proof.
  intros Hn. unfold u32. destruct (Z.ltb_spec n 32).
  - rewrite Z.mod_pow2_bits_low by lia. reflexivity.
  - rewrite Z.mod_pow2_bits_high by lia. reflexivity.
Qed.

Lemma is_u16_testbit_high x n : is_u16 x -> 16 <= n -> Z.testbit x n = false.
Proof.
  intros Hx Hn. rewrite <- (u16_id x Hx), u16_testbit by lia.
  destruct (Z.ltb_spec n 16); [lia | reflexivity].
Qed.

Lemma is_u32_testbit_high x n : is_u32 x -> 32 <= n -> Z.testbit x n = false.
Proof.
  intros Hx Hn. rewrite <- (u32_id x Hx), u32_testbit by lia.
  destruct (Z.ltb_spec n 32); [lia | reflexivity].
Qed.

Lemma with_bit_testbit v n b i :
  0 <= n -> 0 <= i ->
  Z.testbit (with_bit v n b) i = if i =? n then b else Z.testbit v i.
Proof.
  intros Hn Hi. unfold with_bit. destruct b.
  - rewrite Z.setbit_eqb by lia. rewrite (Z.eqb_sym n i).
    destruct (i =? n); reflexivity.
  - rewrite Z.clearbit_eqb. rewrite (Z.eqb_sym n i).
    destruct (i =? n); simpl; [apply andb_false_r | apply andb_true_r].
Qed.

Lemma with_bit_same v n b : 0 <= n -> Z.testbit v n = b -> with_bit v n b = v.
Proof.
  intros Hn Hb. apply Z.bits_inj'. intros i Hi. rewrite with_bit_testbit by lia.
  destruct (Z.eqb_spec i n); congruence.
Qed.

Lemma with_bit_differs v n b : 0 <= n -> Z.testbit v n <> b -> with_bit v n b <> v.
Proof.
  intros Hn Hb E. apply Hb. rewrite <- E at 1. rewrite with_bit_testbit by lia.
  rewrite Z.eqb_refl. reflexivity.
Qed.

Lemma with_bit_u16 v n b : is_u16 v -> 0 <= n < 16 -> is_u16 (with_bit v n b).
Proof.
  intros Hv Hn. rewrite <- (u16_id v Hv).
  replace (with_bit (u16 v) n b) with (u16 (with_bit (u16 v) n b)); [apply u16_range|].
  apply Z.bits_inj'. intros i Hi.
  rewrite u16_testbit, !with_bit_testbit, u16_testbit by lia.
  destruct (Z.eqb_spec i n), (Z.ltb_spec i 16); try reflexivity; lia.
Qed.

Lemma with_bit_u32 v n b : is_u32 v -> 0 <= n < 32 -> is_u32 (with_bit v n b).
Proof.
  intros Hv Hn. rewrite <- (u32_id v Hv).
  replace (with_bit (u32 v) n b) with (u32 (with_bit (u32 v) n b)); [apply u32_range|].
  apply Z.bits_inj'. intros i Hi.
  rewrite u32_testbit, !with_bit_testbit, u32_testbit by lia.
  destruct (Z.eqb_spec i n), (Z.ltb_spec i 32); try reflexivity; lia.
Qed.

(** The C expressions of the two mask computations, as bit updates. *)
Lemma land_lnot_clears v n : 0 <= n -> Z.land v (Z.lnot (2 ^ n)) = with_bit v n false.
Proof.
  intros Hn. unfold with_bit, Z.clearbit. rewrite Z.shiftl_1_l.
  symmetry. apply Z.ldiff_land.
Qed.

Lemma lor_sets v n : 0 <= n -> Z.lor v (2 ^ n) = with_bit v n true.
Proof.
  intros Hn. unfold with_bit, Z.setbit. rewrite Z.shiftl_1_l. reflexivity.
Qed.

Lemma msix_new_mask_bits m state :
  is_u32 m ->
  (if negb (state =? 0)
   then u32 (Z.land m (Z.lnot PCI_MSIX_ENTRY_CTRL_MASKBIT))
   else u32 (Z.lor m PCI_MSIX_ENTRY_CTRL_MASKBIT))
  = with_bit m 0 (state =? 0).
Proof.
  intros Hm. change PCI_MSIX_ENTRY_CTRL_MASKBIT with (2 ^ 0).
  destruct (state =? 0); simpl negb; cbv iota.
  - rewrite lor_sets by lia. apply u32_id, with_bit_u32; [assumption | lia].
  - rewrite land_lnot_clears by lia. apply u32_id, with_bit_u32; [assumption | lia].
Qed.

Lemma legacy_new_command old state :
  is_u16 old ->
  (if negb (state =? 0)
   then u16 (Z.land old (Z.lnot PCI_COMMAND_INTX_DISABLE))
   else u16 (Z.lor old PCI_COMMAND_INTX_DISABLE))
  = with_bit old 10 (state =? 0).
Proof.
  intros Hm. change PCI_COMMAND_INTX_DISABLE with (2 ^ 10).
  destruct (state =? 0); simpl negb; cbv iota.
  - rewrite lor_sets by lia. apply u16_id, with_bit_u16; [assumption | lia].
  - rewrite land_lnot_clears by lia. apply u16_id, with_bit_u16; [assumption | lia].
Qed.

Lemma with_bit_eqb v n b :
  0 <= n -> (with_bit v n b =? v) = bool_decide (Z.testbit v n = b).
Proof.
  intros Hn. case_bool_decide as Hb.
  - rewrite with_bit_same by assumption. apply Z.eqb_refl.
  - apply Z.eqb_neq, with_bit_differs; assumption.
Qed.

Lemma hw_writes_app t1 t2 : hw_writes (t1 ++ t2) = (hw_writes t1 + hw_writes t2)%nat.
Proof. induction t1 as [|e t1 IH]; simpl; [reflexivity | rewrite IH; lia]. Qed.

(** Unfolding of the monad and of the kernel primitives. *)
Ltac drv_step :=
  cbv [bind ret emit get_msi_list put_msi_list put_cfg put_mmio put_drvdata
       next_bus_outcome spin_lock_irqsave spin_unlock_irqrestore PCI_LOCK PCI_UNLOCK
       pci_read_config_dword pci_write_config_word writel readl printk
       kzalloc kfree pci_enable_device pci_disable_device pci_set_dma_mask
       pci_request_regions pci_release_regions pci_set_master spin_lock_init
       ioremap iounmap pci_set_drvdata uio_register_device uio_unregister_device
       pci_disable_msix kernel_acts logged];
  cbn [w_cfg w_mmio w_msi_list w_drvdata w_bus w_trace fst snd negb].

(** ** The MSI-X mask bit *)

Lemma msix_offset_no_wrap d :
  msi_desc_ok d ->
  u32 (entry_nr d * PCI_MSIX_ENTRY_SIZE + PCI_MSIX_ENTRY_VECTOR_CTRL)
  = entry_nr d * 16 + 12.
Proof.
  intros [Hnr _]. unfold PCI_MSIX_ENTRY_SIZE, PCI_MSIX_ENTRY_VECTOR_CTRL.
  apply u32_id. unfold is_u32, is_u16 in *. lia.
Qed.

(** One descriptor: nothing happens when the mirror already has the
    wanted bit; otherwise the new word is written to the entry's
    vector-control word, the table base is read back, and only then the
    mirror is stored. *)
Lemma igbuio_msix_mask_irq_spec d state w :
  msi_desc_ok d ->
  igbuio_msix_mask_irq d state w =
    if mirror_agrees state d then ((0, d), w)
    else ((0, msix_masked_desc state d),
          World (w_cfg w) (<[ vector_ctrl_addr d := msix_new_mirror state d ]> (w_mmio w))
                (w_msi_list w) (w_drvdata w) (w_bus w)
                (w_trace w ++ msix_mask_events state d)).
Proof.
  intros Hd. unfold igbuio_msix_mask_irq. cbv zeta.
  rewrite msix_offset_no_wrap by assumption.
  rewrite msix_new_mask_bits by apply Hd.
  rewrite with_bit_eqb by lia.
  unfold msix_mask_events, mirror_agrees, msix_masked_desc, msix_new_mirror,
    vector_ctrl_addr, wanted_maskbit.
  case_bool_decide; drv_step.
  - reflexivity.
  - rewrite <- !app_assoc. reflexivity.
Qed.

Lemma msix_masked_desc_agrees state d :
  mirror_agrees state d = true -> msix_masked_desc state d = d.
Proof.
  unfold mirror_agrees, msix_masked_desc, msix_new_mirror. intros H.
  apply bool_decide_eq_true in H. rewrite with_bit_same by (lia || assumption).
  destruct d; reflexivity.
Qed.

Lemma msix_masked_desc_ok state d : msi_desc_ok d -> msi_desc_ok (msix_masked_desc state d).
Proof.
  intros [H1 H2]. split; [exact H1 |]. simpl. apply with_bit_u32; [assumption | lia].
Qed.

(** The loop over the msi list. *)
Lemma msi_list_for_each_mask_spec l state w :
  Forall msi_desc_ok l ->
  msi_list_for_each_mask l state w =
    (msix_masked_desc state <$> l,
     World (w_cfg w) (foldl (msix_mmio_step state) (w_mmio w) l)
           (w_msi_list w) (w_drvdata w) (w_bus w)
           (w_trace w ++ concat (msix_mask_events state <$> l))).
Proof.
  intros Hl. revert w. induction Hl as [|d l Hd Hl IH]; intros w.
  - simpl. unfold ret. rewrite app_nil_r. destruct w; reflexivity.
  - cbn [msi_list_for_each_mask]. unfold bind at 1.
    rewrite igbuio_msix_mask_irq_spec by assumption.
    cbn [fmap list_fmap concat foldl]. unfold msix_mmio_step at 2.
    unfold msix_mask_events at 2.
    destruct (mirror_agrees state d) eqn:Hag.
    + unfold bind, ret. rewrite IH. cbn [snd].
      rewrite msix_masked_desc_agrees by assumption. reflexivity.
    + unfold bind, ret. rewrite IH. cbn [snd w_cfg w_mmio w_msi_list w_drvdata w_bus w_trace].
      unfold msix_mask_events at 1. rewrite Hag.
      rewrite <- app_assoc. reflexivity.
Qed.

Lemma set_mask_msix_spec udev state w :
  mode udev = IGBUIO_MSIX_INTR_MODE ->
  Forall msi_desc_ok (w_msi_list w) ->
  igbuio_set_interrupt_mask udev state w =
    (0, World (w_cfg w)
              (foldl (msix_mmio_step state) (w_mmio w) (w_msi_list w))
              (msix_masked_desc state <$> w_msi_list w)
              (w_drvdata w) (w_bus w)
              (w_trace w ++ concat (msix_mask_events state <$> w_msi_list w))).
Proof.
  intros Hmode Hl. unfold igbuio_set_interrupt_mask. rewrite Hmode.
  unfold bind at 1. unfold get_msi_list at 1. unfold bind at 1.
  rewrite msi_list_for_each_mask_spec by assumption. drv_step. reflexivity.
Qed.

(** C1. In MSI-X mode [igbuio_set_interrupt_mask] visits every
    descriptor of the device's msi list in order. For each one the wanted
    mask bit is bit 0 of the vector-control word, which lives 12 bytes
    into the descriptor's 16-byte table entry; the bit is 0 (unmasked)
    when [state] is non-zero (enable) and 1 (masked) when [state] is 0.
    A descriptor whose mirror already has the wanted bit causes no
    traffic; any other causes, in this order, the write of the new word
    to the vector-control word, a read of the table base, and the store
    of the new word into the mirror. *)
Theorem set_mask_msix_protocol udev state w :
  mode udev = IGBUIO_MSIX_INTR_MODE ->
  Forall msi_desc_ok (w_msi_list w) ->
  igbuio_set_interrupt_mask udev state w =
    (0, World (w_cfg w)
              (foldl (msix_mmio_step state) (w_mmio w) (w_msi_list w))
              (msix_masked_desc state <$> w_msi_list w)
              (w_drvdata w) (w_bus w)
              (w_trace w ++ concat (msix_mask_events state <$> w_msi_list w)))
  /\ (forall d, d ∈ w_msi_list w ->
        vector_ctrl_addr d = mask_base d + (entry_nr d * 16 + 12)
        /\ Z.testbit (masked (msix_masked_desc state d)) 0 = (state =? 0)
        /\ (forall i, 0 < i ->
              Z.testbit (masked (msix_masked_desc state d)) i = Z.testbit (masked d) i)
        /\ (Z.testbit (masked d) 0 = (state =? 0) -> msix_mask_events state d = [])
        /\ (Z.testbit (masked d) 0 <> (state =? 0) ->
              msix_mask_events state d =
                [EvWritel (masked (msix_masked_desc state d)) (vector_ctrl_addr d);
                 EvReadl (mask_base d);
                 EvStoreMasked (entry_nr d) (masked (msix_masked_desc state d))])).
Proof.
  intros Hmode Hl. split.
  - apply set_mask_msix_spec; assumption.
  - intros d _. cbn [masked msix_masked_desc]. unfold msix_new_mirror, wanted_maskbit.
    repeat split.
    + rewrite with_bit_testbit by lia. reflexivity.
    + intros i Hi. rewrite with_bit_testbit by lia.
      destruct (Z.eqb_spec i 0); [lia | reflexivity].
    + intros H. unfold msix_mask_events, mirror_agrees, wanted_maskbit.
      rewrite bool_decide_eq_true_2 by assumption. reflexivity.
    + intros H. unfold msix_mask_events, mirror_agrees, wanted_maskbit, msix_new_mirror.
      rewrite bool_decide_eq_false_2 by assumption. reflexivity.
Qed.

Lemma msi_desc_ok_example : Forall msi_desc_ok (w_msi_list world_msix_example).
Proof.
  repeat constructor; simpl; unfold is_u16, is_u32; lia.
Defined.

Lemma set_mask_msix_protocol_witness :
  igbuio_set_interrupt_mask udev_msix_example 0 world_msix_example =
    (0, World ∅ (<[ 0x200c := 1 ]> (<[ 0x200c := 0 ]> ∅)) [MsiDesc 0 1 0x2000] None []
              [EvWritel 1 0x200c; EvReadl 0x2000; EvStoreMasked 0 1]).
Proof.
  exact (proj1 (set_mask_msix_protocol udev_msix_example 0 world_msix_example
                  eq_refl msi_desc_ok_example)).
Defined.

(** ** The INTx-disable bit of the command register *)

Lemma cfg_store_word_command c val :
  cfg_store_word c PCI_COMMAND val =
    <[ PCI_COMMAND := Z.lor (Z.land (c !!! PCI_COMMAND) (Z.lnot 0xFFFF)) (u16 val) ]> c.
Proof. reflexivity. Qed.

Lemma with_command_testbit dword cmd i :
  0 <= i ->
  Z.testbit (with_command dword cmd) i =
    if i <? 16 then Z.testbit cmd i else Z.testbit dword i.
Proof.
  intros Hi. unfold with_command.
  rewrite Z.lor_spec, Z.land_spec, Z.lnot_spec, u16_testbit by lia.
  change 0xFFFF with (Z.ones 16).
  destruct (Z.ltb_spec i 16).
  - rewrite Z.ones_spec_low by lia. simpl. rewrite andb_false_r. reflexivity.
  - rewrite Z.ones_spec_high by lia. simpl. rewrite andb_true_r, orb_false_r. reflexivity.
Qed.

Lemma set_mask_legacy_spec udev state w :
  mode udev = IGBUIO_LEGACY_INTR_MODE ->
  w_bus w = [] ->
  igbuio_set_interrupt_mask udev state w =
    (0, if u16 (w_cfg w !!! PCI_COMMAND)
             =? with_bit (u16 (w_cfg w !!! PCI_COMMAND)) 10 (state =? 0)
        then logged w [EvCfgReadDword PCI_COMMAND (w_cfg w !!! PCI_COMMAND)]
        else World (<[ PCI_COMMAND :=
                        with_command (w_cfg w !!! PCI_COMMAND)
                          (with_bit (u16 (w_cfg w !!! PCI_COMMAND)) 10 (state =? 0)) ]>
                      (w_cfg w))
                   (w_mmio w) (w_msi_list w) (w_drvdata w) (w_bus w)
                   (w_trace w ++
                      [EvCfgReadDword PCI_COMMAND (w_cfg w !!! PCI_COMMAND);
                       EvCfgWriteWord PCI_COMMAND
                         (with_bit (u16 (w_cfg w !!! PCI_COMMAND)) 10 (state =? 0))])).
Proof.
  intros Hmode Hbus.
  set (dword := w_cfg w !!! PCI_COMMAND). set (old := u16 dword).
  set (new := with_bit old 10 (state =? 0)).
  unfold igbuio_set_interrupt_mask. rewrite Hmode.
  unfold bind at 1. unfold pci_read_config_dword at 1.
  unfold bind at 1. unfold next_bus_outcome at 1. rewrite Hbus.
  drv_step. fold dword. fold old.
  rewrite legacy_new_command by apply u16_range. fold new.
  rewrite (Z.eqb_sym old new).
  destruct (new =? old) eqn:E; drv_step.
  - reflexivity.
  - rewrite Hbus. drv_step. rewrite cfg_store_word_command, <- app_assoc.
    reflexivity.
Qed.

(** C4. In Legacy mode, on a bus that completes its accesses,
    [igbuio_set_interrupt_mask] reads the command/status dword, takes its
    low 16 bits as the old command, computes the new command by clearing
    the interrupt-disable bit (bit 10) when [state] is non-zero and
    setting it when [state] is 0, and writes the new command as a 16-bit
    word exactly when it differs from the old one. *)
Theorem set_mask_legacy_protocol udev state w :
  mode udev = IGBUIO_LEGACY_INTR_MODE ->
  w_bus w = [] ->
  let dword := w_cfg w !!! PCI_COMMAND in
  let old := u16 dword in
  let new := with_bit old 10 (state =? 0) in
  PCI_COMMAND_INTX_DISABLE = 2 ^ 10
  /\ is_u16 new
  /\ igbuio_set_interrupt_mask udev state w =
       (0, if old =? new
           then logged w [EvCfgReadDword PCI_COMMAND dword]
           else World (<[ PCI_COMMAND := with_command dword new ]> (w_cfg w))
                      (w_mmio w) (w_msi_list w) (w_drvdata w) (w_bus w)
                      (w_trace w ++ [EvCfgReadDword PCI_COMMAND dword;
                                     EvCfgWriteWord PCI_COMMAND new])).
Proof.
  intros Hmode Hbus dword old new.
  split; [reflexivity | split].
  - apply with_bit_u16; [apply u16_range | lia].
  - apply set_mask_legacy_spec; assumption.
Qed.

Lemma set_mask_legacy_protocol_witness :
  igbuio_set_interrupt_mask udev_legacy_example 1 world_legacy_example =
    (0, World (<[ PCI_COMMAND := 0x00180007 ]> (<[ PCI_COMMAND := 0x00180407 ]> ∅))
              ∅ [] None []
              [EvCfgReadDword PCI_COMMAND 0x00180407; EvCfgWriteWord PCI_COMMAND 0x0007]).
Proof.
  exact (proj2 (proj2 (set_mask_legacy_protocol udev_legacy_example 1 world_legacy_example
                         eq_refl eq_refl))).
Defined.

(** ** The interrupt handler *)

Lemma land_pow2_eqb x n : 0 <= n -> (Z.land x (2 ^ n) =? 0) = negb (Z.testbit x n).
Proof.
  intros Hn. destruct (Z.testbit x n) eqn:Hb; simpl.
  - apply Z.eqb_neq. intros E.
    assert (H : Z.testbit (Z.land x (2 ^ n)) n = true).
    { rewrite Z.land_spec, Hb, Z.pow2_bits_true by lia. reflexivity. }
    rewrite E, Z.bits_0 in H. discriminate.
  - apply Z.eqb_eq, Z.bits_inj'. intros i Hi.
    rewrite Z.land_spec, Z.bits_0, Z.pow2_bits_eqb by lia.
    destruct (Z.eqb_spec n i); [subst; rewrite Hb; reflexivity | apply andb_false_r].
Qed.

(** The handler's test of [PCI_STATUS_INTERRUPT] in the status half is a
    test of bit 19 of the command/status dword. *)
Lemma status_interrupt_test dword :
  (Z.land (u16 (Z.shiftr dword 16)) PCI_STATUS_INTERRUPT =? 0) = negb (Z.testbit dword 19).
Proof.
  change PCI_STATUS_INTERRUPT with (2 ^ 3). rewrite land_pow2_eqb by lia.
  rewrite u16_testbit, Z.shiftr_spec by lia. reflexivity.
Qed.

(** C2. The handler, on a bus that completes its accesses. In Legacy
    mode it reads the command/status dword and looks at the
    interrupt-pending bit of the status half (bit 3 of the upper 16 bits,
    bit 19 of the dword): when the bit is clear the handler returns
    [IRQ_NONE] having done nothing but take and drop its locks, read the
    dword and print, so no mask write is made. When the bit is set, and
    in every other mode, it runs [igbuio_set_interrupt_mask] with state
    0 (disable) between taking and dropping the locks and returns
    [IRQ_HANDLED]. *)
Theorem irqhandler_ownership irq udev w :
  w_bus w = [] ->
  let dword := w_cfg w !!! PCI_COMMAND in
  igbuio_pci_irqhandler irq udev w =
    match mode udev with
    | IGBUIO_LEGACY_INTR_MODE =>
        if Z.testbit (u16 (Z.shiftr dword 16)) 3 then
          let w0 := logged w (irq_enter ++ [EvCfgReadDword PCI_COMMAND dword]) in
          (IRQ_HANDLED,
           logged (snd (igbuio_set_interrupt_mask udev 0 w0)) (irq_leave irq IRQ_HANDLED))
        else
          (IRQ_NONE,
           logged w (irq_enter ++ [EvCfgReadDword PCI_COMMAND dword]
                     ++ irq_leave irq IRQ_NONE))
    | _ =>
        (IRQ_HANDLED,
         logged (snd (igbuio_set_interrupt_mask udev 0 (logged w irq_enter)))
                (irq_leave irq IRQ_HANDLED))
    end.
Proof.
  intros Hbus dword.
  assert (Hmask : forall w0,
    irqhandler_mask irq udev w0 =
      (IRQ_HANDLED, logged (snd (igbuio_set_interrupt_mask udev 0 w0))
                           (irq_leave irq IRQ_HANDLED))).
  { intros w0. unfold irqhandler_mask, irqhandler_done. unfold bind at 1.
    destruct (igbuio_set_interrupt_mask udev 0 w0) as [z w1]. drv_step.
    unfold irq_leave. rewrite <- !app_assoc. reflexivity. }
  destruct w as [cfg mmio msi drv bus tr]. cbn [w_bus] in Hbus. subst bus.
  cbn [w_cfg] in dword.
  unfold igbuio_pci_irqhandler.
  destruct (mode udev) eqn:Hmode.
  - drv_step. fold dword.
    rewrite status_interrupt_test. rewrite u16_testbit, Z.shiftr_spec by lia.
    change (3 <? 16) with true. change (3 + 16) with 19. cbn [andb].
    destruct (Z.testbit dword 19); cbn [negb].
    + rewrite Hmask. unfold irq_enter. drv_step. rewrite <- !app_assoc. reflexivity.
    + unfold irqhandler_done. drv_step. unfold irq_enter, irq_leave.
      rewrite <- !app_assoc. reflexivity.
  - drv_step. rewrite Hmask. unfold irq_enter. drv_step. rewrite <- !app_assoc. reflexivity.
  - drv_step. rewrite Hmask. unfold irq_enter. drv_step. rewrite <- !app_assoc. reflexivity.
  - drv_step. rewrite Hmask. unfold irq_enter. drv_step. rewrite <- !app_assoc. reflexivity.
Qed.

Lemma irqhandler_ownership_witness :
  igbuio_pci_irqhandler 11 udev_legacy_example world_shared_line_example =
    (IRQ_NONE,
     World (<[ PCI_COMMAND := 0x00100007 ]> ∅) ∅ [] None []
           [EvSpinLockIrqsave; EvPciLock; EvCfgReadDword PCI_COMMAND 0x00100007;
            EvPciUnlock; EvSpinUnlockIrqrestore;
            EvPrintk KERN_INFO "irq 0x%x %s\n" [ArgZ 11; ArgS "not handled"]]).
Proof.
  exact (irqhandler_ownership 11 udev_legacy_example world_shared_line_example eq_refl).
Defined.

(** ** The irq-control entry point *)

(** Only whether [state] is zero matters to the mask controller. *)
Lemma igbuio_msix_mask_irq_nonzero d state :
  state <> 0 -> igbuio_msix_mask_irq d state = igbuio_msix_mask_irq d 1.
Proof.
  intros Hs. unfold igbuio_msix_mask_irq.
  apply Z.eqb_neq in Hs. rewrite Hs. reflexivity.
Qed.

Lemma msi_list_for_each_mask_nonzero l state :
  state <> 0 -> msi_list_for_each_mask l state = msi_list_for_each_mask l 1.
Proof.
  intros Hs. induction l as [|d l IH]; [reflexivity |].
  cbn [msi_list_for_each_mask]. rewrite IH, igbuio_msix_mask_irq_nonzero by assumption.
  reflexivity.
Qed.

Lemma igbuio_set_interrupt_mask_nonzero udev state w :
  state <> 0 -> igbuio_set_interrupt_mask udev state w = igbuio_set_interrupt_mask udev 1 w.
Proof.
  intros Hs. unfold igbuio_set_interrupt_mask. destruct (mode udev); try reflexivity.
  - apply Z.eqb_neq in Hs. rewrite Hs. reflexivity.
  - unfold bind at 1 3. unfold get_msi_list.
    rewrite msi_list_for_each_mask_nonzero by assumption. reflexivity.
Qed.

Lemma igbuio_pci_irqcontrol_status udev state w :
  fst (igbuio_pci_irqcontrol udev state w) = 0.
Proof.
  unfold igbuio_pci_irqcontrol. drv_step.
  match goal with |- context [igbuio_set_interrupt_mask ?u ?s ?w0] =>
    destruct (igbuio_set_interrupt_mask u s w0) end.
  reflexivity.
Qed.

(** ** Failing configuration accesses *)

Lemma mask_traffic_step_refl w : mask_traffic_step w w.
Proof. split; [reflexivity |]. exists []. rewrite app_nil_r. split; [reflexivity | constructor]. Qed.

Lemma mask_traffic_step_trans w1 w2 w3 :
  mask_traffic_step w1 w2 -> mask_traffic_step w2 w3 -> mask_traffic_step w1 w3.
Proof.
  intros [Hd1 (es1 & Ht1 & Hq1)] [Hd2 (es2 & Ht2 & Hq2)]. split; [congruence |].
  exists (es1 ++ es2). split.
  - rewrite Ht2, Ht1, app_assoc. reflexivity.
  - apply Forall_app. split; assumption.
Qed.

Lemma mask_traffic_step_events w es :
  Forall (fun e => is_mask_traffic e = true) es -> mask_traffic_step w (logged w es).
Proof. intros H. split; [reflexivity |]. exists es. split; [reflexivity | exact H]. Qed.

Lemma igbuio_msix_mask_irq_traffic d state w :
  mask_traffic_step w (snd (igbuio_msix_mask_irq d state w)).
Proof.
  unfold igbuio_msix_mask_irq. cbv zeta.
  match goal with |- context [negb (?a =? ?b)] => destruct (a =? b) end; drv_step.
  - apply mask_traffic_step_refl.
  - split; [reflexivity |]. cbn [w_trace]. rewrite <- !app_assoc.
    eexists. split; [reflexivity |]. repeat constructor.
Qed.

Lemma msi_list_for_each_mask_traffic l state w :
  mask_traffic_step w (snd (msi_list_for_each_mask l state w)).
Proof.
  revert w. induction l as [|d l IH]; intros w; [apply mask_traffic_step_refl |].
  cbn [msi_list_for_each_mask]. unfold bind at 1.
  pose proof (igbuio_msix_mask_irq_traffic d state w) as H1.
  destruct (igbuio_msix_mask_irq d state w) as [r w1]. cbn [snd] in H1.
  unfold bind at 1. pose proof (IH w1) as H2.
  destruct (msi_list_for_each_mask l state w1) as [l' w2]. cbn [snd] in H2 |- *.
  unfold ret. cbn [snd]. eapply mask_traffic_step_trans; eassumption.
Qed.

Lemma igbuio_set_interrupt_mask_traffic udev state w :
  fst (igbuio_set_interrupt_mask udev state w) = 0
  /\ mask_traffic_step w (snd (igbuio_set_interrupt_mask udev state w)).
Proof.
  unfold igbuio_set_interrupt_mask. destruct (mode udev).
  - destruct w as [cfg mmio msi drv bus tr].
    destruct bus as [|[|d1] [|[|d2] bus]]; drv_step;
      match goal with |- context [negb (?a =? ?b)] => destruct (a =? b) end; drv_step;
      (split; [reflexivity |]); (split; [reflexivity |]); cbn [w_trace];
      rewrite <- ?app_assoc; try (eexists; split; [reflexivity |]; repeat constructor).
  - split; [reflexivity | apply mask_traffic_step_refl].
  - pose proof (msi_list_for_each_mask_traffic (w_msi_list w) state w) as H.
    drv_step.
    destruct (msi_list_for_each_mask (w_msi_list w) state w) as [l' w1].
    cbn [fst snd w_drvdata w_trace] in H |- *. split; [reflexivity | exact H].
  - split; [reflexivity | apply mask_traffic_step_refl].
Qed.

Lemma igbuio_pci_irqcontrol_unfold udev state w :
  igbuio_pci_irqcontrol udev state w =
    (0, logged (snd (igbuio_set_interrupt_mask udev state
                       (logged w [EvSpinLockIrqsave; EvPciLock])))
               [EvPciUnlock; EvSpinUnlockIrqrestore]).
Proof.
  unfold igbuio_pci_irqcontrol. drv_step. rewrite <- !app_assoc. cbn [app].
  match goal with |- context [igbuio_set_interrupt_mask ?u ?s ?w0] =>
    destruct (igbuio_set_interrupt_mask u s w0) end.
  cbn [snd w_cfg w_mmio w_msi_list w_drvdata w_bus w_trace].
  rewrite <- !app_assoc. reflexivity.
Qed.

Lemma igbuio_pci_irqcontrol_traffic udev state w :
  mask_traffic_step w (snd (igbuio_pci_irqcontrol udev state w)).
Proof.
  rewrite igbuio_pci_irqcontrol_unfold. cbn [snd].
  eapply mask_traffic_step_trans; [| apply mask_traffic_step_events; repeat constructor].
  eapply mask_traffic_step_trans; [| apply igbuio_set_interrupt_mask_traffic].
  apply mask_traffic_step_events. repeat constructor.
Qed.

Lemma mask_traffic_silent w w' : mask_traffic_step w w' -> silent_step w w'.
Proof.
  intros [Hd (es & Ht & Hes)]. split; [exact Hd |]. exists es. split; [exact Ht |].
  eapply Forall_impl; [exact Hes |]. intros e He. destruct e; try discriminate; reflexivity.
Qed.

Lemma igbuio_set_interrupt_mask_silent udev state w :
  silent_step w (snd (igbuio_set_interrupt_mask udev state w)).
Proof. apply mask_traffic_silent, igbuio_set_interrupt_mask_traffic. Qed.

Lemma igbuio_pci_irqcontrol_silent udev state w :
  silent_step w (snd (igbuio_pci_irqcontrol udev state w)).
Proof. apply mask_traffic_silent, igbuio_pci_irqcontrol_traffic. Qed.

(** A write the bus refuses leaves configuration space as it was. *)
Lemma legacy_failed_write_keeps_cfg udev state w o d rest :
  mode udev = IGBUIO_LEGACY_INTR_MODE ->
  w_bus w = o :: BusError d :: rest ->
  w_cfg (snd (igbuio_set_interrupt_mask udev state w)) = w_cfg w.
Proof.
  intros Hmode Hbus. unfold igbuio_set_interrupt_mask. rewrite Hmode.
  destruct w as [cfg mmio msi drv bus tr]. cbn [w_bus] in Hbus. subst bus.
  destruct o; drv_step;
    match goal with |- context [negb (?a =? ?b)] => destruct (a =? b) end; drv_step;
    reflexivity.
Qed.

(** C9 does not hold as stated: the read below is refused by the
    bus, yet the trace of the call holds no [printk], and the mask
    operation is not simply dropped: the command register is rewritten
    from the all-ones word the failed read delivered. *)
Lemma bus_error_not_logged :
  igbuio_pci_irqcontrol udev_legacy_example 1 world_bus_error_example =
    (0, World (<[ PCI_COMMAND := 0x0018FBFF ]> (<[ PCI_COMMAND := 0x00180407 ]> ∅))
              ∅ [] None []
              [EvSpinLockIrqsave; EvPciLock;
               EvCfgReadFailed PCI_COMMAND; EvCfgWriteWord PCI_COMMAND 0xFBFF;
               EvPciUnlock; EvSpinUnlockIrqrestore])
  /\ Forall (fun e => is_printk e = false)
       (w_trace (snd (igbuio_pci_irqcontrol udev_legacy_example 1 world_bus_error_example))).
Proof.
  split; [reflexivity | repeat constructor].
Qed.

(** C9, amended. The mask controller does not look at the status the
    configuration accessors return. Whatever the bus does,
    [igbuio_set_interrupt_mask] and [igbuio_pci_irqcontrol] return 0,
    print nothing, and leave the device's driver data in place; and a
    write the bus refuses leaves configuration space unchanged. *)
Theorem set_mask_ignores_bus_status udev state w :
  fst (igbuio_set_interrupt_mask udev state w) = 0
  /\ fst (igbuio_pci_irqcontrol udev state w) = 0
  /\ silent_step w (snd (igbuio_set_interrupt_mask udev state w))
  /\ silent_step w (snd (igbuio_pci_irqcontrol udev state w))
  /\ (forall o d rest,
        mode udev = IGBUIO_LEGACY_INTR_MODE ->
        w_bus w = o :: BusError d :: rest ->
        w_cfg (snd (igbuio_pci_irqcontrol udev state w)) = w_cfg w).
Proof.
  split; [apply igbuio_set_interrupt_mask_traffic |].
  split; [apply igbuio_pci_irqcontrol_status |].
  split; [apply igbuio_set_interrupt_mask_silent |].
  split; [apply igbuio_pci_irqcontrol_silent |].
  intros o d rest Hmode Hbus. rewrite igbuio_pci_irqcontrol_unfold. cbn [snd logged w_cfg].
  erewrite legacy_failed_write_keeps_cfg; [reflexivity | exact Hmode | exact Hbus].
Qed.

Lemma set_mask_ignores_bus_status_witness :
  w_cfg (snd (igbuio_pci_irqcontrol udev_legacy_example 1 world_write_refused_example))
  = <[ PCI_COMMAND := 0x00180407 ]> ∅.
Proof.
  exact (proj2 (proj2 (proj2 (proj2
           (set_mask_ignores_bus_status udev_legacy_example 1 world_write_refused_example))))
           BusOk 0 [] eq_refl eq_refl).
Defined.

(** ** Masking the same way twice *)

Lemma trace_since_logged w es : trace_since w (logged w es) = es.
Proof. unfold trace_since, logged. cbn [w_trace]. apply drop_app_length. Qed.

Lemma mirror_agrees_after state d : mirror_agrees state (msix_masked_desc state d) = true.
Proof.
  unfold mirror_agrees, msix_masked_desc, msix_new_mirror. cbn [masked].
  apply bool_decide_eq_true. rewrite with_bit_testbit by lia. reflexivity.
Qed.

Lemma msix_mask_events_after state l :
  concat (msix_mask_events state <$> (msix_masked_desc state <$> l)) = [].
Proof.
  induction l as [|d l IH]; [reflexivity |].
  cbn [fmap list_fmap concat]. unfold msix_mask_events at 1.
  rewrite mirror_agrees_after. exact IH.
Qed.

Lemma msix_mask_events_writes state l :
  (hw_writes (concat (msix_mask_events state <$> l)) <= length l)%nat.
Proof.
  induction l as [|d l IH]; [reflexivity |].
  cbn [fmap list_fmap concat length]. rewrite hw_writes_app.
  unfold msix_mask_events at 1. destruct (mirror_agrees state d); simpl; lia.
Qed.

Lemma Forall_msi_desc_ok_masked state l :
  Forall msi_desc_ok l -> Forall msi_desc_ok (msix_masked_desc state <$> l).
Proof.
  intros H. apply Forall_fmap. eapply Forall_impl; [exact H |].
  intros d Hd. apply msix_masked_desc_ok, Hd.
Qed.

Lemma u16_with_command dword cmd : is_u16 cmd -> u16 (with_command dword cmd) = cmd.
Proof.
  intros Hc. apply Z.bits_inj'. intros i Hi.
  rewrite u16_testbit, with_command_testbit by lia.
  destruct (Z.ltb_spec i 16); [reflexivity |].
  symmetry. apply is_u16_testbit_high; [assumption | lia].
Qed.

Lemma with_bit_idem v n b : 0 <= n -> with_bit (with_bit v n b) n b = with_bit v n b.
Proof.
  intros Hn. apply with_bit_same; [assumption |].
  rewrite with_bit_testbit, Z.eqb_refl by lia. reflexivity.
Qed.

(** What a second call with the same [state] finds in Legacy mode. *)
Lemma set_mask_legacy_again udev state w :
  mode udev = IGBUIO_LEGACY_INTR_MODE ->
  w_bus w = [] ->
  let w1 := snd (igbuio_set_interrupt_mask udev state w) in
  igbuio_set_interrupt_mask udev state w1 =
    (0, logged w1 [EvCfgReadDword PCI_COMMAND (w_cfg w1 !!! PCI_COMMAND)]).
Proof.
  intros Hmode Hbus w1.
  assert (Hbus1 : w_bus w1 = []).
  { subst w1. rewrite set_mask_legacy_spec by assumption. cbn [snd].
    destruct (_ =? _); exact Hbus. }
  rewrite set_mask_legacy_spec by assumption.
  replace (u16 (w_cfg w1 !!! PCI_COMMAND)
           =? with_bit (u16 (w_cfg w1 !!! PCI_COMMAND)) 10 (state =? 0)) with true;
    [reflexivity |].
  symmetry. apply Z.eqb_eq. symmetry. apply with_bit_same; [lia |].
  subst w1. rewrite set_mask_legacy_spec by assumption. cbn [snd].
  destruct (u16 (w_cfg w !!! PCI_COMMAND)
            =? with_bit (u16 (w_cfg w !!! PCI_COMMAND)) 10 (state =? 0)) eqn:E.
  - cbn [logged w_cfg]. apply Z.eqb_eq in E. rewrite E at 1.
    rewrite with_bit_testbit, Z.eqb_refl by lia. reflexivity.
  - cbn [w_cfg]. rewrite lookup_total_insert_eq.
    rewrite u16_with_command by (apply with_bit_u16; [apply u16_range | lia]).
    rewrite with_bit_testbit, Z.eqb_refl by lia. reflexivity.
Qed.

(** C5. Calling [igbuio_set_interrupt_mask] twice in a row with the same
    [state] (in particular with the enable value 1), on a bus that
    completes its accesses and on a device carrying no more than the
    [IGBUIO_NUM_MSI_VECTORS] descriptors the attach asks for: the second
    call issues no hardware write, since it finds the mirror (MSI-X) or
    the command register it reads (Legacy) already as wanted, and so the
    two calls together issue at most one. *)
Theorem set_mask_twice udev state w :
  w_bus w = [] ->
  Forall msi_desc_ok (w_msi_list w) ->
  (length (w_msi_list w) <= IGBUIO_NUM_MSI_VECTORS)%nat ->
  let w1 := snd (igbuio_set_interrupt_mask udev state w) in
  let w2 := snd (igbuio_set_interrupt_mask udev state w1) in
  hw_writes (trace_since w1 w2) = 0%nat
  /\ (hw_writes (trace_since w w2) <= 1)%nat.
Proof.
  intros Hbus Hok Hlen w1 w2.
  destruct (mode udev) eqn:Hmode.
  - (* Legacy *)
    pose proof (set_mask_legacy_again udev state w Hmode Hbus) as Hagain.
    cbv zeta in Hagain. fold w1 in Hagain. subst w2. rewrite Hagain. cbn [snd].
    split; [rewrite trace_since_logged; reflexivity |].
    clear Hagain. subst w1. rewrite set_mask_legacy_spec by assumption. cbn [snd].
    destruct (_ =? _).
    + unfold trace_since, logged. cbn [w_trace]. rewrite <- app_assoc, drop_app_length.
      simpl. lia.
    + unfold trace_since, logged. cbn [w_trace]. rewrite <- app_assoc, drop_app_length.
      simpl. lia.
  - (* MSI: nothing is done *)
    subst w2 w1. unfold igbuio_set_interrupt_mask. rewrite Hmode. unfold ret. cbn [snd].
    unfold trace_since. rewrite drop_all. split; simpl; lia.
  - (* MSI-X *)
    subst w2 w1. rewrite (set_mask_msix_spec udev state w) by assumption. cbn [snd].
    rewrite set_mask_msix_spec
      by (try assumption; cbn [w_msi_list]; apply Forall_msi_desc_ok_masked, Hok).
    cbn [snd w_trace w_msi_list]. rewrite msix_mask_events_after, app_nil_r.
    unfold trace_since. cbn [w_trace]. rewrite drop_all, drop_app_length.
    split; [reflexivity |].
    pose proof (msix_mask_events_writes state (w_msi_list w)).
    unfold IGBUIO_NUM_MSI_VECTORS in Hlen. lia.
  - subst w2 w1. unfold igbuio_set_interrupt_mask. rewrite Hmode. unfold ret. cbn [snd].
    unfold trace_since. rewrite drop_all. split; simpl; lia.
Qed.

Lemma msi_desc_ok_masked_example : Forall msi_desc_ok (w_msi_list world_msix_masked_example).
Proof.
  repeat constructor; simpl; unfold is_u16, is_u32; lia.
Defined.

Lemma set_mask_twice_witness :
  hw_writes (trace_since
               (snd (igbuio_set_interrupt_mask udev_msix_example 1 world_msix_masked_example))
               (snd (igbuio_set_interrupt_mask udev_msix_example 1
                  (snd (igbuio_set_interrupt_mask udev_msix_example 1
                          world_msix_masked_example))))) = 0%nat
  /\ (hw_writes (trace_since world_msix_masked_example
               (snd (igbuio_set_interrupt_mask udev_msix_example 1
                  (snd (igbuio_set_interrupt_mask udev_msix_example 1
                          world_msix_masked_example))))) <= 1)%nat.
Proof.
  exact (set_mask_twice udev_msix_example 1 world_msix_masked_example
           eq_refl msi_desc_ok_masked_example (le_n 1)).
Defined.

(** ** Masking, then unmasking *)

Lemma vector_ctrl_addr_masked state d :
  vector_ctrl_addr (msix_masked_desc state d) = vector_ctrl_addr d.
Proof. reflexivity. Qed.

Lemma vector_ctrl_addrs_masked state (l : list msi_desc) :
  vector_ctrl_addr <$> (msix_masked_desc state <$> l) = vector_ctrl_addr <$> l.
Proof. induction l as [|d l IH]; [reflexivity |]. cbn. rewrite <- IH. reflexivity. Qed.

Lemma msix_mmio_step_lookup state m d a :
  m !!! vector_ctrl_addr d = masked d ->
  msix_mmio_step state m d !!! a =
    if bool_decide (a = vector_ctrl_addr d)
    then with_bit (m !!! a) 0 (wanted_maskbit state)
    else m !!! a.
Proof.
  intros Hm. unfold msix_mmio_step, mirror_agrees, msix_new_mirror.
  case_bool_decide as Hag; case_bool_decide as Ha; subst.
  - rewrite Hm. symmetry. apply with_bit_same; [lia | assumption].
  - reflexivity.
  - rewrite lookup_total_insert_eq, Hm. reflexivity.
  - rewrite lookup_total_insert_ne by congruence. reflexivity.
Qed.

(** Device memory after the loop over the msi list: bit 0 of every
    visited vector-control word is as wanted, nothing else has changed. *)
Lemma msix_mmio_after state (l : list msi_desc) : forall (m : gmap Z Z) a,
  NoDup (vector_ctrl_addr <$> l) ->
  Forall (fun d => m !!! vector_ctrl_addr d = masked d) l ->
  foldl (msix_mmio_step state) m l !!! a =
    if bool_decide (a ∈ vector_ctrl_addr <$> l)
    then with_bit (m !!! a) 0 (wanted_maskbit state)
    else m !!! a.
Proof.
  induction l as [|d l IH]; intros m a Hnd Hm.
  - cbn. rewrite bool_decide_eq_false_2; [reflexivity | apply not_elem_of_nil].
  - cbn [foldl fmap list_fmap] in *.
    apply NoDup_cons in Hnd as [Hnotin Hnd].
    apply Forall_cons in Hm as [Hd Hm].
    rewrite IH; [| assumption |].
    + rewrite !msix_mmio_step_lookup by assumption.
      destruct (decide (a = vector_ctrl_addr d)) as [-> | Hne].
      * rewrite (bool_decide_eq_false_2 _ Hnotin).
        rewrite (bool_decide_eq_true_2 (vector_ctrl_addr d = vector_ctrl_addr d) eq_refl).
        rewrite bool_decide_eq_true_2 by (apply elem_of_cons; left; reflexivity).
        reflexivity.
      * rewrite (bool_decide_eq_false_2 _ Hne).
        destruct (decide (a ∈ vector_ctrl_addr <$> l)) as [Hin | Hnin].
        -- rewrite !bool_decide_eq_true_2;
             [reflexivity | apply elem_of_cons; right; assumption | assumption].
        -- rewrite !bool_decide_eq_false_2; [reflexivity | | assumption].
           intros [? | ?]%elem_of_cons; contradiction.
    + apply Forall_forall. intros d' Hd'.
      rewrite msix_mmio_step_lookup by assumption.
      rewrite bool_decide_eq_false_2.
      * eapply Forall_forall in Hm; eassumption.
      * intros E. apply Hnotin. rewrite <- E. apply list_elem_of_fmap_2. assumption.
Qed.

Lemma with_command_with_bit dword b :
  with_command dword (with_bit (u16 dword) 10 b) = with_bit dword 10 b.
Proof.
  apply Z.bits_inj'. intros i Hi.
  rewrite with_command_testbit, !with_bit_testbit, u16_testbit by lia.
  destruct (Z.ltb_spec i 16), (Z.eqb_spec i 10); try reflexivity; lia.
Qed.

(** Configuration space after a Legacy call: bit 10 of the command/status
    dword is as wanted, nothing else has changed. *)
Lemma legacy_cfg_after udev state w r :
  mode udev = IGBUIO_LEGACY_INTR_MODE ->
  w_bus w = [] ->
  w_cfg (snd (igbuio_set_interrupt_mask udev state w)) !!! r =
    if bool_decide (r = PCI_COMMAND)
    then with_bit (w_cfg w !!! r) 10 (state =? 0)
    else w_cfg w !!! r.
Proof.
  intros Hmode Hbus. rewrite set_mask_legacy_spec by assumption. cbn [snd].
  destruct (u16 (w_cfg w !!! PCI_COMMAND)
            =? with_bit (u16 (w_cfg w !!! PCI_COMMAND)) 10 (state =? 0)) eqn:E.
  - cbn [logged w_cfg]. case_bool_decide as Hr; [subst r | reflexivity].
    symmetry. apply with_bit_same; [lia |].
    apply Z.eqb_eq in E.
    assert (H : Z.testbit (u16 (w_cfg w !!! PCI_COMMAND)) 10 = (state =? 0)).
    { rewrite E at 1. rewrite with_bit_testbit, Z.eqb_refl by lia. reflexivity. }
    rewrite u16_testbit in H by lia. exact H.
  - cbn [w_cfg]. case_bool_decide as Hr.
    + subst r. rewrite lookup_total_insert_eq. apply with_command_with_bit.
    + rewrite lookup_total_insert_ne by congruence. reflexivity.
Qed.

Lemma with_bit_overwrite v n b b' : 0 <= n -> with_bit (with_bit v n b) n b' = with_bit v n b'.
Proof.
  intros Hn. apply Z.bits_inj'. intros i Hi. rewrite !with_bit_testbit by lia.
  destruct (i =? n); reflexivity.
Qed.

(** What one MSI-X call leaves behind. *)
Lemma set_mask_msix_hw udev state w :
  mode udev = IGBUIO_MSIX_INTR_MODE ->
  mirrors_consistent w ->
  let w' := snd (igbuio_set_interrupt_mask udev state w) in
  w_bus w' = w_bus w
  /\ w_cfg w' = w_cfg w
  /\ vector_ctrl_addr <$> w_msi_list w' = vector_ctrl_addr <$> w_msi_list w
  /\ mirrors_consistent w'
  /\ (forall a, w_mmio w' !!! a =
        if bool_decide (a ∈ vector_ctrl_addr <$> w_msi_list w)
        then with_bit (w_mmio w !!! a) 0 (state =? 0)
        else w_mmio w !!! a).
Proof.
  intros Hmode (Hok & Hnd & Hm) w'. subst w'.
  rewrite set_mask_msix_spec by assumption. cbn [snd w_bus w_cfg w_msi_list w_mmio].
  assert (Hafter := fun a => msix_mmio_after state (w_msi_list w) (w_mmio w) a Hnd Hm).
  split; [reflexivity | split; [reflexivity | split; [apply vector_ctrl_addrs_masked |]]].
  split; [| exact Hafter].
  unfold mirrors_consistent. cbn [w_msi_list w_mmio].
  split; [apply Forall_msi_desc_ok_masked, Hok | split].
  - rewrite vector_ctrl_addrs_masked. exact Hnd.
  - apply Forall_fmap, Forall_forall. intros d Hd. cbn.
    change (vector_ctrl_addr (msix_masked_desc state d)) with (vector_ctrl_addr d).
    rewrite Hafter. rewrite bool_decide_eq_true_2 by (apply list_elem_of_fmap_2, Hd).
    unfold msix_new_mirror. eapply Forall_forall in Hm; [| exact Hd].
    cbn beta in Hm. rewrite Hm. reflexivity.
Qed.

(** What one Legacy call leaves behind. *)
Lemma set_mask_legacy_hw udev state w :
  mode udev = IGBUIO_LEGACY_INTR_MODE ->
  w_bus w = [] ->
  let w' := snd (igbuio_set_interrupt_mask udev state w) in
  w_bus w' = [] /\ w_mmio w' = w_mmio w /\ w_msi_list w' = w_msi_list w.
Proof.
  intros Hmode Hbus w'. subst w'. rewrite set_mask_legacy_spec by assumption. cbn [snd].
  destruct (_ =? _); cbn [logged w_bus w_mmio w_msi_list]; auto.
Qed.

(** One call, any mode: the bus stays quiet, the mirrors stay
    consistent, and configuration space and device memory are as before
    but for the mask bits, which are as wanted. *)
Lemma set_mask_hw udev state w :
  w_bus w = [] ->
  mirrors_consistent w ->
  let w' := snd (igbuio_set_interrupt_mask udev state w) in
  w_bus w' = []
  /\ mirrors_consistent w'
  /\ vector_ctrl_addr <$> w_msi_list w' = vector_ctrl_addr <$> w_msi_list w
  /\ (forall r, cfg_mask_bit udev r 10 ->
        w_cfg w' !!! r = with_bit (w_cfg w !!! r) 10 (state =? 0))
  /\ (forall r, ~ cfg_mask_bit udev r 10 -> w_cfg w' !!! r = w_cfg w !!! r)
  /\ (forall a, mmio_mask_bit udev w a 0 ->
        w_mmio w' !!! a = with_bit (w_mmio w !!! a) 0 (state =? 0))
  /\ (forall a, ~ mmio_mask_bit udev w a 0 -> w_mmio w' !!! a = w_mmio w !!! a).
Proof.
  intros Hbus Hcons w'. unfold cfg_mask_bit, mmio_mask_bit.
  destruct (mode udev) eqn:Hmode.
  - destruct (set_mask_legacy_hw udev state w Hmode Hbus) as (Hb & Hm & Hl).
    fold w' in Hb, Hm, Hl. unfold mirrors_consistent. rewrite Hm, Hl.
    repeat split; try assumption; try apply Hcons.
    + intros r (_ & -> & _). subst w'. rewrite legacy_cfg_after by assumption.
      rewrite bool_decide_eq_true_2 by reflexivity. reflexivity.
    + intros r Hr. subst w'. rewrite legacy_cfg_after by assumption.
      rewrite bool_decide_eq_false_2 by tauto. reflexivity.
    + intros a (? & _); discriminate.
  - subst w'. unfold igbuio_set_interrupt_mask. rewrite Hmode. cbn [ret snd].
    repeat split; try assumption; try apply Hcons.
    + intros r (? & _); discriminate.
    + intros a (? & _); discriminate.
  - destruct (set_mask_msix_hw udev state w Hmode Hcons) as (Hb & Hc & Ha & Hcons' & Hm).
    fold w' in Hb, Hc, Ha, Hcons', Hm. rewrite Hb, Hc.
    repeat split; try assumption; try apply Hcons'.
    + intros r (? & _); discriminate.
    + intros a (_ & Hin & _). rewrite Hm, bool_decide_eq_true_2 by assumption. reflexivity.
    + intros a Hno. rewrite Hm, bool_decide_eq_false_2 by tauto. reflexivity.
  - subst w'. unfold igbuio_set_interrupt_mask. rewrite Hmode. cbn [ret snd].
    repeat split; try assumption; try apply Hcons.
    + intros r (? & _); discriminate.
    + intros a (? & _); discriminate.
Qed.

Lemma cfg_mask_bit_dec udev r : cfg_mask_bit udev r 10 \/ ~ cfg_mask_bit udev r 10.
Proof.
  unfold cfg_mask_bit.
  destruct (mode udev); try (right; intros (? & _); discriminate).
  destruct (decide (r = PCI_COMMAND)); [left; auto | right; tauto].
Qed.

Lemma mmio_mask_bit_dec udev w a : mmio_mask_bit udev w a 0 \/ ~ mmio_mask_bit udev w a 0.
Proof.
  unfold mmio_mask_bit.
  destruct (mode udev); try (right; intros (? & _); discriminate).
  destruct (decide (a ∈ vector_ctrl_addr <$> w_msi_list w)); [left; auto | right; tauto].
Qed.

Lemma set_mask_only_mask_bits udev state w :
  w_bus w = [] ->
  mirrors_consistent w ->
  only_mask_bits_differ udev w (snd (igbuio_set_interrupt_mask udev state w)).
Proof.
  intros Hbus Hcons.
  destruct (set_mask_hw udev state w Hbus Hcons) as (_ & _ & _ & Hc1 & Hc2 & Hm1 & Hm2).
  split.
  - intros r i Hi Hno. destruct (cfg_mask_bit_dec udev r) as [Hr | Hr].
    + rewrite Hc1 by assumption. rewrite with_bit_testbit by lia.
      destruct (Z.eqb_spec i 10) as [-> | _]; [contradiction | reflexivity].
    + rewrite Hc2 by assumption. reflexivity.
  - intros a i Hi Hno. destruct (mmio_mask_bit_dec udev w a) as [Ha | Ha].
    + rewrite Hm1 by assumption. rewrite with_bit_testbit by lia.
      destruct (Z.eqb_spec i 0) as [-> | _]; [contradiction | reflexivity].
    + rewrite Hm2 by assumption. reflexivity.
Qed.

(** C6 does not hold as stated: a device whose interrupt-disable
    bit is already set when it is masked (command 0x0407) does not get
    its command register back from the round trip. *)
Lemma round_trip_not_restoring :
  w_cfg world_legacy_example !!! PCI_COMMAND = 0x00180407
  /\ w_cfg (snd (igbuio_set_interrupt_mask udev_legacy_example 1
             (snd (igbuio_set_interrupt_mask udev_legacy_example 0
                     world_legacy_example)))) !!! PCI_COMMAND = 0x00180007.
Proof. split; reflexivity. Qed.

(** C6, amended. On a bus that completes its accesses and with mirrors
    that hold what the table holds, masking (state 0) and then unmasking
    (state 1) changes, in each of the two calls, no bit of configuration
    space or device memory other than the mask bits of the device's mode
    (bit 10 of the command register in Legacy mode, bit 0 of the
    vector-control word of every descriptor in MSI-X mode), and leaves
    those bits clear. The hardware is therefore back to what it was
    exactly when the mask bits were clear before masking. *)
Theorem mask_unmask_round_trip udev w :
  w_bus w = [] ->
  mirrors_consistent w ->
  let w1 := snd (igbuio_set_interrupt_mask udev 0 w) in
  let w2 := snd (igbuio_set_interrupt_mask udev 1 w1) in
  only_mask_bits_differ udev w w1
  /\ only_mask_bits_differ udev w1 w2
  /\ mask_bits_are udev w1 true
  /\ mask_bits_are udev w2 false
  /\ (mask_bits_are udev w false <-> same_hardware w w2).
Proof.
  intros Hbus Hcons w1 w2.
  destruct (set_mask_hw udev 0 w Hbus Hcons) as (Hb1 & Hcons1 & Ha1 & Hc1 & Hc1' & Hm1 & Hm1').
  fold w1 in Hb1, Hcons1, Ha1, Hc1, Hc1', Hm1, Hm1'.
  destruct (set_mask_hw udev 1 w1 Hb1 Hcons1) as (_ & _ & Ha2 & Hc2 & Hc2' & Hm2 & Hm2').
  fold w2 in Ha2, Hc2, Hc2', Hm2, Hm2'.
  change (0 =? 0) with true in *. change (1 =? 0) with false in *.
  assert (Hsame12 : forall a, mmio_mask_bit udev w1 a 0 <-> mmio_mask_bit udev w a 0).
  { intros a. unfold mmio_mask_bit. rewrite Ha1. reflexivity. }
  assert (Hmasked : mask_bits_are udev w1 true).
  { split.
    - intros Hmode. rewrite Hc1 by (unfold cfg_mask_bit; auto).
      rewrite with_bit_testbit, Z.eqb_refl by lia. reflexivity.
    - intros Hmode d Hd.
      assert (Hin : mmio_mask_bit udev w (vector_ctrl_addr d) 0).
      { apply Hsame12. split; [assumption | split; [| reflexivity]].
        apply list_elem_of_fmap_2, Hd. }
      rewrite Hm1 by assumption. rewrite with_bit_testbit, Z.eqb_refl by lia. reflexivity. }
  assert (Hclear : mask_bits_are udev w2 false).
  { split.
    - intros Hmode. rewrite Hc2 by (unfold cfg_mask_bit; auto).
      rewrite with_bit_testbit, Z.eqb_refl by lia. reflexivity.
    - intros Hmode d Hd.
      assert (Hin : mmio_mask_bit udev w1 (vector_ctrl_addr d) 0).
      { split; [assumption | split; [| reflexivity]].
        rewrite <- Ha2. apply list_elem_of_fmap_2, Hd. }
      rewrite Hm2 by assumption. rewrite with_bit_testbit, Z.eqb_refl by lia. reflexivity. }
  split; [apply set_mask_only_mask_bits; assumption |].
  split; [apply set_mask_only_mask_bits; assumption |].
  split; [exact Hmasked | split; [exact Hclear |]].
  split.
  - intros [Hlegacy Hmsix]. split.
    + intros r. destruct (cfg_mask_bit_dec udev r) as [Hr | Hr].
      * rewrite Hc2, Hc1 by assumption. rewrite with_bit_overwrite by lia.
        destruct Hr as (Hmode & -> & _). apply with_bit_same; [lia | auto].
      * rewrite Hc2', Hc1' by assumption. reflexivity.
    + intros a. destruct (mmio_mask_bit_dec udev w a) as [Hr | Hr].
      * rewrite Hm2 by (apply Hsame12; assumption). rewrite Hm1 by assumption.
        rewrite with_bit_overwrite by lia.
        destruct Hr as (Hmode & Hin & _).
        apply list_elem_of_fmap in Hin as (d & -> & Hd).
        apply with_bit_same; [lia | auto].
      * rewrite Hm2' by (rewrite Hsame12; assumption). rewrite Hm1' by assumption.
        reflexivity.
  - intros [Hcfg Hmmio]. destruct Hclear as [Hclear_legacy Hclear_msix]. split.
    + intros Hmode. rewrite <- Hcfg. auto.
    + intros Hmode d Hd.
      assert (Hin : vector_ctrl_addr d ∈ vector_ctrl_addr <$> w_msi_list w2).
      { rewrite Ha2, Ha1. apply list_elem_of_fmap_2, Hd. }
      apply list_elem_of_fmap in Hin as (d2 & Heq & Hd2).
      rewrite <- Hmmio, Heq. auto.
Qed.

(** ** Memory regions *)

(** C8 does not hold as stated: an absent BAR and a failed
    mapping give the caller the same status, -1, and the same untouched
    [info]; the two errors cannot be told apart. *)
Lemma iomem_errors_indistinguishable :
  fst (igbuio_pci_setup_iomem kernel_env_no_bar (info udev_zero) 0 0 "config" world_empty)
    = (-1, info udev_zero)
  /\ fst (igbuio_pci_setup_iomem kernel_env_no_map (info udev_zero) 0 0 "config" world_empty)
    = (-1, info udev_zero).
Proof. split; reflexivity. Qed.

(** C8, amended. [igbuio_pci_setup_iomem] returns -1 exactly when the
    BAR's start or length is zero (and then without calling [ioremap]) or
    when [ioremap] returns a null pointer; both failures give the same
    status and leave [info] untouched. Otherwise it returns 0 and slot
    [n] of the region table holds the name, the physical address, the
    mapped pointer, the length and the type [UIO_MEM_PHYS], every other
    slot and field of [info] being as before. *)
Theorem setup_iomem_outcomes k i n pci_bar name w :
  (n < length (info_mem i))%nat ->
  let addr := k_resource_start k pci_bar in
  let len := k_resource_len k pci_bar in
  let ptr := k_ioremap k addr len in
  let r := igbuio_pci_setup_iomem k i n pci_bar name w in
  r = (if (addr =? 0) || (len =? 0) then ((-1, i), w)
       else if ptr =? 0 then ((-1, i), logged w [EvIoremap addr len ptr])
       else ((0, UioInfo (info_name i) (info_version i)
                   (<[ n := UioMem name addr ptr len UIO_MEM_PHYS ]> (info_mem i))
                   (info_irq i) (info_irq_flags i) (info_handler i) (info_irqcontrol i)),
             logged w [EvIoremap addr len ptr]))
  /\ fst (fst r) = (if (addr =? 0) || (len =? 0) || (ptr =? 0) then -1 else 0)
  /\ (fst (fst r) = 0 ->
        info_mem (snd (fst r)) !! n = Some (UioMem name addr ptr len UIO_MEM_PHYS)
        /\ forall j, j <> n -> info_mem (snd (fst r)) !! j = info_mem i !! j).
Proof.
  intros Hn addr len ptr r. subst r. unfold igbuio_pci_setup_iomem.
  fold addr. fold len.
  destruct ((addr =? 0) || (len =? 0)) eqn:Hbar.
  - cbn [ret fst snd orb]. repeat split; discriminate.
  - drv_step. fold ptr. destruct (ptr =? 0) eqn:Hptr; cbn [fst snd orb].
    + repeat split; discriminate.
    + split; [reflexivity | split; [reflexivity |]]. intros _. cbn [info_mem]. split.
      * apply list_lookup_insert_eq. exact Hn.
      * intros j Hj. apply list_lookup_insert_ne. congruence.
Qed.

Lemma setup_iomem_outcomes_witness :
  igbuio_pci_setup_iomem kernel_env_example (info udev_zero) 0 0 "config" world_empty =
    ((0, UioInfo "" ""
           [UioMem "config" 0x1000 0xffffc90000100000 0x1000 UIO_MEM_PHYS;
            uio_mem_zero; uio_mem_zero; uio_mem_zero; uio_mem_zero]
           0 0 None None),
     World ∅ ∅ [] None [] [EvIoremap 0x1000 0x1000 0xffffc90000100000]).
Proof.
  exact (proj1 (setup_iomem_outcomes kernel_env_example (info udev_zero) 0 0 "config"
                  world_empty (Nat.lt_0_succ 4))).
Defined.

(** ** Interrupt-mode selection *)

(** The mode block on a context as the attach has it at that point: in
    Legacy mode, with as many [msix_entries] as the array has. *)
Lemma probe_intr_mode_spec k udev w :
  length (msix_entries udev) = IGBUIO_NUM_MSI_VECTORS ->
  mode udev = IGBUIO_LEGACY_INTR_MODE ->
  probe_intr_mode k udev w =
    let w1 := acted k KPciEnableMsix w in
    if k_pci_enable_msix k =? 0 then
      (set_irq (RteUioPciDev (info udev) IGBUIO_MSIX_INTR_MODE
                  [MsixEntry (k_msix_vector k 0) 0])
               0 (k_msix_vector k 0),
       World (w_cfg w1) (w_mmio w1)
             [MsiDesc 0 (w_mmio w1 !!! (k_msix_table k + (0 * 16 + 12))) (k_msix_table k)]
             (w_drvdata w) (w_bus w)
             (w_trace w ++ [EvPciEnableMsix [0] 1 (k_pci_enable_msix k)]))
    else
      (set_irq (RteUioPciDev (info udev) IGBUIO_LEGACY_INTR_MODE
                  [MsixEntry (from_option vector 0 (msix_entries udev !! 0%nat)) 0])
               IRQF_SHARED (k_dev_irq k),
       World (w_cfg (acted k KPciDisableMsix w1)) (w_mmio (acted k KPciDisableMsix w1)) []
             (w_drvdata w) (w_bus w)
             (w_trace w ++
                [EvPciEnableMsix [0] 1 (k_pci_enable_msix k);
                 EvPciDisableMsix;
                 EvPrintk KERN_INFO
                   "fail to enable pci msix, or not enough msix entries\n" []])).
Proof.
  intros Hlen Hmode. destruct udev as [i m entries]. cbn [mode msix_entries] in *. subst m.
  destruct entries as [|e [|e' entries]]; try discriminate Hlen.
  unfold probe_intr_mode, igbuio_intr_mode_preferred, pci_enable_msix, set_msix_entries,
    set_mode, set_irq, acted.
  cbv zeta.
  cbn [msix_entries mode info imap fmap list_fmap entry vector Z.of_nat IGBUIO_NUM_MSI_VECTORS
       Pos.of_succ_nat].
  destruct (k_pci_enable_msix k =? 0) eqn:Hrc.
  - apply Z.eqb_eq in Hrc. drv_step. rewrite Hrc. cbn [Z.eqb]. drv_step.
    cbn [mode msix_entries list_fmap fmap entry vector lookup list_lookup from_option info].
    reflexivity.
  - drv_step. rewrite Hrc. drv_step.
    cbn [mode msix_entries list_fmap fmap entry vector lookup list_lookup from_option info].
    rewrite <- !app_assoc. reflexivity.
Qed.

(** ** Attach and its unwind *)

Lemma bind_eq {A B} (m : M A) (f : A -> M B) w :
  bind m f w = f (fst (m w)) (snd (m w)).
Proof. unfold bind. destruct (m w); reflexivity. Qed.

Lemma acquired_app t1 t2 : acquired (t1 ++ t2) = acquired t1 ++ acquired t2.
Proof. apply omap_app. Qed.

Lemma released_app t1 t2 : released (t1 ++ t2) = released t1 ++ released t2.
Proof. apply omap_app. Qed.

Lemma mask_traffic_no_resources es :
  Forall (fun e => is_mask_traffic e = true) es -> acquired es = [] /\ released es = [].
Proof.
  induction 1 as [|e es He _ [IH1 IH2]]; [split; reflexivity |].
  unfold acquired, released in *. cbn [omap list_omap]. rewrite IH1, IH2.
  destruct e; try discriminate He; split; reflexivity.
Qed.

(** The unmap routine visits all [MAX_UIO_MAPS] slots and unmaps those,
    and only those, whose mapped pointer is not null. *)
Lemma igbuio_pci_release_iomem_spec i w :
  length (info_mem i) = MAX_UIO_MAPS ->
  igbuio_pci_release_iomem i w =
    (tt, logged w (EvIounmap <$>
                     filter (fun p => p <> 0) (mem_internal_addr <$> info_mem i))).
Proof.
  intros Hlen. destruct i as [nm ver mem irq fl h c]. cbn [info_mem] in *.
  do 6 (destruct mem as [|? mem]; try discriminate Hlen).
  unfold igbuio_pci_release_iomem. cbn [info_mem MAX_UIO_MAPS seq for_each_index
    lookup list_lookup fmap list_fmap].
  rewrite !filter_cons, filter_nil.
  repeat match goal with
  | |- context [negb (?p =? 0)] =>
      destruct (Z.eqb_spec p 0);
      [rewrite (decide_False (P := p <> 0)) by tauto
      | rewrite (decide_True (P := p <> 0)) by assumption]
  end; drv_step; cbn [fmap list_fmap]; rewrite <- ?app_assoc, ?app_nil_r;
  destruct w; reflexivity.
Qed.

Lemma trace_since_app w w' es :
  w_trace w' = w_trace w ++ es -> trace_since w w' = es.
Proof. intros H. unfold trace_since. rewrite H. apply drop_app_length. Qed.

Ltac k_step :=
  cbv [set_irq set_mode set_msix_entries];
  cbn [k_kzalloc k_pci_enable_device k_pci_set_dma_mask k_pci_request_regions
       k_resource_start k_resource_len k_ioremap k_pci_enable_msix k_msix_vector
       k_msix_table k_uio_register_device k_dev_irq k_cfg_after k_mmio_after
       negb andb orb fst snd
       w_cfg w_mmio w_msi_list w_drvdata w_bus w_trace];
  try change (-1 =? 0) with false; try change (0 =? 0) with true;
  cbn [negb andb orb fst snd w_cfg w_mmio w_msi_list w_drvdata w_bus w_trace
       info mode msix_entries info_name info_version info_mem info_irq info_irq_flags
       info_handler info_irqcontrol udev_zero
       uio_mem_zero replicate MAX_UIO_MAPS IGBUIO_NUM_MSI_VECTORS
       insert list_insert mem_internal_addr fmap list_fmap].

Ltac trace_done :=
  erewrite trace_since_app by (cbn [w_trace]; rewrite <- ?app_assoc; reflexivity);
  unfold acquired, released; cbn [omap list_omap acquires releases app].

(** The last unwind label. *)
Lemma fail_release_iomem_spec k udev w :
  length (info_mem (info udev)) = MAX_UIO_MAPS ->
  fail_release_iomem k udev w =
    (- ENODEV,
     let w1 := match mode udev with
               | IGBUIO_MSIX_INTR_MODE => acted k KPciDisableMsix w
               | _ => w
               end in
     World (w_cfg (acted k KPciDisableDevice w1)) (w_mmio (acted k KPciDisableDevice w1))
           (match mode udev with IGBUIO_MSIX_INTR_MODE => [] | _ => w_msi_list w end)
           (w_drvdata w) (w_bus w)
           (w_trace w
            ++ (EvIounmap <$>
                  filter (fun p => p <> 0) (mem_internal_addr <$> info_mem (info udev)))
            ++ (match mode udev with
                | IGBUIO_MSIX_INTR_MODE => [EvPciDisableMsix]
                | _ => []
                end)
            ++ [EvPciReleaseRegions; EvPciDisableDevice; EvKfree])).
Proof.
  intros Hlen. unfold fail_release_iomem. rewrite bind_eq.
  rewrite igbuio_pci_release_iomem_spec by assumption. cbn [fst snd].
  cbv [fail_release_regions fail_disable fail_free acted].
  destruct (mode udev); drv_step; rewrite <- !app_assoc; reflexivity.
Qed.

(** ** The attach, once the context exists and BAR 0 is mapped *)

Lemma msi_list_for_each_mask_length l state w :
  length (fst (msi_list_for_each_mask l state w)) = length l.
Proof.
  revert w. induction l as [|d l IH]; intros w; [reflexivity |].
  cbn [msi_list_for_each_mask]. rewrite !bind_eq. unfold ret. cbn [fst length].
  rewrite IH. reflexivity.
Qed.

Lemma set_mask_msi_list_length udev state w :
  length (w_msi_list (snd (igbuio_set_interrupt_mask udev state w)))
  = length (w_msi_list w).
Proof.
  unfold igbuio_set_interrupt_mask. destruct (mode udev).
  - destruct w as [cfg mmio msi drv bus tr].
    destruct bus as [|[|d1] [|[|d2] bus]]; drv_step;
      match goal with |- context [negb (?a =? ?b)] => destruct (a =? b) end; drv_step;
      reflexivity.
  - reflexivity.
  - rewrite !bind_eq. unfold get_msi_list, put_msi_list, ret. cbn [fst snd w_msi_list].
    apply msi_list_for_each_mask_length.
  - reflexivity.
Qed.

Lemma igbuio_pci_probe_attach k w :
  probe_prefix_ok k = true ->
  exists es,
    Forall (fun e => is_mask_traffic e = true) es
    /\ fst (igbuio_pci_probe k w) = (if k_uio_register_device k =? 0 then 0 else - ENODEV)
    /\ w_trace (snd (igbuio_pci_probe k w)) = w_trace w ++ attach_events k es
    /\ w_drvdata (snd (igbuio_pci_probe k w)) = Some (attached_context k)
    /\ length (w_msi_list (snd (igbuio_pci_probe k w))) =
         if (k_pci_enable_msix k =? 0) && (k_uio_register_device k =? 0)
         then 1%nat else 0%nat.
Proof.
  destruct k as [kz en dma reg rs rl io mx vec tab ur irq kcfg kmmio].
  destruct w as [cfg mmio msi drv bus tr].
  unfold probe_prefix_ok, attach_events, attached_context, selected_mode, registered_irq,
    registered_irq_flags, iomem_ok, bar0_ptr, igbuio_pci_probe, igbuio_pci_setup_iomem.
  cbv [fail_release_regions fail_disable fail_free]. drv_step. k_step.
  intros Hok.
  destruct kz; [| discriminate Hok].
  destruct (en =? 0) eqn:Hen; [| discriminate Hok].
  destruct (dma =? 0) eqn:Hdma; [| discriminate Hok].
  destruct (reg =? 0) eqn:Hreg; [| discriminate Hok].
  destruct ((rs 0 =? 0) || (rl 0 =? 0)) eqn:Hbar; [discriminate Hok |].
  destruct (io (rs 0) (rl 0) =? 0) eqn:Hio; [discriminate Hok |].
  k_step. clear Hok.
  assert (Hptr : io (rs 0) (rl 0) <> 0) by (apply Z.eqb_neq; exact Hio).
  rewrite probe_intr_mode_spec by reflexivity. k_step.
  destruct (mx =? 0) eqn:Hmx; k_step.
  all: rewrite igbuio_pci_irqcontrol_unfold.
  all: match goal with |- context [igbuio_set_interrupt_mask ?u 0 ?w0] =>
      destruct (igbuio_set_interrupt_mask_traffic u 0 w0) as [_ [Hdrv (es & Ht & Hes)]];
      pose proof (set_mask_msi_list_length u 0 w0) as Hlen;
      revert Hdrv Ht Hlen; generalize (snd (igbuio_set_interrupt_mask u 0 w0))
    end.
  all: intros wm Hdrv Ht Hlen; destruct wm as [cfg' mmio' msi' drv' bus' tr'].
  all: cbn [logged w_trace w_drvdata w_msi_list length] in Hdrv, Ht, Hlen; subst tr' drv'.
  all: exists es; split; [exact Hes |].
  all: unfold logged; k_step; destruct (ur =? 0) eqn:Hur; k_step.
  - split; [reflexivity |]. split; [rewrite <- !app_assoc; reflexivity |].
    split; [reflexivity | exact Hlen].
  - rewrite fail_release_iomem_spec by reflexivity. k_step.
    rewrite !filter_cons, filter_nil.
    rewrite (decide_True (P := io (rs 0) (rl 0) <> 0)) by assumption.
    rewrite !(decide_False (P := 0 <> 0)) by tauto. k_step.
    split; [reflexivity |]. split; [rewrite <- !app_assoc; reflexivity |].
    split; reflexivity.
  - split; [reflexivity |]. split; [rewrite <- !app_assoc; reflexivity |].
    split; [reflexivity | exact Hlen].
  - rewrite fail_release_iomem_spec by reflexivity. k_step.
    rewrite !filter_cons, filter_nil.
    rewrite (decide_True (P := io (rs 0) (rl 0) <> 0)) by assumption.
    rewrite !(decide_False (P := 0 <> 0)) by tauto. k_step.
    split; [reflexivity |]. split; [rewrite <- !app_assoc; reflexivity |].
    split; [reflexivity | exact Hlen].
Qed.

Lemma igbuio_pci_probe_spec k w :
  fst (igbuio_pci_probe k w) = probe_status k
  /\ (acquired (trace_since w (snd (igbuio_pci_probe k w))),
      released (trace_since w (snd (igbuio_pci_probe k w)))) = probe_resources k.
Proof.
  destruct (probe_prefix_ok k) eqn:Hok.
  - destruct (igbuio_pci_probe_attach k w Hok) as (es & Hes & Hst & Ht & _ & _).
    destruct (mask_traffic_no_resources es Hes) as [Hacq Hrel].
    rewrite Hst, (trace_since_app _ _ _ Ht). clear Hst Ht.
    unfold probe_prefix_ok in Hok.
    apply andb_prop in Hok as [Hok Hiomem]. apply andb_prop in Hok as [Hok Hreg].
    apply andb_prop in Hok as [Hok Hdma]. apply andb_prop in Hok as [Hkz Hen].
    unfold probe_status, probe_resources. rewrite Hkz, Hen, Hdma, Hreg, Hiomem.
    cbn [negb andb orb].
    assert (Hio : (bar0_ptr k =? 0) = false).
    { unfold iomem_ok in Hiomem. apply negb_true_iff, orb_false_iff in Hiomem.
      apply Hiomem. }
    unfold attach_events, acquired, released in *.
    rewrite !omap_app, Hacq, Hrel. cbn [omap list_omap acquires releases app].
    rewrite Hen, Hreg, Hio.
    destruct (k_pci_enable_msix k =? 0), (k_uio_register_device k =? 0);
      split; reflexivity.
  - destruct k as [kz en dma reg rs rl io mx vec tab ur irq kcfg kmmio].
    destruct w as [cfg mmio msi drv bus tr].
    unfold probe_prefix_ok, probe_status, probe_resources, iomem_ok, bar0_ptr,
      igbuio_pci_probe, igbuio_pci_setup_iomem in *.
    cbv [fail_release_regions fail_disable fail_free]. drv_step. k_step.
    cbn [k_kzalloc k_pci_enable_device k_pci_set_dma_mask k_pci_request_regions
         k_resource_start k_resource_len k_ioremap] in Hok.
    destruct kz; k_step.
    2:{ split; [reflexivity |]. trace_done. reflexivity. }
    destruct (en =? 0) eqn:Hen; k_step.
    2:{ split; [reflexivity |]. trace_done. rewrite Hen. reflexivity. }
    destruct (dma =? 0) eqn:Hdma; k_step.
    2:{ split; [reflexivity |]. trace_done. rewrite Hen. reflexivity. }
    destruct (reg =? 0) eqn:Hreg; k_step.
    2:{ split; [reflexivity |]. trace_done. rewrite Hen, Hreg. reflexivity. }
    destruct ((rs 0 =? 0) || (rl 0 =? 0)) eqn:Hbar; k_step.
    { split; [reflexivity |]. trace_done. rewrite Hen, Hreg. reflexivity. }
    destruct (io (rs 0) (rl 0) =? 0) eqn:Hio; k_step.
    { split; [reflexivity |]. trace_done. rewrite Hen, Hreg, Hio. reflexivity. }
    discriminate Hok.
Qed.

(** C7 does not hold as stated, on two counts. When the registration fails
    after MSI-X was enabled, the mapping of BAR 0, taken before the
    MSI-X vector, is also given back before it: the order of release is
    not the reverse of the order of acquisition. And a failure of the
    MSI-X stage alone does not fail the attach: the probe returns 0. *)
Lemma unwind_not_in_reverse_order :
  (let r := igbuio_pci_probe kernel_env_no_register world_empty in
   let t := trace_since world_empty (snd r) in
   fst r = - ENODEV
   /\ acquired t = [ResContext; ResDevice; ResRegions; ResIomem 0xffffc90000100000; ResMsix]
   /\ released t = [ResIomem 0xffffc90000100000; ResMsix; ResRegions; ResDevice; ResContext]
   /\ released t <> rev (acquired t))
  /\ fst (igbuio_pci_probe (with_msix_outcome kernel_env_example (-28)) world_empty) = 0.
Proof.
  split; [| reflexivity]. cbv zeta.
  split; [reflexivity | split; [reflexivity | split; [reflexivity |]]].
  intros H. vm_compute in H. discriminate H.
Qed.

(** C7, amended. The probe returns 0 when the context allocation, the
    device enable, the DMA mask, the region reservation, the mapping of
    BAR 0 and the uio registration all succeed, whatever the outcome of
    the MSI-X request, and a negative status otherwise. When it returns a
    negative status it has given back exactly what it had taken, the
    context last; the order of release is the reverse of the order of
    acquisition, except that after a failed registration in MSI-X mode
    the mapping of BAR 0 is released before the MSI-X vector. The unmap
    routine goes over all [MAX_UIO_MAPS] slots and unmaps exactly those
    whose mapped pointer is not null. *)
Theorem probe_unwind k w :
  let r := igbuio_pci_probe k w in
  let t := trace_since w (snd r) in
  fst r = probe_status k
  /\ (fst r = 0 \/ fst r < 0)
  /\ (fst r = 0 <->
        k_kzalloc k = true /\ k_pci_enable_device k = 0 /\ k_pci_set_dma_mask k = 0
        /\ k_pci_request_regions k = 0 /\ iomem_ok k = true
        /\ k_uio_register_device k = 0)
  /\ (fst r < 0 ->
        released t ≡ₚ acquired t
        /\ (released t = [] \/ last (released t) = Some ResContext)
        /\ (released t = rev (acquired t)
            \/ (k_pci_enable_msix k = 0 /\ k_uio_register_device k <> 0
                /\ acquired t =
                     [ResContext; ResDevice; ResRegions; ResIomem (bar0_ptr k); ResMsix]
                /\ released t =
                     [ResIomem (bar0_ptr k); ResMsix; ResRegions; ResDevice; ResContext])))
  /\ (forall i w0,
        length (info_mem i) = MAX_UIO_MAPS ->
        igbuio_pci_release_iomem i w0 =
          (tt, logged w0 (EvIounmap <$>
                            filter (fun p => p <> 0) (mem_internal_addr <$> info_mem i)))).
Proof.
  intros r t. subst r t.
  destruct (igbuio_pci_probe_spec k w) as [Hst Hres].
  pose proof (f_equal fst Hres) as Ha. pose proof (f_equal snd Hres) as Hr.
  cbn [fst snd] in Ha, Hr. rewrite Hst, Ha, Hr. clear Hst Hres Ha Hr.
  split; [reflexivity |].
  split; [| split; [| split; [| apply igbuio_pci_release_iomem_spec]]].
  - unfold probe_status. destruct (negb _); [right; reflexivity |].
    destruct (_ && _); [left | right]; reflexivity.
  - unfold probe_status.
    destruct (k_kzalloc k); cbn [negb]; [| split; [discriminate | intros (? & _); discriminate]].
    destruct (Z.eqb_spec (k_pci_enable_device k) 0); cbn [andb];
      [| split; [discriminate | tauto]].
    destruct (Z.eqb_spec (k_pci_set_dma_mask k) 0); cbn [andb];
      [| split; [discriminate | tauto]].
    destruct (Z.eqb_spec (k_pci_request_regions k) 0); cbn [andb];
      [| split; [discriminate | tauto]].
    destruct (iomem_ok k); cbn [andb];
      [| split; [discriminate | intros (_ & _ & _ & _ & ? & _); discriminate]].
    destruct (Z.eqb_spec (k_uio_register_device k) 0);
      [tauto | split; [discriminate | tauto]].
  - unfold probe_status, probe_resources.
    destruct (k_kzalloc k); cbn [negb fst snd].
    2:{ intros _. split; [reflexivity | split; left; reflexivity]. }
    destruct (k_pci_enable_device k =? 0); cbn [negb andb orb fst snd].
    2:{ intros _. split; [reflexivity | split; [right | left]; reflexivity]. }
    destruct (k_pci_set_dma_mask k =? 0); cbn [negb andb orb fst snd].
    2:{ intros _. split; [apply Permutation_swap | split; [right | left]; reflexivity]. }
    destruct (k_pci_request_regions k =? 0); cbn [negb andb orb fst snd].
    2:{ intros _. split; [apply Permutation_swap | split; [right | left]; reflexivity]. }
    destruct (iomem_ok k); cbn [negb andb orb fst snd].
    2:{ intros _. split; [| split; [right | left]; reflexivity].
        symmetry. apply (Permutation_rev [ResContext; ResDevice; ResRegions]). }
    destruct (Z.eqb_spec (k_uio_register_device k) 0) as [_ | Hur]; [intros H; discriminate H |].
    intros _. destruct (Z.eqb_spec (k_pci_enable_msix k) 0) as [Hmx | _].
    + split; [| split; [right; reflexivity | right; auto]].
      etransitivity; [apply Permutation_swap |]. symmetry.
      apply (Permutation_rev
               [ResContext; ResDevice; ResRegions; ResIomem (bar0_ptr k); ResMsix]).
    + split; [| split; [right | left]; reflexivity]. symmetry.
      apply (Permutation_rev
               [ResContext; ResDevice; ResRegions; ResIomem (bar0_ptr k); ResMsix]).
Qed.

Lemma probe_unwind_witness :
  released (trace_since world_empty
              (snd (igbuio_pci_probe kernel_env_no_register world_empty)))
  ≡ₚ acquired (trace_since world_empty
                 (snd (igbuio_pci_probe kernel_env_no_register world_empty))).
Proof.
  apply (probe_unwind kernel_env_no_register world_empty). reflexivity.
Defined.

(** ** Interrupt-mode selection within the attach *)

Lemma mask_traffic_no_requests es :
  Forall (fun e => is_mask_traffic e = true) es ->
  msix_requests es = [] /\ registrations es = [].
Proof.
  induction 1 as [|e es He _ [IH1 IH2]]; [split; reflexivity |].
  unfold msix_requests, registrations in *. cbn [omap list_omap]. rewrite IH1, IH2.
  destruct e; try discriminate He; split; reflexivity.
Qed.

Lemma probe_status_with_msix_outcome k rc :
  probe_status (with_msix_outcome k rc) = probe_status k.
Proof. reflexivity. Qed.

(** C3. An attach that gets as far as the interrupt-mode block makes
    exactly one MSI-X request, for one vector bound to table entry 0.
    When the request succeeds the context is in MSI-X mode and the vector
    the kernel assigned is the irq it registers; when it fails, whatever
    the failure, [pci_disable_msix] follows at once and the context is in
    Legacy mode with the device's own, shareable irq. The mode is never
    MSI, and the status the attach returns does not depend on the outcome
    of the request. *)
Theorem intr_mode_selection k w :
  probe_prefix_ok k = true ->
  let r := igbuio_pci_probe k w in
  let t := trace_since w (snd r) in
  let rc := k_pci_enable_msix k in
  igbuio_intr_mode_preferred = IGBUIO_MSIX_INTR_MODE
  /\ msix_requests t = [([0], 1, rc)]
  /\ (exists ctx,
        w_drvdata (snd r) = Some ctx
        /\ registrations t
           = [(info_irq (info ctx), info_irq_flags (info ctx), k_uio_register_device k)]
        /\ mode ctx <> IGBUIO_MSI_INTR_MODE
        /\ (rc = 0 ->
              mode ctx = IGBUIO_MSIX_INTR_MODE
              /\ info_irq (info ctx) = k_msix_vector k 0
              /\ msix_entries ctx = [MsixEntry (k_msix_vector k 0) 0])
        /\ (rc <> 0 ->
              mode ctx = IGBUIO_LEGACY_INTR_MODE
              /\ info_irq (info ctx) = k_dev_irq k
              /\ info_irq_flags (info ctx) = IRQF_SHARED))
  /\ (rc <> 0 ->
        exists pre post, t = pre ++ [EvPciEnableMsix [0] 1 rc; EvPciDisableMsix] ++ post)
  /\ (rc = 0 -> k_uio_register_device k = 0 ->
        length (w_msi_list (snd r)) = IGBUIO_NUM_MSI_VECTORS)
  /\ (forall rc', fst (igbuio_pci_probe (with_msix_outcome k rc') w) = fst r).
Proof.
  intros Hok r t rc. subst r t rc.
  destruct (igbuio_pci_probe_attach k w Hok) as (es & Hes & Hst & Ht & Hdrv & Hlen).
  destruct (mask_traffic_no_requests es Hes) as [Hreq Hregs].
  rewrite (trace_since_app _ _ _ Ht).
  split; [reflexivity |]. split; [| split; [| split; [| split]]].
  - unfold attach_events, msix_requests in *. rewrite !omap_app, Hreq.
    destruct (k_pci_enable_msix k =? 0), (k_uio_register_device k =? 0); reflexivity.
  - exists (attached_context k). split; [exact Hdrv |].
    unfold attach_events, registrations in *. rewrite !omap_app, Hregs.
    unfold attached_context, selected_mode, registered_irq, registered_irq_flags.
    cbn [info mode msix_entries info_irq info_irq_flags].
    destruct (Z.eqb_spec (k_pci_enable_msix k) 0) as [Hrc | Hrc].
    + split; [destruct (k_uio_register_device k =? 0); reflexivity |].
      split; [discriminate |]. split; [auto | intros; contradiction].
    + split; [destruct (k_uio_register_device k =? 0); reflexivity |].
      split; [discriminate |]. split; [intros; contradiction | auto].
  - intros Hrc. apply Z.eqb_neq in Hrc. unfold attach_events. rewrite Hrc.
    eexists [_; _; _; _; _; _; _], _. cbn [app]. reflexivity.
  - intros Hrc Hur. rewrite Hlen, Hrc, Hur. reflexivity.
  - intros rc'. destruct (igbuio_pci_probe_spec k w) as [-> _].
    destruct (igbuio_pci_probe_spec (with_msix_outcome k rc') w) as [-> _].
    apply probe_status_with_msix_outcome.
Qed.

Lemma intr_mode_selection_witness :
  msix_requests
    (trace_since world_empty (snd (igbuio_pci_probe kernel_env_example world_empty)))
  = [([0], 1, 0)].
Proof.
  exact (proj1 (proj2 (intr_mode_selection kernel_env_example world_empty eq_refl))).
Defined.

(** ** The round trip on the examples *)

Lemma mirrors_consistent_example : mirrors_consistent world_msix_example.
Proof.
  split; [exact msi_desc_ok_example | split].
  - apply NoDup_cons. split; [apply not_elem_of_nil | apply NoDup_nil_2].
  - repeat constructor.
Defined.

Lemma mask_unmask_round_trip_witness :
  same_hardware world_msix_example
    (snd (igbuio_set_interrupt_mask udev_msix_example 1
       (snd (igbuio_set_interrupt_mask udev_msix_example 0 world_msix_example)))).
Proof.
  apply (proj1 (proj2 (proj2 (proj2 (proj2
           (mask_unmask_round_trip udev_msix_example world_msix_example eq_refl
              mirrors_consistent_example)))))).
  split.
  - intros H. discriminate H.
  - intros _ d Hd. apply list_elem_of_singleton in Hd. subst d. reflexivity.
Defined.

(** * Further properties *)

(** ** What the mask controller touches, and what it leaves alone *)

Lemma mask_frame_refl udev w : mask_frame udev w w.
Proof.
  split; [reflexivity |]. split; [auto |]. split; [auto |].
  exists []. rewrite app_nil_r. split; [reflexivity | constructor].
Qed.

Lemma igbuio_msix_mask_irq_frame d state w :
  let w' := snd (igbuio_msix_mask_irq d state w) in
  w_cfg w' = w_cfg w /\ w_bus w' = w_bus w /\ w_drvdata w' = w_drvdata w
  /\ w_msi_list w' = w_msi_list w
  /\ exists es, w_trace w' = w_trace w ++ es /\ Forall (fun e => is_hw_access e = true) es.
Proof.
  unfold igbuio_msix_mask_irq. cbv zeta.
  match goal with |- context [negb (?a =? ?b)] => destruct (a =? b) end; drv_step.
  - repeat split. exists []. rewrite app_nil_r. split; [reflexivity | constructor].
  - repeat split. rewrite <- !app_assoc. eexists. split; [reflexivity |]. repeat constructor.
Qed.

Lemma msi_list_for_each_mask_frame l state : forall w,
  let w' := snd (msi_list_for_each_mask l state w) in
  w_cfg w' = w_cfg w /\ w_bus w' = w_bus w /\ w_drvdata w' = w_drvdata w
  /\ w_msi_list w' = w_msi_list w
  /\ exists es, w_trace w' = w_trace w ++ es /\ Forall (fun e => is_hw_access e = true) es.
Proof.
  induction l as [|d l IH]; intros w.
  - cbn. repeat split. exists []. rewrite app_nil_r. split; [reflexivity | constructor].
  - cbn [msi_list_for_each_mask]. rewrite !bind_eq. unfold ret. cbn [snd].
    destruct (igbuio_msix_mask_irq_frame d state w) as (Hc1 & Hb1 & Hd1 & Hl1 & es1 & Ht1 & He1).
    destruct (IH (snd (igbuio_msix_mask_irq d state w)))
      as (Hc2 & Hb2 & Hd2 & Hl2 & es2 & Ht2 & He2).
    cbv zeta in *. rewrite Hc2, Hb2, Hd2, Hl2, Ht2, Ht1.
    repeat split; try assumption.
    exists (es1 ++ es2). rewrite app_assoc. split; [reflexivity |].
    apply Forall_app. split; assumption.
Qed.

Lemma igbuio_set_interrupt_mask_frame udev state w :
  mask_frame udev w (snd (igbuio_set_interrupt_mask udev state w)).
Proof.
  unfold igbuio_set_interrupt_mask, mask_frame. destruct (mode udev) eqn:Hmode.
  - destruct w as [cfg mmio msi drv bus tr].
    destruct bus as [|[|d1] [|[|d2] bus]]; drv_step;
      match goal with |- context [negb (?a =? ?b)] => destruct (a =? b) end; drv_step;
      (split; [reflexivity |]); (split; [auto |]); (split; [intros H; contradiction |]);
      rewrite <- ?app_assoc; eexists; (split; [reflexivity |]); repeat constructor.
  - apply (mask_frame_refl udev) || (pose proof (mask_frame_refl udev w) as H;
      unfold mask_frame in H; rewrite Hmode in H; exact H).
  - rewrite !bind_eq. unfold get_msi_list, put_msi_list, ret. cbn [fst snd].
    destruct (msi_list_for_each_mask_frame (w_msi_list w) state w)
      as (Hc & Hb & Hd & Hl & es & Ht & He). cbv zeta in *.
    cbn [w_cfg w_mmio w_msi_list w_drvdata w_bus w_trace].
    split; [exact Hd |]. split; [intros H; discriminate H |].
    split; [intros _; split; assumption |]. exists es. split; assumption.
  - pose proof (mask_frame_refl udev w) as H.
    unfold mask_frame in H; rewrite Hmode in H; exact H.
Qed.

(** The handler, on any bus: what it does hangs on the word the read of
    the command/status register delivers. *)
Lemma igbuio_pci_irqhandler_unfold irq udev w :
  igbuio_pci_irqhandler irq udev w =
    match mode udev with
    | IGBUIO_LEGACY_INTR_MODE =>
        let rd := pci_read_config_dword PCI_COMMAND (logged w irq_enter) in
        if Z.testbit (snd (fst rd)) 19
        then (IRQ_HANDLED,
              logged (snd (igbuio_set_interrupt_mask udev 0 (snd rd)))
                     (irq_leave irq IRQ_HANDLED))
        else (IRQ_NONE, logged (snd rd) (irq_leave irq IRQ_NONE))
    | _ =>
        (IRQ_HANDLED,
         logged (snd (igbuio_set_interrupt_mask udev 0 (logged w irq_enter)))
                (irq_leave irq IRQ_HANDLED))
    end.
Proof.
  assert (Hmask : forall w0,
    irqhandler_mask irq udev w0 =
      (IRQ_HANDLED, logged (snd (igbuio_set_interrupt_mask udev 0 w0))
                           (irq_leave irq IRQ_HANDLED))).
  { intros w0. unfold irqhandler_mask, irqhandler_done. unfold bind at 1.
    destruct (igbuio_set_interrupt_mask udev 0 w0) as [z w1]. drv_step.
    unfold irq_leave. rewrite <- !app_assoc. reflexivity. }
  assert (Hdone : forall w0,
    irqhandler_done irq IRQ_NONE w0 = (IRQ_NONE, logged w0 (irq_leave irq IRQ_NONE))).
  { intros w0. unfold irqhandler_done, irq_leave. drv_step. rewrite <- !app_assoc.
    reflexivity. }
  assert (Henter : forall (f : M irqreturn_t),
    (spin_lock_irqsave;; PCI_LOCK;; f) w = f (logged w irq_enter)).
  { intros f. unfold irq_enter. drv_step. rewrite <- !app_assoc. reflexivity. }
  unfold igbuio_pci_irqhandler. rewrite Henter.
  destruct (mode udev); try apply Hmask.
  rewrite bind_eq. cbv zeta. rewrite status_interrupt_test.
  destruct (Z.testbit _ 19); cbn [negb]; [apply Hmask | apply Hdone].
Qed.

Lemma pci_read_config_dword_quiet whr w :
  w_bus w = [] ->
  pci_read_config_dword whr w = ((0, w_cfg w !!! whr), logged w [EvCfgReadDword whr (w_cfg w !!! whr)]).
Proof.
  intros Hbus. destruct w as [cfg mmio msi drv bus tr]. cbn [w_bus] in Hbus. subst bus.
  drv_step. reflexivity.
Qed.

(** A read of configuration space changes nothing but the bus's pending
    outcomes and the trace. *)
Lemma pci_read_config_dword_frame whr w :
  let w' := snd (pci_read_config_dword whr w) in
  w_cfg w' = w_cfg w /\ w_mmio w' = w_mmio w /\ w_msi_list w' = w_msi_list w
  /\ w_drvdata w' = w_drvdata w
  /\ exists e, w_trace w' = w_trace w ++ [e] /\ is_hw_access e = true.
Proof.
  destruct w as [cfg mmio msi drv bus tr]. destruct bus as [|[|d] bus]; drv_step;
    repeat split; eexists; split; reflexivity.
Qed.

(** X1. Locking. Whatever the mode, the state and the bus,
    [igbuio_pci_irqcontrol] and [igbuio_pci_irqhandler] take the spin
    lock and then the configuration lock once, drop them once in the
    reverse order, and make every access to the device (configuration
    space, MSI-X table, mirror) between the two; the handler prints only
    after it has dropped both. No other call is made. *)
Theorem locks_bracket_device_access irq udev state w :
  (exists es,
     Forall (fun e => is_hw_access e = true) es
     /\ w_trace (snd (igbuio_pci_irqcontrol udev state w)) =
          w_trace w ++ [EvSpinLockIrqsave; EvPciLock] ++ es
                    ++ [EvPciUnlock; EvSpinUnlockIrqrestore])
  /\ (exists es,
        Forall (fun e => is_hw_access e = true) es
        /\ w_trace (snd (igbuio_pci_irqhandler irq udev w)) =
             w_trace w ++ [EvSpinLockIrqsave; EvPciLock] ++ es
                       ++ irq_leave irq (fst (igbuio_pci_irqhandler irq udev w))).
Proof.
  split.
  - rewrite igbuio_pci_irqcontrol_unfold. cbn [snd].
    destruct (igbuio_set_interrupt_mask_frame udev state
                (logged w [EvSpinLockIrqsave; EvPciLock])) as (_ & _ & _ & es & Ht & Hes).
    exists es. split; [exact Hes |]. cbn [logged w_trace] in *. rewrite Ht.
    rewrite <- !app_assoc. reflexivity.
  - rewrite igbuio_pci_irqhandler_unfold.
    assert (Hany : forall w0 es0,
      Forall (fun e => is_hw_access e = true) es0 ->
      w_trace w0 = w_trace w ++ [EvSpinLockIrqsave; EvPciLock] ++ es0 ->
      exists es,
        Forall (fun e => is_hw_access e = true) es
        /\ w_trace (logged (snd (igbuio_set_interrupt_mask udev 0 w0))
                           (irq_leave irq IRQ_HANDLED)) =
             w_trace w ++ [EvSpinLockIrqsave; EvPciLock] ++ es ++ irq_leave irq IRQ_HANDLED).
    { intros w0 es0 Hes0 Hw0.
      destruct (igbuio_set_interrupt_mask_frame udev 0 w0) as (_ & _ & _ & es & Ht & Hes).
      exists (es0 ++ es). split; [apply Forall_app; split; assumption |].
      cbn [logged w_trace]. rewrite Ht, Hw0. rewrite <- !app_assoc. reflexivity. }
    destruct (mode udev).
    2-4: cbn [fst snd]; apply (Hany _ []); [constructor | cbn [logged w_trace irq_enter];
           rewrite app_nil_r; reflexivity].
    cbv zeta.
    destruct (pci_read_config_dword_frame PCI_COMMAND (logged w irq_enter))
      as (_ & _ & _ & _ & e & Ht & He). cbv zeta in Ht.
    destruct (Z.testbit _ 19); cbn [fst snd].
    + apply (Hany _ [e]); [repeat constructor; exact He |].
      rewrite Ht. cbn [logged w_trace irq_enter]. rewrite <- app_assoc. reflexivity.
    + exists [e]. split; [repeat constructor; exact He |].
      cbn [logged w_trace]. rewrite Ht. cbn [logged w_trace irq_enter].
      rewrite <- !app_assoc. reflexivity.
Qed.

(** X2. What each mode leaves alone, whatever the bus does and whatever
    the msi list holds. For a Legacy device [igbuio_pci_irqcontrol] and
    [igbuio_pci_irqhandler] never touch the MSI-X table nor the msi list;
    for a device in any other mode they never touch configuration space
    and use up no configuration access. In no mode do they touch the
    device's driver data. *)
Theorem mask_paths_frame irq udev state w :
  let w1 := snd (igbuio_pci_irqcontrol udev state w) in
  let w2 := snd (igbuio_pci_irqhandler irq udev w) in
  (w_drvdata w1 = w_drvdata w /\ w_drvdata w2 = w_drvdata w)
  /\ (mode udev = IGBUIO_LEGACY_INTR_MODE ->
        w_mmio w1 = w_mmio w /\ w_msi_list w1 = w_msi_list w
        /\ w_mmio w2 = w_mmio w /\ w_msi_list w2 = w_msi_list w)
  /\ (mode udev <> IGBUIO_LEGACY_INTR_MODE ->
        w_cfg w1 = w_cfg w /\ w_bus w1 = w_bus w
        /\ w_cfg w2 = w_cfg w /\ w_bus w2 = w_bus w).
Proof.
  intros w1 w2. subst w1 w2.
  rewrite igbuio_pci_irqcontrol_unfold, igbuio_pci_irqhandler_unfold.
  destruct (igbuio_set_interrupt_mask_frame udev state
              (logged w [EvSpinLockIrqsave; EvPciLock])) as (Hd1 & Hl1 & Hn1 & _).
  destruct (igbuio_set_interrupt_mask_frame udev 0 (logged w irq_enter))
    as (Hd2 & Hl2 & Hn2 & _).
  destruct (pci_read_config_dword_frame PCI_COMMAND (logged w irq_enter))
    as (Hrc & Hrm & Hrl & Hrd & _).
  destruct (igbuio_set_interrupt_mask_frame udev 0
              (snd (pci_read_config_dword PCI_COMMAND (logged w irq_enter))))
    as (Hd3 & Hl3 & _ & _).
  cbv zeta in *. cbn [logged w_drvdata w_mmio w_msi_list w_cfg w_bus] in *.
  destruct (mode udev) eqn:Hmode.
  - destruct (Hl1 eq_refl) as [Hm1 Hs1]. destruct (Hl3 eq_refl) as [Hm3 Hs3].
    destruct (Z.testbit _ 19); cbn [snd logged w_drvdata w_mmio w_msi_list w_cfg w_bus].
    + split; [split; congruence |]. split; [| intros E; contradiction].
      intros _. repeat split; congruence.
    + split; [split; congruence |]. split; [| intros E; contradiction].
      intros _. repeat split; congruence.
  - cbn [snd logged w_drvdata w_mmio w_msi_list w_cfg w_bus].
    destruct (Hn1 ltac:(discriminate)) as [? ?]. destruct (Hn2 ltac:(discriminate)) as [? ?].
    split; [split; assumption |]. split; [intros E; discriminate E |].
    intros _. repeat split; assumption.
  - cbn [snd logged w_drvdata w_mmio w_msi_list w_cfg w_bus].
    destruct (Hn1 ltac:(discriminate)) as [? ?]. destruct (Hn2 ltac:(discriminate)) as [? ?].
    split; [split; assumption |]. split; [intros E; discriminate E |].
    intros _. repeat split; assumption.
  - cbn [snd logged w_drvdata w_mmio w_msi_list w_cfg w_bus].
    destruct (Hn1 ltac:(discriminate)) as [? ?]. destruct (Hn2 ltac:(discriminate)) as [? ?].
    split; [split; assumption |]. split; [intros E; discriminate E |].
    intros _. repeat split; assumption.
Qed.

Lemma mask_paths_frame_witness :
  w_mmio (snd (igbuio_pci_irqhandler 11 udev_legacy_example world_bus_error_example))
  = w_mmio world_bus_error_example.
Proof.
  exact (proj1 (proj2 (proj2
           (proj1 (proj2 (mask_paths_frame 11 udev_legacy_example 1 world_bus_error_example))
              eq_refl)))).
Defined.

(** ** What masking and unmasking leave of the hardware *)

Lemma set_mask_masked_to udev state w :
  w_bus w = [] ->
  mirrors_consistent w ->
  masked_to udev state w (snd (igbuio_set_interrupt_mask udev state w)).
Proof. intros Hbus Hcons. exact (set_mask_hw udev state w Hbus Hcons). Qed.

Lemma masked_to_only_mask_bits udev state w w' :
  masked_to udev state w w' -> only_mask_bits_differ udev w w'.
Proof.
  intros (_ & _ & _ & Hc1 & Hc2 & Hm1 & Hm2). split.
  - intros r i Hi Hno. destruct (cfg_mask_bit_dec udev r) as [Hr | Hr].
    + rewrite Hc1 by assumption. rewrite with_bit_testbit by lia.
      destruct (Z.eqb_spec i 10) as [-> | _]; [contradiction | reflexivity].
    + rewrite Hc2 by assumption. reflexivity.
  - intros a i Hi Hno. destruct (mmio_mask_bit_dec udev w a) as [Ha | Ha].
    + rewrite Hm1 by assumption. rewrite with_bit_testbit by lia.
      destruct (Z.eqb_spec i 0) as [-> | _]; [contradiction | reflexivity].
    + rewrite Hm2 by assumption. reflexivity.
Qed.

Lemma masked_to_mask_bits udev state w w' :
  masked_to udev state w w' -> mask_bits_are udev w' (state =? 0).
Proof.
  intros (_ & _ & Ha & Hc1 & _ & Hm1 & _). split.
  - intros Hmode. rewrite Hc1 by (unfold cfg_mask_bit; auto).
    rewrite with_bit_testbit, Z.eqb_refl by lia. reflexivity.
  - intros Hmode d Hd.
    assert (Hin : mmio_mask_bit udev w (vector_ctrl_addr d) 0).
    { split; [assumption | split; [| reflexivity]].
      rewrite <- Ha. apply list_elem_of_fmap_2, Hd. }
    rewrite Hm1 by assumption. rewrite with_bit_testbit, Z.eqb_refl by lia. reflexivity.
Qed.

(** Masking one way and then the other: the second wins, and what was
    already as the second wants is back to what it was. *)
Lemma masked_to_twice udev s1 s2 w w1 w2 :
  masked_to udev s1 w w1 ->
  masked_to udev s2 w1 w2 ->
  mask_bits_are udev w (s2 =? 0) ->
  same_hardware w w2.
Proof.
  intros (_ & _ & Ha1 & Hc1 & Hc1' & Hm1 & Hm1') (_ & _ & _ & Hc2 & Hc2' & Hm2 & Hm2')
    [Hlegacy Hmsix].
  assert (Hsame12 : forall a, mmio_mask_bit udev w1 a 0 <-> mmio_mask_bit udev w a 0).
  { intros a. unfold mmio_mask_bit. rewrite Ha1. reflexivity. }
  split.
  - intros r. destruct (cfg_mask_bit_dec udev r) as [Hr | Hr].
    + rewrite Hc2, Hc1 by assumption. rewrite with_bit_overwrite by lia.
      destruct Hr as (Hmode & -> & _). apply with_bit_same; [lia | auto].
    + rewrite Hc2', Hc1' by assumption. reflexivity.
  - intros a. destruct (mmio_mask_bit_dec udev w a) as [Hr | Hr].
    + rewrite Hm2 by (apply Hsame12; assumption). rewrite Hm1 by assumption.
      rewrite with_bit_overwrite by lia.
      destruct Hr as (Hmode & Hin & _).
      apply list_elem_of_fmap in Hin as (d & -> & Hd).
      apply with_bit_same; [lia | auto].
    + rewrite Hm2' by (rewrite Hsame12; assumption). rewrite Hm1' by assumption.
      reflexivity.
Qed.

Lemma igbuio_pci_irqcontrol_masked_to udev state w :
  w_bus w = [] ->
  mirrors_consistent w ->
  masked_to udev state w (snd (igbuio_pci_irqcontrol udev state w)).
Proof.
  intros Hbus Hcons. rewrite igbuio_pci_irqcontrol_unfold. cbn [snd].
  match goal with |- context [igbuio_set_interrupt_mask udev state ?W] =>
    exact (set_mask_masked_to udev state W Hbus Hcons) end.
Qed.

(** C10. [igbuio_pci_irqcontrol] returns 0 whatever the [irq_state],
    the mode and the state of the world, and in MSI mode the call does
    nothing but take and drop its locks. Every non-zero [irq_state] acts
    as the value 1 does, and what it does is enable: on a bus that
    completes its accesses, with mirrors that hold what the table holds,
    a non-zero [irq_state] leaves every mask bit of the device's mode
    clear and 0 leaves every one set, no other bit of configuration space
    or device memory changing; so on a device that has a mask bit (Legacy
    mode, or MSI-X mode with a descriptor) the hardware a non-zero
    [irq_state] leaves differs from the hardware 0 leaves. *)
Theorem irqcontrol_total udev irq_state w :
  fst (igbuio_pci_irqcontrol udev irq_state w) = 0
  /\ igbuio_pci_irqcontrol udev irq_state w =
       igbuio_pci_irqcontrol udev (if irq_state =? 0 then 0 else 1) w
  /\ igbuio_pci_irqcontrol (set_mode udev IGBUIO_MSI_INTR_MODE) irq_state w =
       (0, logged w [EvSpinLockIrqsave; EvPciLock; EvPciUnlock; EvSpinUnlockIrqrestore])
  /\ (w_bus w = [] ->
      mirrors_consistent w ->
      let w' := snd (igbuio_pci_irqcontrol udev irq_state w) in
      let w0 := snd (igbuio_pci_irqcontrol udev 0 w) in
      (irq_state <> 0 -> mask_bits_are udev w' false)
      /\ (irq_state = 0 -> mask_bits_are udev w' true)
      /\ only_mask_bits_differ udev w w'
      /\ (irq_state <> 0 ->
          mode udev = IGBUIO_LEGACY_INTR_MODE
          \/ (mode udev = IGBUIO_MSIX_INTR_MODE /\ w_msi_list w <> []) ->
          ~ same_hardware w0 w')).
Proof.
  split; [apply igbuio_pci_irqcontrol_status |]. split; [| split].
  - destruct (Z.eqb_spec irq_state 0) as [-> | Hs]; [reflexivity |].
    unfold igbuio_pci_irqcontrol. drv_step.
    rewrite igbuio_set_interrupt_mask_nonzero by assumption. reflexivity.
  - unfold igbuio_pci_irqcontrol, igbuio_set_interrupt_mask, set_mode. cbn [mode].
    drv_step. rewrite <- !app_assoc. reflexivity.
  - intros Hbus Hcons w' w0.
    pose proof (igbuio_pci_irqcontrol_masked_to udev irq_state w Hbus Hcons) as Hm.
    pose proof (igbuio_pci_irqcontrol_masked_to udev 0 w Hbus Hcons) as Hm0.
    fold w' in Hm. fold w0 in Hm0.
    pose proof (masked_to_mask_bits _ _ _ _ Hm) as Hbits.
    split; [| split; [| split]].
    + intros Hs. apply Z.eqb_neq in Hs. rewrite Hs in Hbits. exact Hbits.
    + intros Hs. apply Z.eqb_eq in Hs. rewrite Hs in Hbits. exact Hbits.
    + exact (masked_to_only_mask_bits _ _ _ _ Hm).
    + intros Hs Hhas [Hsc Hsm]. apply Z.eqb_neq in Hs.
      destruct Hm as (_ & _ & _ & Hc & _ & Hmm & _).
      destruct Hm0 as (_ & _ & _ & Hc0 & _ & Hmm0 & _).
      rewrite Hs in Hc, Hmm. change (0 =? 0) with true in Hc0, Hmm0.
      destruct Hhas as [Hmode | [Hmode Hne]].
      * assert (Hbit : cfg_mask_bit udev PCI_COMMAND 10) by (split; [exact Hmode | auto]).
        specialize (Hsc PCI_COMMAND). rewrite (Hc _ Hbit), (Hc0 _ Hbit) in Hsc.
        apply (f_equal (fun v => Z.testbit v 10)) in Hsc.
        rewrite !with_bit_testbit in Hsc by lia. discriminate Hsc.
      * destruct (w_msi_list w) as [|d l] eqn:Hl; [contradiction |].
        assert (Hbit : mmio_mask_bit udev w (vector_ctrl_addr d) 0).
        { split; [exact Hmode |]. split; [| reflexivity].
          rewrite Hl. apply list_elem_of_fmap_2. left. }
        specialize (Hsm (vector_ctrl_addr d)). rewrite (Hmm _ Hbit), (Hmm0 _ Hbit) in Hsm.
        apply (f_equal (fun v => Z.testbit v 0)) in Hsm.
        rewrite !with_bit_testbit in Hsm by lia. discriminate Hsm.
Qed.

Lemma irqcontrol_total_witness :
  mask_bits_are udev_msix_example
    (snd (igbuio_pci_irqcontrol udev_msix_example 5 world_msix_example)) false.
Proof.
  refine (proj1 (proj2 (proj2 (proj2
            (irqcontrol_total udev_msix_example 5 world_msix_example))) eq_refl
            mirrors_consistent_example) _).
  discriminate.
Defined.

(** The handler on a quiet bus, by whether the interrupt is the
    device's. *)
Lemma igbuio_pci_irqhandler_quiet irq udev w :
  w_bus w = [] ->
  mirrors_consistent w ->
  (interrupt_is_ours udev w ->
     fst (igbuio_pci_irqhandler irq udev w) = IRQ_HANDLED
     /\ masked_to udev 0 w (snd (igbuio_pci_irqhandler irq udev w)))
  /\ (~ interrupt_is_ours udev w ->
        fst (igbuio_pci_irqhandler irq udev w) = IRQ_NONE
        /\ same_hardware w (snd (igbuio_pci_irqhandler irq udev w))
        /\ w_msi_list (snd (igbuio_pci_irqhandler irq udev w)) = w_msi_list w
        /\ w_bus (snd (igbuio_pci_irqhandler irq udev w)) = []).
Proof.
  intros Hbus Hcons. rewrite igbuio_pci_irqhandler_unfold. unfold interrupt_is_ours.
  destruct (mode udev) eqn:Hmode.
  - rewrite pci_read_config_dword_quiet by exact Hbus. cbv zeta. cbn [fst snd].
    cbn [logged w_cfg].
    destruct (Z.testbit (w_cfg w !!! PCI_COMMAND) 19) eqn:Hpend; cbn [fst snd].
    + split; [| intros H; exfalso; apply H; reflexivity].
      intros _. split; [reflexivity |].
      match goal with |- context [igbuio_set_interrupt_mask udev 0 ?W] =>
        exact (set_mask_masked_to udev 0 W Hbus Hcons) end.
    + split; [intros H; specialize (H eq_refl); discriminate H |].
      intros _. split; [reflexivity |]. split; [split; reflexivity |].
      split; [reflexivity | exact Hbus].
  - cbn [fst snd]. split; [| intros H; exfalso; apply H; intros E; discriminate E].
    intros _. split; [reflexivity |].
    match goal with |- context [igbuio_set_interrupt_mask udev 0 ?W] =>
      exact (set_mask_masked_to udev 0 W Hbus Hcons) end.
  - cbn [fst snd]. split; [| intros H; exfalso; apply H; intros E; discriminate E].
    intros _. split; [reflexivity |].
    match goal with |- context [igbuio_set_interrupt_mask udev 0 ?W] =>
      exact (set_mask_masked_to udev 0 W Hbus Hcons) end.
  - cbn [fst snd]. split; [| intros H; exfalso; apply H; intros E; discriminate E].
    intros _. split; [reflexivity |].
    match goal with |- context [igbuio_set_interrupt_mask udev 0 ?W] =>
      exact (set_mask_masked_to udev 0 W Hbus Hcons) end.
Qed.

Lemma interrupt_is_ours_dec udev w : interrupt_is_ours udev w \/ ~ interrupt_is_ours udev w.
Proof.
  unfold interrupt_is_ours. destruct (mode udev); try (left; intros E; discriminate E).
  destruct (Z.testbit _ 19); [left; reflexivity | right; intros H].
  specialize (H eq_refl). discriminate H.
Qed.

(** X3. The irq-control entry point on a quiet bus and consistent
    mirrors: it leaves every mask bit of the device's mode set when
    [irq_state] is 0 and clear otherwise, changes no other bit of
    configuration space or of device memory, and hands on a quiet bus
    and consistent mirrors to the next call. *)
Theorem irqcontrol_sets_mask udev irq_state w :
  w_bus w = [] ->
  mirrors_consistent w ->
  let w' := snd (igbuio_pci_irqcontrol udev irq_state w) in
  mask_bits_are udev w' (irq_state =? 0)
  /\ only_mask_bits_differ udev w w'
  /\ mirrors_consistent w'
  /\ w_bus w' = [].
Proof.
  intros Hbus Hcons w'.
  pose proof (igbuio_pci_irqcontrol_masked_to udev irq_state w Hbus Hcons) as H.
  fold w' in H. split; [eapply masked_to_mask_bits; exact H |].
  split; [eapply masked_to_only_mask_bits; exact H |].
  split; apply H.
Qed.

Lemma irqcontrol_sets_mask_witness :
  mask_bits_are udev_msix_example
    (snd (igbuio_pci_irqcontrol udev_msix_example 0 world_msix_example)) true.
Proof.
  exact (proj1 (irqcontrol_sets_mask udev_msix_example 0 world_msix_example eq_refl
                  mirrors_consistent_example)).
Defined.

(** X4. The handler on a quiet bus and consistent mirrors. It returns
    [IRQ_HANDLED] exactly when the interrupt is the device's (always,
    unless the device is in Legacy mode and bit 3 of its status register
    is clear), and then every mask bit of the device's mode is set when
    it returns: the source cannot fire again before user space unmasks
    it. When it returns [IRQ_NONE] the hardware is as it was. In both
    cases no bit other than a mask bit has changed, and the bus and the
    mirrors are handed on quiet and consistent. *)
Theorem irqhandler_masks_source irq udev w :
  w_bus w = [] ->
  mirrors_consistent w ->
  let r := fst (igbuio_pci_irqhandler irq udev w) in
  let w' := snd (igbuio_pci_irqhandler irq udev w) in
  (r = IRQ_HANDLED <-> interrupt_is_ours udev w)
  /\ (r = IRQ_HANDLED -> mask_bits_are udev w' true)
  /\ (r = IRQ_NONE -> same_hardware w w')
  /\ only_mask_bits_differ udev w w'
  /\ mirrors_consistent w'
  /\ w_bus w' = [].
Proof.
  intros Hbus Hcons r w'. subst r w'.
  destruct (igbuio_pci_irqhandler_quiet irq udev w Hbus Hcons) as [Hours Hnot].
  destruct (interrupt_is_ours_dec udev w) as [Ho | Hn].
  - destruct (Hours Ho) as [Hr Hm]. rewrite Hr.
    split; [tauto |]. split; [intros _; exact (masked_to_mask_bits _ _ _ _ Hm) |].
    split; [intros E; discriminate E |].
    split; [exact (masked_to_only_mask_bits _ _ _ _ Hm) |]. split; apply Hm.
  - destruct (Hnot Hn) as (Hr & [Hc Hm] & Hl & Hb). rewrite Hr.
    split; [split; [intros E; discriminate E | contradiction] |].
    split; [intros E; discriminate E |].
    split; [intros _; split; assumption |].
    split; [split; intros; [rewrite Hc | rewrite Hm]; reflexivity |].
    split; [| exact Hb].
    destruct Hcons as (Hok & Hnd & Hmir). unfold mirrors_consistent. rewrite Hl.
    split; [exact Hok | split; [exact Hnd |]].
    eapply Forall_impl; [exact Hmir |]. intros d Hd. cbn beta in *. rewrite Hm. exact Hd.
Qed.

Lemma irqhandler_masks_source_witness :
  mask_bits_are udev_msix_example
    (snd (igbuio_pci_irqhandler 42 udev_msix_example world_msix_example)) true.
Proof.
  apply (proj1 (proj2 (irqhandler_masks_source 42 udev_msix_example world_msix_example
                         eq_refl mirrors_consistent_example))).
  reflexivity.
Defined.

(** X5. One turn of the steady state. On a quiet bus, with consistent
    mirrors and the source unmasked, an interrupt of the device followed
    by user space's enabling write: the handler returns [IRQ_HANDLED] and
    leaves the source masked, [igbuio_pci_irqcontrol] with any non-zero
    value unmasks it again, and configuration space and device memory
    then read exactly as before the interrupt. *)
Theorem interrupt_cycle_restores irq udev irq_state w :
  w_bus w = [] ->
  mirrors_consistent w ->
  mask_bits_are udev w false ->
  interrupt_is_ours udev w ->
  irq_state <> 0 ->
  let w1 := snd (igbuio_pci_irqhandler irq udev w) in
  let w2 := snd (igbuio_pci_irqcontrol udev irq_state w1) in
  fst (igbuio_pci_irqhandler irq udev w) = IRQ_HANDLED
  /\ mask_bits_are udev w1 true
  /\ mask_bits_are udev w2 false
  /\ same_hardware w w2
  /\ mirrors_consistent w2.
Proof.
  intros Hbus Hcons Hclear Hours Hs w1 w2.
  destruct (igbuio_pci_irqhandler_quiet irq udev w Hbus Hcons) as [Hh _].
  destruct (Hh Hours) as [Hr Hm1]. fold w1 in Hm1.
  assert (Hm2 : masked_to udev irq_state w1 w2).
  { apply igbuio_pci_irqcontrol_masked_to; apply Hm1. }
  apply Z.eqb_neq in Hs.
  split; [exact Hr |].
  split; [exact (masked_to_mask_bits _ _ _ _ Hm1) |].
  split; [rewrite <- Hs; exact (masked_to_mask_bits _ _ _ _ Hm2) |].
  split; [| apply Hm2].
  eapply masked_to_twice; [exact Hm1 | exact Hm2 |]. rewrite Hs. exact Hclear.
Qed.

Lemma mask_bits_clear_example : mask_bits_are udev_msix_example world_msix_example false.
Proof.
  split.
  - intros H. discriminate H.
  - intros _ d Hd. apply list_elem_of_singleton in Hd. subst d. reflexivity.
Defined.

Lemma interrupt_is_ours_example : interrupt_is_ours udev_msix_example world_msix_example.
Proof. intros H. discriminate H. Defined.

Lemma interrupt_cycle_restores_witness :
  same_hardware world_msix_example
    (snd (igbuio_pci_irqcontrol udev_msix_example 1
       (snd (igbuio_pci_irqhandler 42 udev_msix_example world_msix_example)))).
Proof.
  refine (proj1 (proj2 (proj2 (proj2
            (interrupt_cycle_restores 42 udev_msix_example 1 world_msix_example
               eq_refl mirrors_consistent_example mask_bits_clear_example
               interrupt_is_ours_example _))))).
  intros H. discriminate H.
Defined.

(** ** Mapping and unmapping *)

Lemma filter_unmapped (mem : list uio_mem) :
  Forall (fun m => mem_internal_addr m = 0) mem ->
  filter (fun p => p <> 0) (mem_internal_addr <$> mem) = [].
Proof.
  induction 1 as [|m mem Hm _ IH]; [reflexivity |].
  cbn [fmap list_fmap]. rewrite filter_cons, decide_False by (rewrite Hm; tauto).
  exact IH.
Qed.

Lemma filter_one_mapped (mem : list uio_mem) : forall n m',
  Forall (fun m => mem_internal_addr m = 0) mem ->
  (n < length mem)%nat ->
  mem_internal_addr m' <> 0 ->
  filter (fun p => p <> 0) (mem_internal_addr <$> <[ n := m' ]> mem)
  = [mem_internal_addr m'].
Proof.
  induction mem as [|m mem IH]; intros n m' Hz Hn Hm'; [cbn in Hn; lia |].
  apply Forall_cons in Hz as [Hm Hz]. destruct n as [|n].
  - cbn [insert list_insert list_alter alter fmap list_fmap].
    rewrite filter_cons, decide_True by assumption.
    f_equal. apply filter_unmapped. exact Hz.
  - cbn [insert list_insert list_alter alter fmap list_fmap].
    rewrite filter_cons, decide_False by (rewrite Hm; tauto).
    apply IH; [assumption | cbn in Hn; lia | assumption].
Qed.

(** X6. Mapping and unmapping pair up. On a region table with no slot
    mapped (as [kzalloc] leaves it), [igbuio_pci_setup_iomem] followed by
    [igbuio_pci_release_iomem] unmaps exactly the pointer [ioremap]
    handed out when the mapping succeeded, and calls [iounmap] not at all
    when it failed, whichever of the two ways it failed. *)
Theorem iomem_map_then_unmap k i n pci_bar name w w0 :
  length (info_mem i) = MAX_UIO_MAPS ->
  Forall (fun m => mem_internal_addr m = 0) (info_mem i) ->
  (n < MAX_UIO_MAPS)%nat ->
  let r := igbuio_pci_setup_iomem k i n pci_bar name w in
  let ptr := k_ioremap k (k_resource_start k pci_bar) (k_resource_len k pci_bar) in
  trace_since w0 (snd (igbuio_pci_release_iomem (snd (fst r)) w0))
    = (if fst (fst r) =? 0 then [EvIounmap ptr] else [])
  /\ released (trace_since w0 (snd (igbuio_pci_release_iomem (snd (fst r)) w0)))
     = acquired (trace_since w (snd r)).
Proof.
  intros Hlen Hzero Hn r ptr. subst r. unfold igbuio_pci_setup_iomem.
  destruct ((k_resource_start k pci_bar =? 0) || (k_resource_len k pci_bar =? 0)).
  - cbn [ret fst snd]. rewrite igbuio_pci_release_iomem_spec by assumption.
    rewrite filter_unmapped by assumption. cbn [snd fmap list_fmap].
    rewrite trace_since_logged. split; [reflexivity |].
    unfold trace_since. rewrite drop_all. reflexivity.
  - drv_step. fold ptr. destruct (ptr =? 0) eqn:Hptr; cbn [fst snd].
    + rewrite igbuio_pci_release_iomem_spec by assumption.
      rewrite filter_unmapped by assumption. cbn [snd fmap list_fmap].
      rewrite trace_since_logged. split; [reflexivity |].
      erewrite trace_since_app by (cbn [w_trace]; reflexivity).
      unfold acquired, released. cbn [omap list_omap acquires]. rewrite Hptr. reflexivity.
    + rewrite igbuio_pci_release_iomem_spec
        by (cbn [info_mem]; rewrite length_insert; assumption).
      cbn [info_mem snd].
      rewrite filter_one_mapped;
        [| assumption | rewrite Hlen; exact Hn | cbn; apply Z.eqb_neq; exact Hptr].
      cbn [mem_internal_addr fmap list_fmap]. rewrite trace_since_logged.
      split; [reflexivity |].
      erewrite trace_since_app by (cbn [w_trace]; reflexivity).
      unfold acquired, released. cbn [omap list_omap acquires releases]. rewrite Hptr.
      reflexivity.
Qed.

Lemma info_zero_unmapped : Forall (fun m => mem_internal_addr m = 0) (info_mem (info udev_zero)).
Proof. repeat constructor. Defined.

Lemma iomem_map_then_unmap_witness :
  trace_since world_empty
    (snd (igbuio_pci_release_iomem
            (snd (fst (igbuio_pci_setup_iomem kernel_env_example (info udev_zero) 0 0 "config"
                         world_empty)))
            world_empty))
  = [EvIounmap 0xffffc90000100000].
Proof.
  exact (proj1 (iomem_map_then_unmap kernel_env_example (info udev_zero) 0 0 "config"
                  world_empty world_empty eq_refl info_zero_unmapped (Nat.lt_0_succ 4))).
Defined.

(** ** The attach, stage by stage *)

Lemma probe_status_zero k :
  probe_status k = 0 <-> probe_prefix_ok k = true /\ k_uio_register_device k = 0.
Proof.
  unfold probe_status, probe_prefix_ok.
  destruct (k_kzalloc k); cbn [negb andb];
    [| split; [discriminate | intros [H _]; discriminate H]].
  destruct (k_pci_enable_device k =? 0); cbn [andb];
    [| split; [discriminate | intros [H _]; discriminate H]].
  destruct (k_pci_set_dma_mask k =? 0); cbn [andb];
    [| split; [discriminate | intros [H _]; discriminate H]].
  destruct (k_pci_request_regions k =? 0); cbn [andb];
    [| split; [discriminate | intros [H _]; discriminate H]].
  destruct (iomem_ok k); cbn [andb];
    [| split; [discriminate | intros [H _]; discriminate H]].
  destruct (Z.eqb_spec (k_uio_register_device k) 0); split; try tauto; try discriminate.
Qed.

(** An attach that fails before the interrupt-mode block: its status,
    its calls, and what it leaves alone. *)
Lemma igbuio_pci_probe_early k w :
  probe_prefix_ok k = false ->
  fst (igbuio_pci_probe k w) = probe_status k
  /\ w_trace (snd (igbuio_pci_probe k w)) = w_trace w ++ early_failure_events k
  /\ w_drvdata (snd (igbuio_pci_probe k w)) = w_drvdata w
  /\ w_msi_list (snd (igbuio_pci_probe k w)) = w_msi_list w
  /\ w_bus (snd (igbuio_pci_probe k w)) = w_bus w.
Proof.
  destruct k as [kz en dma reg rs rl io mx vec tab ur irq kcfg kmmio].
  destruct w as [cfg mmio msi drv bus tr].
  unfold probe_prefix_ok, probe_status, early_failure_events, iomem_ok, bar0_ptr,
    igbuio_pci_probe, igbuio_pci_setup_iomem.
  cbv [fail_release_regions fail_disable fail_free]. drv_step. k_step.
  intros Hok.
  destruct kz; k_step; [| repeat split; reflexivity].
  destruct (en =? 0) eqn:Hen; k_step;
    [| rewrite <- !app_assoc; repeat split; reflexivity].
  destruct (dma =? 0) eqn:Hdma; k_step;
    [| rewrite <- !app_assoc; repeat split; reflexivity].
  destruct (reg =? 0) eqn:Hreg; k_step;
    [| rewrite <- !app_assoc; repeat split; reflexivity].
  destruct ((rs 0 =? 0) || (rl 0 =? 0)) eqn:Hbar; k_step;
    [rewrite <- !app_assoc; repeat split; reflexivity |].
  destruct (io (rs 0) (rl 0) =? 0) eqn:Hio; k_step;
    [rewrite <- !app_assoc; repeat split; reflexivity |].
  discriminate Hok.
Qed.

(** An attach that registers the device, in terms of the masking it
    performs before. *)
Lemma igbuio_pci_probe_registered k w :
  probe_prefix_ok k = true ->
  k_uio_register_device k = 0 ->
  igbuio_pci_probe k w =
    (0, logged (acted k KUioRegisterDevice
                  (snd (igbuio_set_interrupt_mask (attached_context k) 0
                          (probe_masking_world k w))))
          [EvPciUnlock; EvSpinUnlockIrqrestore;
           EvUioRegisterDevice (registered_irq k) (registered_irq_flags k) 0;
           EvPrintk KERN_INFO "uio device registered with irq %lx\n"
             [ArgZ (registered_irq k)]]).
Proof.
  destruct k as [kz en dma reg rs rl io mx vec tab ur irq kcfg kmmio].
  destruct w as [cfg mmio msi drv bus tr].
  unfold probe_prefix_ok, probe_masking_world, probe_msi_list, probe_programmed,
    probe_msix_requested, attached_context,
    selected_mode, registered_irq, registered_irq_flags, iomem_ok, bar0_ptr,
    igbuio_pci_probe, igbuio_pci_setup_iomem.
  cbv [fail_release_regions fail_disable fail_free acted]. drv_step. k_step.
  intros Hok Hur. subst ur.
  destruct kz; [| discriminate Hok].
  destruct (en =? 0) eqn:Hen; [| discriminate Hok].
  destruct (dma =? 0) eqn:Hdma; [| discriminate Hok].
  destruct (reg =? 0) eqn:Hreg; [| discriminate Hok].
  destruct ((rs 0 =? 0) || (rl 0 =? 0)) eqn:Hbar; [discriminate Hok |].
  destruct (io (rs 0) (rl 0) =? 0) eqn:Hio; [discriminate Hok |].
  k_step. clear Hok.
  rewrite probe_intr_mode_spec by reflexivity. cbv zeta. unfold acted. drv_step. k_step.
  destruct (mx =? 0) eqn:Hmx; k_step.
  all: rewrite igbuio_pci_irqcontrol_unfold.
  all: unfold logged; k_step; rewrite <- !app_assoc; cbn [app].
  all: cbn [from_option lookup list_lookup vector].
  all: match goal with |- context [igbuio_set_interrupt_mask ?u 0 ?w0] =>
         generalize (snd (igbuio_set_interrupt_mask u 0 w0)) end.
  all: intros wm; reflexivity.
Qed.

Lemma probe_masking_world_consistent k w :
  is_u32 (w_mmio (probe_msix_requested k w) !!! (k_msix_table k + 12)) ->
  mirrors_consistent (probe_masking_world k w).
Proof.
  intros Hu. unfold mirrors_consistent, probe_masking_world, probe_msi_list,
    probe_programmed.
  cbn [w_msi_list w_mmio].
  destruct (k_pci_enable_msix k =? 0).
  - split; [| split].
    + constructor; [| constructor]. split; [unfold is_u16; cbn [entry_nr]; lia | exact Hu].
    + apply NoDup_singleton.
    + constructor; [reflexivity | constructor].
  - split; [constructor | split; constructor].
Qed.

(** X7. An attach that returns 0, on a quiet bus, registers the device
    with its interrupt masked. The call of [uio_register_device] is made
    in the world the mask operation leaves, the two unlocks apart: after
    every kernel call that programs the device, and with no registration
    before it. In that world every mask bit of the mode the attach
    selected is set, whatever the kernel calls left in the registers; the
    driver data is the context the attach built; the bus is quiet and the
    mirrors hold what the table holds. What the registration itself does
    to the device is the kernel's. *)
Theorem probe_masks_interrupt k w :
  fst (igbuio_pci_probe k w) = 0 ->
  w_bus w = [] ->
  is_u32 (w_mmio (probe_msix_requested k w) !!! (k_msix_table k + 12)) ->
  let udev := attached_context k in
  let wm := snd (igbuio_set_interrupt_mask udev 0 (probe_masking_world k w)) in
  igbuio_pci_probe k w =
    (0, logged (acted k KUioRegisterDevice wm)
          [EvPciUnlock; EvSpinUnlockIrqrestore;
           EvUioRegisterDevice (registered_irq k) (registered_irq_flags k) 0;
           EvPrintk KERN_INFO "uio device registered with irq %lx\n"
             [ArgZ (registered_irq k)]])
  /\ registrations (trace_since w wm) = []
  /\ w_drvdata wm = Some udev
  /\ mask_bits_are udev wm true
  /\ mirrors_consistent wm
  /\ w_bus wm = [].
Proof.
  intros Hst Hbus Hu udev wm.
  rewrite (proj1 (igbuio_pci_probe_spec k w)) in Hst.
  apply probe_status_zero in Hst as [Hok Hur].
  split; [exact (igbuio_pci_probe_registered k w Hok Hur) |].
  pose proof (probe_masking_world_consistent k w Hu) as Hcons.
  assert (Hbus' : w_bus (probe_masking_world k w) = []) by exact Hbus.
  pose proof (set_mask_masked_to udev 0 (probe_masking_world k w) Hbus' Hcons) as Hm.
  destruct (igbuio_set_interrupt_mask_traffic udev 0 (probe_masking_world k w))
    as [_ [Hdrv (es & Ht & Hes)]].
  fold wm in Hm, Hdrv, Ht.
  pose proof (masked_to_mask_bits _ _ _ _ Hm) as Hbits.
  destruct Hm as (Hq & Hmc & _).
  split; [| split; [exact Hdrv | split; [exact Hbits | split; [exact Hmc | exact Hq]]]].
  destruct (mask_traffic_no_requests es Hes) as [_ Hregs].
  erewrite trace_since_app;
    [| rewrite Ht; unfold probe_masking_world; cbn [w_trace];
       rewrite <- !app_assoc; reflexivity].
  unfold registrations in *. rewrite !omap_app, Hregs.
  destruct (k_pci_enable_msix k =? 0); reflexivity.
Qed.

Lemma probe_masks_interrupt_witness :
  mask_bits_are (attached_context (kernel_env_programming 0))
    (snd (igbuio_set_interrupt_mask (attached_context (kernel_env_programming 0)) 0
            (probe_masking_world (kernel_env_programming 0) world_empty)))
    true.
Proof.
  assert (Hst : fst (igbuio_pci_probe (kernel_env_programming 0) world_empty) = 0)
    by (vm_compute; reflexivity).
  assert (Hu : is_u32 (w_mmio (probe_msix_requested (kernel_env_programming 0) world_empty)
                       !!! (k_msix_table (kernel_env_programming 0) + 12)))
    by (vm_compute; split; [discriminate | reflexivity]).
  exact (proj1 (proj2 (proj2 (proj2
           (probe_masks_interrupt (kernel_env_programming 0) world_empty
              Hst eq_refl Hu))))).
Defined.

(** ** The callbacks, called in any order *)

Lemma resource_neutral_refl w : resource_neutral w w.
Proof.
  split; [reflexivity |]. exists []. rewrite app_nil_r. repeat split; reflexivity.
Qed.

Lemma resource_neutral_trans w1 w2 w3 :
  resource_neutral w1 w2 -> resource_neutral w2 w3 -> resource_neutral w1 w3.
Proof.
  intros [Hd1 (es1 & Ht1 & Ha1 & Hr1)] [Hd2 (es2 & Ht2 & Ha2 & Hr2)].
  split; [congruence |]. exists (es1 ++ es2).
  split; [rewrite Ht2, Ht1, app_assoc; reflexivity |].
  rewrite acquired_app, released_app, Ha1, Ha2, Hr1, Hr2. split; reflexivity.
Qed.

Lemma resource_neutral_logged w es :
  acquired es = [] -> released es = [] -> resource_neutral w (logged w es).
Proof. intros Ha Hr. split; [reflexivity |]. exists es. repeat split; assumption. Qed.

Lemma mask_traffic_neutral w w' : mask_traffic_step w w' -> resource_neutral w w'.
Proof.
  intros [Hd (es & Ht & Hes)]. split; [exact Hd |]. exists es.
  split; [exact Ht | apply mask_traffic_no_resources, Hes].
Qed.

Lemma igbuio_pci_irqhandler_neutral irq udev w :
  resource_neutral w (snd (igbuio_pci_irqhandler irq udev w)).
Proof.
  assert (Hmask : forall w0, resource_neutral w w0 ->
    resource_neutral w
      (logged (snd (igbuio_set_interrupt_mask udev 0 w0)) (irq_leave irq IRQ_HANDLED))).
  { intros w0 H0. eapply resource_neutral_trans; [exact H0 |].
    eapply resource_neutral_trans;
      [apply mask_traffic_neutral, igbuio_set_interrupt_mask_traffic |].
    apply resource_neutral_logged; reflexivity. }
  assert (Henter : resource_neutral w (logged w irq_enter))
    by (apply resource_neutral_logged; reflexivity).
  rewrite igbuio_pci_irqhandler_unfold.
  destruct (mode udev); cbn [snd]; try (apply Hmask, Henter).
  cbv zeta.
  assert (Hread : resource_neutral w
            (snd (pci_read_config_dword PCI_COMMAND (logged w irq_enter)))).
  { eapply resource_neutral_trans; [exact Henter |].
    destruct (pci_read_config_dword_frame PCI_COMMAND (logged w irq_enter))
      as (_ & _ & _ & Hd & e & Ht & He).
    split; [exact Hd |]. exists [e]. split; [exact Ht |].
    destruct e; try discriminate He; split; reflexivity. }
  destruct (Z.testbit _ 19); cbn [snd]; [apply Hmask, Hread |].
  eapply resource_neutral_trans; [exact Hread |].
  apply resource_neutral_logged; reflexivity.
Qed.

Lemma uio_serve_unfold udev q w :
  snd (uio_serve udev q w) =
    match q with
    | UioWrite irq_state => snd (igbuio_pci_irqcontrol udev irq_state w)
    | UioInterrupt irq => snd (igbuio_pci_irqhandler irq udev w)
    end.
Proof. destruct q; unfold uio_serve; rewrite bind_eq; reflexivity. Qed.

Lemma uio_serve_all_cons udev q qs w :
  snd (uio_serve_all udev (q :: qs) w) = snd (uio_serve_all udev qs (snd (uio_serve udev q w))).
Proof. cbn [uio_serve_all]. rewrite bind_eq. reflexivity. Qed.

Lemma uio_serve_all_app udev qs qs' : forall w,
  snd (uio_serve_all udev (qs ++ qs') w)
  = snd (uio_serve_all udev qs' (snd (uio_serve_all udev qs w))).
Proof.
  induction qs as [|q qs IH]; intros w; [reflexivity |].
  rewrite <- app_comm_cons, !uio_serve_all_cons. apply IH.
Qed.

Lemma uio_serve_neutral udev q w : resource_neutral w (snd (uio_serve udev q w)).
Proof.
  rewrite uio_serve_unfold. destruct q.
  - apply mask_traffic_neutral, igbuio_pci_irqcontrol_traffic.
  - apply igbuio_pci_irqhandler_neutral.
Qed.

Lemma uio_serve_all_neutral udev qs : forall w,
  resource_neutral w (snd (uio_serve_all udev qs w)).
Proof.
  induction qs as [|q qs IH]; intros w; [apply resource_neutral_refl |].
  rewrite uio_serve_all_cons.
  eapply resource_neutral_trans; [apply uio_serve_neutral | apply IH].
Qed.

Lemma steady_refl udev w : w_bus w = [] -> mirrors_consistent w -> steady udev w w.
Proof.
  intros Hbus Hcons. split; [exact Hbus |]. split; [exact Hcons |].
  split; [reflexivity |]. split; [reflexivity |]. split; reflexivity.
Qed.

Lemma steady_masked_to udev state w0 w w' :
  steady udev w0 w ->
  masked_to udev state w w' ->
  w_drvdata w' = w_drvdata w ->
  steady udev w0 w'.
Proof.
  intros (_ & _ & Ha & Hd & Hc0 & Hm0) Hm Hd'.
  pose proof (masked_to_only_mask_bits _ _ _ _ Hm) as [Hc Hmm].
  destruct Hm as (Hq & Hmc & Ha' & _).
  split; [exact Hq |]. split; [exact Hmc |]. split; [congruence |].
  split; [congruence |]. split.
  - intros r i Hi Hno. rewrite Hc by assumption. apply Hc0; assumption.
  - intros a i Hi Hno. rewrite Hmm; [apply Hm0; assumption | exact Hi |].
    intros (Hmode & Hin & Hz). apply Hno. split; [exact Hmode |].
    split; [rewrite <- Ha; exact Hin | exact Hz].
Qed.

Lemma uio_serve_steady udev q w0 w :
  steady udev w0 w -> steady udev w0 (snd (uio_serve udev q w)).
Proof.
  intros Hs. pose proof Hs as (Hbus & Hcons & Ha & Hd & Hc0 & Hm0).
  pose proof (uio_serve_neutral udev q w) as [Hdrv _].
  rewrite uio_serve_unfold in *. destruct q as [irq_state | irq].
  - eapply steady_masked_to; [exact Hs | | exact Hdrv].
    apply igbuio_pci_irqcontrol_masked_to; assumption.
  - destruct (igbuio_pci_irqhandler_quiet irq udev w Hbus Hcons) as [Hours Hnot].
    destruct (interrupt_is_ours_dec udev w) as [Ho | Ho].
    + eapply steady_masked_to; [exact Hs | apply Hours, Ho | exact Hdrv].
    + destruct (Hnot Ho) as (_ & [Hsc Hsm] & Hl & Hq).
      destruct Hcons as (Hok & Hnd & Hmir).
      split; [exact Hq |]. split.
      { unfold mirrors_consistent. rewrite Hl. split; [exact Hok |]. split; [exact Hnd |].
        eapply Forall_impl; [exact Hmir |]. intros d Hdm. cbn beta in *.
        rewrite Hsm. exact Hdm. }
      split; [rewrite Hl; exact Ha |]. split; [congruence |]. split.
      * intros r i Hi Hno. rewrite Hsc. apply Hc0; assumption.
      * intros a i Hi Hno. rewrite Hsm. apply Hm0; assumption.
Qed.

Lemma uio_serve_all_steady udev qs w0 : forall w,
  steady udev w0 w -> steady udev w0 (snd (uio_serve_all udev qs w)).
Proof.
  induction qs as [|q qs IH]; intros w Hs; [exact Hs |].
  rewrite uio_serve_all_cons. apply IH, uio_serve_steady, Hs.
Qed.

(** X8. The two callbacks, called any number of times in any order on a
    device whose bus is quiet and whose mirrors are consistent: the bus
    stays quiet and the mirrors consistent, the driver data stays, no bit
    of configuration space or device memory other than a mask bit ever
    changes, and nothing is acquired or released. Whatever came before, a
    write of [irq_state] leaves the mask bits set exactly when
    [irq_state] is 0, and an interrupt of the device leaves them set. *)
Theorem callbacks_keep_device_steady udev qs w :
  w_bus w = [] ->
  mirrors_consistent w ->
  let w' := snd (uio_serve_all udev qs w) in
  steady udev w w'
  /\ resource_neutral w w'
  /\ (forall irq_state,
        mask_bits_are udev (snd (uio_serve_all udev (qs ++ [UioWrite irq_state]) w))
          (irq_state =? 0))
  /\ (forall irq,
        interrupt_is_ours udev w' ->
        mask_bits_are udev (snd (uio_serve_all udev (qs ++ [UioInterrupt irq]) w)) true).
Proof.
  intros Hbus Hcons w'.
  assert (Hs : steady udev w w') by (apply uio_serve_all_steady, steady_refl; assumption).
  split; [exact Hs |]. split; [apply uio_serve_all_neutral |].
  destruct Hs as (Hbus' & Hcons' & _). split.
  - intros irq_state. rewrite uio_serve_all_app. fold w'.
    rewrite uio_serve_all_cons. cbn [uio_serve_all]. unfold ret at 1. cbn [snd].
    rewrite uio_serve_unfold.
    eapply masked_to_mask_bits. apply igbuio_pci_irqcontrol_masked_to; assumption.
  - intros irq Hours. rewrite uio_serve_all_app. fold w'.
    rewrite uio_serve_all_cons. cbn [uio_serve_all]. unfold ret at 1. cbn [snd].
    rewrite uio_serve_unfold.
    destruct (igbuio_pci_irqhandler_quiet irq udev w' Hbus' Hcons') as [H _].
    destruct (H Hours) as [_ Hm]. exact (masked_to_mask_bits _ _ _ _ Hm).
Qed.

Lemma callbacks_keep_device_steady_witness :
  mask_bits_are udev_msix_example
    (snd (uio_serve_all udev_msix_example
            ([UioWrite 1; UioInterrupt 42; UioInterrupt 42] ++ [UioWrite 1])
            world_msix_example))
    false.
Proof.
  exact (proj1 (proj2 (proj2
           (callbacks_keep_device_steady udev_msix_example
              [UioWrite 1; UioInterrupt 42; UioInterrupt 42] world_msix_example
              eq_refl mirrors_consistent_example))) 1).
Defined.

(** ** Detach *)

Ltac remove_step :=
  cbv [bind ret emit put_msi_list put_drvdata uio_unregister_device pci_disable_msix
       pci_release_regions pci_disable_device pci_set_drvdata kfree kernel_acts
       w_cfg w_mmio w_msi_list w_drvdata w_bus w_trace fst snd].

Lemma igbuio_pci_remove_spec k udev w :
  w_drvdata w = Some udev ->
  fst (igbuio_pci_remove k w) = Some tt
  /\ w_trace (snd (igbuio_pci_remove k w)) = w_trace w ++ detach_events (mode udev)
  /\ w_drvdata (snd (igbuio_pci_remove k w)) = None.
Proof.
  destruct w as [cfg mmio msi drv bus tr]. cbn [w_drvdata]. intros ->.
  unfold igbuio_pci_remove, detach_events. cbv zeta. cbn [w_drvdata].
  destruct (mode udev); remove_step; rewrite <- !app_assoc;
    (split; [reflexivity | split; reflexivity]).
Qed.

Lemma igbuio_pci_remove_fault k w :
  fst (igbuio_pci_remove k w) = None <-> w_drvdata w = None.
Proof.
  destruct w as [cfg mmio msi [udev |] bus tr]; unfold igbuio_pci_remove; cbv zeta;
    cbn [w_drvdata].
  - destruct (mode udev); remove_step; split; intros H; discriminate H.
  - remove_step. split; reflexivity.
Qed.

(** X9. A whole life: an attach that returns 0, any calls of the two
    callbacks, then the detach. The detach runs to its end: the driver
    data it dereferences without a test is the context the attach stored,
    which the callbacks never touch (on a device without driver data it
    faults). It unregisters the device, gives back the MSI-X vector if
    the device is in MSI-X mode, the regions and the device, resets the
    driver data and frees the context, in this order, and makes no other
    call. Over the whole life everything the attach took is given back
    once, except the mapping of BAR 0: the detach never unmaps it. *)
Theorem attach_serve_detach k qs w :
  fst (igbuio_pci_probe k w) = 0 ->
  let udev := attached_context k in
  let w1 := snd (igbuio_pci_probe k w) in
  let w2 := snd (uio_serve_all udev qs w1) in
  let w3 := snd (igbuio_pci_remove k w2) in
  fst (igbuio_pci_remove k w2) = Some tt
  /\ (forall w0, fst (igbuio_pci_remove k w0) = None <-> w_drvdata w0 = None)
  /\ trace_since w2 w3 = detach_events (selected_mode k)
  /\ w_drvdata w3 = None
  /\ acquired (trace_since w w3)
     = [ResContext; ResDevice; ResRegions; ResIomem (bar0_ptr k); ResMsix]
  /\ released (trace_since w w3) = [ResMsix; ResRegions; ResDevice; ResContext]
  /\ bar0_ptr k <> 0.
Proof.
  intros Hst udev w1 w2 w3.
  rewrite (proj1 (igbuio_pci_probe_spec k w)) in Hst.
  apply probe_status_zero in Hst as [Hok Hur].
  destruct (igbuio_pci_probe_attach k w Hok) as (es & Hes & _ & Ht1 & Hd1 & _).
  fold w1 in Ht1, Hd1.
  destruct (uio_serve_all_neutral udev qs w1) as [Hd2 (es2 & Ht2 & Ha2 & Hr2)].
  fold w2 in Hd2, Ht2. rewrite Hd1 in Hd2.
  destruct (igbuio_pci_remove_spec k udev w2 Hd2) as (Hrc & Ht3 & Hd3).
  fold w3 in Ht3, Hd3.
  change (mode udev) with (selected_mode k) in Ht3.
  clearbody w1 w2 w3.
  destruct (mask_traffic_no_resources es Hes) as [Hacq Hrel].
  unfold probe_prefix_ok in Hok.
  apply andb_prop in Hok as [Hok Hiomem]. apply andb_prop in Hok as [Hok Hreg].
  apply andb_prop in Hok as [Hok Hdma]. apply andb_prop in Hok as [Hkz Hen].
  assert (Hio : (bar0_ptr k =? 0) = false).
  { unfold iomem_ok in Hiomem. apply negb_true_iff, orb_false_iff in Hiomem.
    apply Hiomem. }
  split; [exact Hrc |]. split; [intros w0; apply igbuio_pci_remove_fault |].
  split; [apply trace_since_app; exact Ht3 |]. split; [exact Hd3 |].
  assert (Hlife : trace_since w w3
                  = attach_events k es ++ es2 ++ detach_events (selected_mode k)).
  { apply trace_since_app. rewrite Ht3, Ht2, Ht1, <- !app_assoc. reflexivity. }
  rewrite Hlife. clear Hlife.
  rewrite !acquired_app, !released_app, Ha2, Hr2.
  unfold attach_events, detach_events, selected_mode.
  rewrite !acquired_app, !released_app, Hacq, Hrel, Hur.
  change (0 =? 0) with true. cbv iota.
  unfold acquired, released. cbn [omap list_omap acquires releases app].
  rewrite Hen, Hreg, Hio.
  split; [| split; [| apply Z.eqb_neq; exact Hio]].
  - destruct (k_pci_enable_msix k =? 0); reflexivity.
  - destruct (k_pci_enable_msix k =? 0); reflexivity.
Qed.

Lemma attach_serve_detach_witness :
  released (trace_since world_empty
              (snd (igbuio_pci_remove (kernel_env_programming (-28))
                 (snd (uio_serve_all (attached_context (kernel_env_programming (-28)))
                         [UioWrite 1; UioInterrupt 11]
                         (snd (igbuio_pci_probe (kernel_env_programming (-28))
                                 world_empty)))))))
  = [ResMsix; ResRegions; ResDevice; ResContext].
Proof.
  assert (Hst : fst (igbuio_pci_probe (kernel_env_programming (-28)) world_empty) = 0)
    by (vm_compute; reflexivity).
  exact (proj1 (proj2 (proj2 (proj2 (proj2 (proj2
           (attach_serve_detach (kernel_env_programming (-28))
              [UioWrite 1; UioInterrupt 11] world_empty Hst))))))).
Defined.

(** ** Failed attaches *)

Lemma mask_traffic_no_messages es :
  Forall (fun e => is_mask_traffic e = true) es ->
  drvdata_updates es = [] /\ kern_err_messages es = [].
Proof.
  induction 1 as [|e es He _ [IH1 IH2]]; [split; reflexivity |].
  unfold drvdata_updates, kern_err_messages in *. cbn [omap list_omap]. rewrite IH1, IH2.
  destruct e; try discriminate He; split; reflexivity.
Qed.

Lemma early_failure_events_quiet k :
  drvdata_updates (early_failure_events k) = []
  /\ Forall (fun e => is_mask_traffic e = false) (early_failure_events k)
  /\ kern_err_messages (early_failure_events k) =
       if negb (k_kzalloc k) then []
       else if negb (k_pci_enable_device k =? 0) then ["Cannot enable PCI device\n"]
       else if negb (k_pci_set_dma_mask k =? 0) then ["Cannot set DMA mask\n"]
       else if negb (k_pci_request_regions k =? 0) then ["Cannot request regions\n"]
       else [].
Proof.
  unfold early_failure_events.
  destruct (k_kzalloc k), (k_pci_enable_device k =? 0), (k_pci_set_dma_mask k =? 0),
    (k_pci_request_regions k =? 0),
    ((k_resource_start k 0 =? 0) || (k_resource_len k 0 =? 0));
    (split; [reflexivity | split; [repeat constructor | reflexivity]]).
Qed.

(** X10. The driver data after a failed attach. An attach that fails
    before the interrupt-mode block (allocation, enable, DMA mask,
    regions, BAR 0) never sets the driver data, leaves the msi list and
    the pending bus outcomes as they were, takes no lock and makes no
    access of its own to the device: only the kernel calls it made have
    acted on it. A failure of the uio registration comes after
    [pci_set_drvdata]: the unwinding frees the context as its last call
    and never resets the driver data, which still holds the freed context
    when the attach returns. *)
Theorem probe_failure_driver_data k w :
  let w' := snd (igbuio_pci_probe k w) in
  let t := trace_since w w' in
  (probe_prefix_ok k = false ->
     w_drvdata w' = w_drvdata w
     /\ drvdata_updates t = []
     /\ w_msi_list w' = w_msi_list w
     /\ w_bus w' = w_bus w
     /\ Forall (fun e => is_mask_traffic e = false) t)
  /\ (probe_prefix_ok k = true -> k_uio_register_device k <> 0 ->
        w_drvdata w' = Some (attached_context k)
        /\ drvdata_updates t = [true]
        /\ last t = Some EvKfree).
Proof.
  intros w' t. subst t w'. split.
  - intros Hok. destruct (igbuio_pci_probe_early k w Hok) as (_ & Ht & Hd & Hl & Hb).
    rewrite (trace_since_app _ _ _ Ht).
    destruct (early_failure_events_quiet k) as (Hup & Hquiet & _).
    split; [exact Hd |]. split; [exact Hup |]. split; [exact Hl |].
    split; [exact Hb | exact Hquiet].
  - intros Hok Hur. apply Z.eqb_neq in Hur.
    destruct (igbuio_pci_probe_attach k w Hok) as (es & Hes & _ & Ht & Hd & _).
    split; [exact Hd |]. rewrite (trace_since_app _ _ _ Ht).
    destruct (mask_traffic_no_messages es Hes) as [Hup _].
    unfold attach_events. rewrite Hur. split.
    + unfold drvdata_updates in *. rewrite !omap_app, Hup.
      destruct (k_pci_enable_msix k =? 0); reflexivity.
    + change [EvPciReleaseRegions; EvPciDisableDevice; EvKfree]
        with ([EvPciReleaseRegions; EvPciDisableDevice] ++ [EvKfree]).
      rewrite !app_assoc. apply last_snoc.
Qed.

Lemma probe_failure_driver_data_witness :
  w_drvdata (snd (igbuio_pci_probe kernel_env_no_register world_empty))
    = Some (attached_context kernel_env_no_register)
  /\ last (trace_since world_empty (snd (igbuio_pci_probe kernel_env_no_register world_empty)))
     = Some EvKfree.
Proof.
  destruct (proj2 (probe_failure_driver_data kernel_env_no_register world_empty)
              eq_refl ltac:(discriminate)) as (Hd & _ & Hl).
  split; [exact Hd | exact Hl].
Defined.

(** X11. What a failing attach reports. The attach prints exactly one
    [KERN_ERR] message when enabling the device, setting the DMA mask or
    reserving the regions fails, and none otherwise: a failed allocation,
    an absent or unmappable BAR 0 and a refused uio registration fail the
    attach without a message. *)
Theorem probe_error_messages k w :
  kern_err_messages (trace_since w (snd (igbuio_pci_probe k w))) =
    if negb (k_kzalloc k) then []
    else if negb (k_pci_enable_device k =? 0) then ["Cannot enable PCI device\n"]
    else if negb (k_pci_set_dma_mask k =? 0) then ["Cannot set DMA mask\n"]
    else if negb (k_pci_request_regions k =? 0) then ["Cannot request regions\n"]
    else [].
Proof.
  destruct (probe_prefix_ok k) eqn:Hok.
  - destruct (igbuio_pci_probe_attach k w Hok) as (es & Hes & _ & Ht & _ & _).
    rewrite (trace_since_app _ _ _ Ht).
    destruct (mask_traffic_no_messages es Hes) as [_ Hmsg].
    unfold probe_prefix_ok in Hok.
    apply andb_prop in Hok as [Hok _]. apply andb_prop in Hok as [Hok Hreg].
    apply andb_prop in Hok as [Hok Hdma]. apply andb_prop in Hok as [Hkz Hen].
    rewrite Hkz, Hen, Hdma, Hreg. cbn [negb].
    unfold attach_events, kern_err_messages in *. rewrite !omap_app, Hmsg.
    destruct (k_pci_enable_msix k =? 0), (k_uio_register_device k =? 0); reflexivity.
  - destruct (igbuio_pci_probe_early k w Hok) as (_ & Ht & _).
    rewrite (trace_since_app _ _ _ Ht). apply early_failure_events_quiet.
Qed.
